(** * The property bot's conversation router and slot calculation

    A shallow embedding of [handleMessage] (both versions kept in the
    repository: the enhanced one with natural-language phrases and the
    follow-up handler, and the plain one) and of the slot calculation behind
    [/api/available-slots].

    Conventions of the embedding.
    - A JavaScript string is a [string]: the characters are 8-bit, and the
      classification of characters (letters, digits, white space, case) is
      the one of ASCII; a character above 127 is in no class and has no case.
      On a text written in ASCII ([ascii_text]) this is the reading of
      JavaScript; the statements that depend on how a text is read assume
      it of the message and of the property types.
    - A JavaScript number is a [number]: [Int z] is exact up to 2^53, the
      other doubles the router can compute are kept as the expression that
      produces them ([Flt]); their text is the one of the double, rounded
      and printed as IEEE 754 and [Number.prototype.toString] say
      ([Double]).
    - An object is the list of its own properties in insertion order.
    - [console.log] and [console.error] are not modelled. *)

From Stdlib Require Import ZArith List Bool Ascii String Lia DecimalString DecimalPos.
From Stdlib Require Import Sorted Permutation.
Import ListNotations.
Local Open Scope string_scope.
Local Open Scope Z_scope.

(** ** Characters and strings *)

Module Text.

Definition code (c : ascii) : N := N_of_ascii c.

Definition between (lo hi : N) (c : ascii) : bool :=
  (lo <=? code c)%N && (code c <=? hi)%N.

Definition is_digit : ascii -> bool := between 48 57.
Definition is_upper : ascii -> bool := between 65 90.
Definition is_lower : ascii -> bool := between 97 122.
Definition is_alpha (c : ascii) : bool := is_lower c || is_upper c.

(** [\s] among the ASCII characters: tab, line feed, vertical tab, form
    feed, carriage return, space. (JavaScript counts further white space
    beyond ASCII, the no-break space among it.) *)
Definition is_space (c : ascii) : bool := between 9 13 c || (code c =? 32)%N.

(** What [.] refuses: the line terminators. *)
Definition is_newline (c : ascii) : bool := (code c =? 10)%N || (code c =? 13)%N.

Definition lower_char (c : ascii) : ascii :=
  if is_upper c then ascii_of_N (code c + 32) else c.

Definition upper_char (c : ascii) : ascii :=
  if is_lower c then ascii_of_N (code c - 32) else c.

Fixpoint map (f : ascii -> ascii) (s : string) : string :=
  match s with
  | EmptyString => EmptyString
  | String c s' => String (f c) (map f s')
  end.

(** [s.toLowerCase()] and [s.toUpperCase()] of an ASCII text: the letters
    A to Z and a to z change case, a character above 127 is left as it is. *)
Definition toLowerCase : string -> string := map lower_char.
Definition toUpperCase : string -> string := map upper_char.

(** [s.replace(/[^...]/g, '')]: the characters of the class are kept. *)
Fixpoint keep (p : ascii -> bool) (s : string) : string :=
  match s with
  | EmptyString => EmptyString
  | String c s' => if p c then String c (keep p s') else keep p s'
  end.

Fixpoint trimStart (s : string) : string :=
  match s with
  | String c s' => if is_space c then trimStart s' else s
  | EmptyString => EmptyString
  end.

Fixpoint rev_onto (s acc : string) : string :=
  match s with
  | EmptyString => acc
  | String c s' => rev_onto s' (String c acc)
  end.

Definition rev (s : string) : string := rev_onto s EmptyString.

Definition trimEnd (s : string) : string := rev (trimStart (rev s)).

(** [s.trim()] of an ASCII text: the white space of [is_space] is removed at
    both ends. *)
Definition trim (s : string) : string := trimEnd (trimStart s).

(** [s.includes(sub)] *)
Fixpoint includes (sub s : string) : bool :=
  prefix sub s ||
  match s with
  | EmptyString => false
  | String _ s' => includes sub s'
  end.

(** [s.split(c)] for a one-character separator: the pieces between the
    separators, empty ones included; the empty string gives one empty piece. *)
Fixpoint split_rec (sep : ascii) (s cur : string) : list string :=
  match s with
  | EmptyString => [rev cur]
  | String c s' =>
      if Ascii.eqb c sep then rev cur :: split_rec sep s' EmptyString
      else split_rec sep s' (String c cur)
  end.

Definition split (sep : ascii) (s : string) : list string :=
  split_rec sep s EmptyString.

(** [s.split(/\s+/)]: the pieces between the maximal runs of white space. *)
Fixpoint split_spaces_rec (s cur : string) (inrun : bool) : list string :=
  match s with
  | EmptyString => if inrun then [EmptyString] else [rev cur]
  | String c s' =>
      if is_space c then
        if inrun then split_spaces_rec s' cur true
        else rev cur :: split_spaces_rec s' EmptyString true
      else split_spaces_rec s' (String c cur) false
  end.

Definition split_spaces (s : string) : list string :=
  split_spaces_rec s EmptyString false.

Definition join (sep : string) (l : list string) : string := concat sep l.

(** [w.charAt(0).toUpperCase() + w.slice(1)] and the variant that also
    lowers the rest. *)
Definition capitalize (w : string) : string :=
  match w with
  | EmptyString => EmptyString
  | String c w' => String (upper_char c) w'
  end.

Definition capitalize_lower (w : string) : string :=
  match w with
  | EmptyString => EmptyString
  | String c w' => String (upper_char c) (toLowerCase w')
  end.

(** [s.length] of an ASCII text: one unit for each character. *)
Definition len (s : string) : Z := Z.of_nat (String.length s).

(** The decimal digits of an integer, as [Number.prototype.toString] prints
    an integer below 10^21. *)
Definition digits (z : Z) : string := NilZero.string_of_int (Z.to_int z).

(** Several lines of a template literal. *)
Definition nl : string := String (ascii_of_N 10) EmptyString.
Definition lines (l : list string) : string := concat nl l.

End Text.

(** ** Regular expressions

    The backtracking matcher of JavaScript for the constructs the router's
    patterns use: greedy repetition, ordered alternation, capture groups,
    [^] and [$] without the [m] flag, and the leftmost match of an unanchored
    pattern. *)

Module Regex.

Inductive regex :=
| Eps
| Cls (p : ascii -> bool)
| Seq (r1 r2 : regex)
| Alt (r1 r2 : regex)
| Star (r : regex)
| Grp (i : nat) (r : regex)
| Bol
| Eol.

Definition captures := list (nat * string).

Fixpoint group (i : nat) (c : captures) : option string :=
  match c with
  | [] => None
  | (j, s) :: c' => if Nat.eqb i j then Some s else group i c'
  end.

(** The text consumed between the rest [s] and the later rest [s']. *)
Definition consumed (s s' : string) : string :=
  substring 0 (String.length s - String.length s') s.

(** The greedy loop of [r*]: one more round of [step] as long as it
    consumes something, then the continuation; the rounds are bounded by the
    length of the input. *)
Fixpoint star_loop
    (step : bool -> string -> captures ->
            (bool -> string -> captures -> option captures) -> option captures)
    (k : bool -> string -> captures -> option captures)
    (fuel : nat) (st : bool) (s : string) (caps : captures) : option captures :=
  match fuel with
  | O => k st s caps
  | S fuel' =>
      match
        step st s caps
          (fun st' s' caps' =>
             if Nat.ltb (String.length s') (String.length s)
             then star_loop step k fuel' st' s' caps'
             else None)
      with
      | Some c => Some c
      | None => k st s caps
      end
  end.

(** [run r start s caps k]: match [r] at the head of [s] ([start] tells
    whether this is the beginning of the input), then continue with [k]; the
    first success in the order of the backtracking search is returned. *)
Fixpoint run (r : regex) (start : bool) (s : string) (caps : captures)
    (k : bool -> string -> captures -> option captures) {struct r}
    : option captures :=
  match r with
  | Eps => k start s caps
  | Cls p =>
      match s with
      | String c s' => if p c then k false s' caps else None
      | EmptyString => None
      end
  | Seq r1 r2 => run r1 start s caps (fun st s' caps' => run r2 st s' caps' k)
  | Alt r1 r2 =>
      match run r1 start s caps k with
      | Some c => Some c
      | None => run r2 start s caps k
      end
  | Star r1 => star_loop (run r1) k (String.length s) start s caps
  | Grp i r1 =>
      run r1 start s caps (fun st s' caps' => k st s' ((i, consumed s s') :: caps'))
  | Bol => if start then k start s caps else None
  | Eol => match s with EmptyString => k start s caps | _ => None end
  end.

Fixpoint search (r : regex) (start : bool) (s : string) : option captures :=
  match run (Grp 0 r) start s [] (fun _ _ c => Some c) with
  | Some c => Some c
  | None =>
      match s with
      | EmptyString => None
      | String _ s' => search r false s'
      end
  end.

(** [s.match(r)]: the captures of the leftmost match, group 0 being the
    matched text; [None] is JavaScript's [null]. *)
Definition exec (r : regex) (s : string) : option captures := search r true s.

(** [s.match(r)] read as a condition. *)
Definition test (r : regex) (s : string) : bool :=
  match exec r s with Some _ => true | None => false end.

(** [s.match(r)[i]] after a successful match. *)
Definition capture (i : nat) (r : regex) (s : string) : option string :=
  match exec r s with Some c => group i c | None => None end.

(** Pattern syntax. *)
Definition chr (c : ascii) : regex := Cls (Ascii.eqb c).
Definition chr_i (c : ascii) : regex :=
  Cls (fun x => Ascii.eqb (Text.lower_char x) (Text.lower_char c)).

Fixpoint lit (s : string) : regex :=
  match s with
  | EmptyString => Eps
  | String c s' => Seq (chr c) (lit s')
  end.

(** A literal under the [i] flag. *)
Fixpoint lit_i (s : string) : regex :=
  match s with
  | EmptyString => Eps
  | String c s' => Seq (chr_i c) (lit_i s')
  end.

Definition plus (r : regex) : regex := Seq r (Star r).
Definition opt (r : regex) : regex := Alt r Eps.
Definition at_least2 (r : regex) : regex := Seq r (Seq r (Star r)).
Definition at_least3 (r : regex) : regex := Seq r (Seq r (Seq r (Star r))).
Definition dot : regex := Cls (fun c => negb (Text.is_newline c)).
Definition digit : regex := Cls Text.is_digit.
Definition space : regex := Cls Text.is_space.
Definition alpha : regex := Cls Text.is_alpha.

Fixpoint alts (l : list regex) : regex :=
  match l with
  | [] => Cls (fun _ => false)
  | [r] => r
  | r :: l' => Alt r (alts l')
  end.

Fixpoint seqs (l : list regex) : regex :=
  match l with
  | [] => Eps
  | [r] => r
  | r :: l' => Seq r (seqs l')
  end.

End Regex.

(** ** Doubles

    The doubles above zero, with the rounding of IEEE 754 to the nearest
    double, ties to even, and the text that [Number.prototype.toString]
    gives them. *)

Module Double.

Inductive double :=
| Zero
| Finite (m e : Z)
| Infinity.

(** The integer nearest to [p / q], the even one of two ([0 <= p],
    [0 < q]). *)
Definition nearest (p q : Z) : Z :=
  let d := p / q in
  let r := p mod q in
  if 2 * r <? q then d
  else if q <? 2 * r then d + 1
  else if Z.even d then d else d + 1.

(** [p / q] divided by [2^e], as a fraction. *)
Definition scaled (p q e : Z) : Z * Z :=
  if e <? 0 then (p * 2 ^ (- e), q) else (p, q * 2 ^ e).

(** The double nearest to [p / q] ([0 <= p], [0 < q]): 53 bits at the
    exponent of [p / q], which is at least -1074; [Infinity] beyond the
    largest double. *)
Definition round (p q : Z) : double :=
  if p =? 0 then Zero
  else
    let e0 := Z.log2 p - Z.log2 q - 52 in
    let '(a, b) := scaled p q e0 in
    let e1 := if a <? b * 2 ^ 52 then e0 - 1 else e0 in
    let e := Z.max e1 (- 1074) in
    let '(a', b') := scaled p q e in
    let m := nearest a' b' in
    let '(m', e') := if m =? 2 ^ 53 then (2 ^ 52, e + 1) else (m, e) in
    if m' =? 0 then Zero
    else if 971 <? e' then Infinity
    else Finite m' e'.

(** The value of a finite double, as a fraction. *)
Definition fraction (m e : Z) : Z * Z :=
  if e <? 0 then (m, 2 ^ (- e)) else (m * 2 ^ e, 1).

(** [d * k] for a whole number [k] above zero. *)
Definition times (d : double) (k : Z) : double :=
  match d with
  | Zero => Zero
  | Finite m e => let '(p, q) := fraction m e in round (p * k) q
  | Infinity => Infinity
  end.

Definition same (a b : double) : bool :=
  match a, b with
  | Zero, Zero => true
  | Finite m e, Finite m' e' => (m =? m') && (e =? e')
  | Infinity, Infinity => true
  | _, _ => false
  end.

(** [p / q] divided by [10^x], as a fraction. *)
Definition shifted (p q x : Z) : Z * Z :=
  if x <? 0 then (p * 10 ^ (- x), q) else (p, q * 10 ^ x).

(** The [n] with [10^(n-1) <= p / q < 10^n] ([0 < p], [0 < q]): the number
    of digits of the whole part, or the place of the first digit after the
    point, looked for among the first [fuel] places. *)
Fixpoint place (fuel : nat) (p q : Z) (j : Z) : Z :=
  match fuel with
  | O => 1 - j
  | S fuel' => if q <=? p * 10 ^ j then 1 - j else place fuel' p q (j + 1)
  end.

Definition magnitude (p q : Z) : Z :=
  if q <=? p then Z.of_nat (String.length (Text.digits (p / q)))
  else place 400 p q 1.

(** The digits [s] (there are [k] of them) and the place [n] of
    [Number::toString]: [s * 10^(n-k)] rounds to the double, [k] is as
    small as possible, and [s * 10^(n-k)] is as near to the double as
    [k] digits allow. With [k] digits the two numbers to try are the one
    below the double and the one above it. *)
Fixpoint shortest (fuel : nat) (k : Z) (d : double) (p q n : Z) : Z * Z * Z :=
  let x := n - k in
  let '(a, b) := shifted p q x in
  let lo := a / b in
  let hi := lo + 1 in
  let rounds (s : Z) :=
    let '(c, c') := if x <? 0 then (s, 10 ^ (- x)) else (s * 10 ^ x, 1) in
    same (round c c') d in
  let take (s : Z) := if s =? 10 ^ k then (10 ^ (k - 1), k, n + 1) else (s, k, n) in
  match fuel with
  | O => (lo, k, n)
  | S fuel' =>
      if rounds lo then
        if rounds hi then
          if nearest a b =? lo then take lo else take hi
        else take lo
      else if rounds hi then take hi
      else shortest fuel' (k + 1) d p q n
  end.

Fixpoint zeros (n : nat) : string :=
  match n with
  | O => EmptyString
  | S n' => String "0" (zeros n')
  end.

(** The text of a number with the digits [s] and the place [n]. *)
Definition written (s k n : Z) : string :=
  let ds := Text.digits s in
  if (k <=? n) && (n <=? 21) then ds ++ zeros (Z.to_nat (n - k))
  else if (0 <? n) && (n <=? 21) then
    substring 0 (Z.to_nat n) ds ++ "." ++ substring (Z.to_nat n) (Z.to_nat (k - n)) ds
  else if (- 6 <? n) && (n <=? 0) then "0." ++ zeros (Z.to_nat (- n)) ++ ds
  else
    let e := n - 1 in
    let exponent := (if e <? 0 then "e-" else "e+") ++ Text.digits (Z.abs e) in
    if k =? 1 then ds ++ exponent
    else substring 0 1 ds ++ "." ++ substring 1 (Z.to_nat (k - 1)) ds ++ exponent.

(** [d.toString()] *)
Definition toString (d : double) : string :=
  match d with
  | Zero => "0"
  | Infinity => "Infinity"
  | Finite m e =>
      let '(p, q) := fraction m e in
      let '(s, k, n) := shortest 17 1 d p q (magnitude p q) in
      written s k n
  end.

End Double.

(** ** Numbers, values and objects *)

Module Js.

(** A number of the router. [Int z] is the integer [z], exact in a double
    when its magnitude is at most 2^53. [Flt m s k] is the double that
    JavaScript computes for the literal [m / 10^s] multiplied by [k]: the
    literal rounded to a double, then the product rounded. *)
Inductive number :=
| NaN
| Int (z : Z)
| Flt (m : Z) (s : nat) (k : Z).

Definition safe (z : Z) : bool := Z.abs z <=? 2 ^ 53.

Definition of_integer (z : Z) : number := if safe z then Int z else Flt z 0 1.

(** [n * k] for an integer constant [k]; the router multiplies a parsed
    literal once. *)
Definition times (n : number) (k : Z) : number :=
  match n with
  | NaN => NaN
  | Int z => if safe (z * k) then Int (z * k) else Flt z 0 k
  | Flt m s k0 => Flt m s (k0 * k)
  end.

Definition isNaN (n : number) : bool :=
  match n with NaN => true | _ => false end.

(** [n < c] and [n > c] against a small integer constant, for the numbers
    [parseInt] returns: an [Int], or an [Flt] of magnitude above 2^53,
    whose rounding cannot cross [c]. *)
Definition lt (n : number) (c : Z) : bool :=
  match n with
  | NaN => false
  | Int z => z <? c
  | Flt m s k => m * k <? c * 10 ^ Z.of_nat s
  end.

Definition gt (n : number) (c : Z) : bool :=
  match n with
  | NaN => false
  | Int z => c <? z
  | Flt m s k => c * 10 ^ Z.of_nat s <? m * k
  end.

Definition truthy_number (n : number) : bool :=
  match n with
  | NaN => false
  | Int z => negb (z =? 0)
  | Flt m s k => negb (m * k =? 0)
  end.

(** Digits read in a radix. *)
Definition digit_value (c : ascii) : option Z :=
  if Text.is_digit c then Some (Z.of_N (Text.code c) - 48)
  else if Text.between 97 102 c then Some (Z.of_N (Text.code c) - 87)
  else if Text.between 65 70 c then Some (Z.of_N (Text.code c) - 55)
  else None.

(** The longest prefix of digits of the radix: how many there are, and
    their value after [acc]. *)
Fixpoint read_digits (radix : Z) (s : string) (acc : Z) (n : nat) : Z * nat * string :=
  match s with
  | EmptyString => (acc, n, s)
  | String c s' =>
      match digit_value c with
      | Some d => if d <? radix then read_digits radix s' (acc * radix + d) (S n)
                  else (acc, n, s)
      | None => (acc, n, s)
      end
  end.

(** [parseInt(s)]: leading white space, a sign, [0x] for radix 16, then the
    longest run of digits; [NaN] when there is none. *)
Definition parseInt (s : string) : number :=
  let s1 := Text.trimStart s in
  let '(neg, s2) :=
    match s1 with
    | String "-" r => (true, r)
    | String "+" r => (false, r)
    | _ => (false, s1)
    end in
  let '(radix, s3) :=
    match s2 with
    | String "0" (String "x" r) => (16, r)
    | String "0" (String "X" r) => (16, r)
    | _ => (10, s2)
    end in
  let '(v, n, _) := read_digits radix s3 0 0 in
  match n with
  | O => NaN
  | _ => of_integer (if neg then - v else v)
  end.

(** [parseFloat(s)] on the strings the router gives it: digits and dots with
    at most a final letter. The longest prefix [digits] [. digits] carrying
    at least one digit is read; [NaN] when there is none. *)
Definition parseFloat (s : string) : number :=
  let '(ip, n1, r1) := read_digits 10 s 0 0 in
  let '(m, n2) :=
    match r1 with
    | String "." r2 => let '(v, n, _) := read_digits 10 r2 ip 0 in (v, n)
    | _ => (ip, O)
    end in
  match n1, n2 with
  | O, O => NaN
  | _, _ =>
      if m mod 10 ^ Z.of_nat n2 =? 0 then of_integer (m / 10 ^ Z.of_nat n2)
      else Flt m n2 1
  end.

(** A field of the request body as it arrives: absent, or a JSON scalar.
    [JNum z] is an integer-valued number. *)
Inductive json :=
| JUndefined
| JNull
| JBool (b : bool)
| JNum (z : Z)
| JStr (s : string).

(** What the router builds. [VObjectConstructor] and [VObjectPrototype] are
    what a property read on a fresh object finds under [constructor] and
    [__proto__]. *)
#[local] Set Warnings "-register-all".
Inductive value :=
| VUndefined
| VNull
| VBool (b : bool)
| VNum (n : number)
| VStr (s : string)
| VObjectConstructor
| VObjectPrototype
| VObject (props : list (string * value)).

Definition object := list (string * value).

Definition of_json (j : json) : value :=
  match j with
  | JUndefined => VUndefined
  | JNull => VNull
  | JBool b => VBool b
  | JNum z => VNum (Int z)
  | JStr s => VStr s
  end.

Definition truthy_json (j : json) : bool :=
  match j with
  | JUndefined | JNull => false
  | JBool b => b
  | JNum z => negb (z =? 0)
  | JStr s => negb (String.eqb s "")
  end.

Definition truthy (v : value) : bool :=
  match v with
  | VUndefined | VNull => false
  | VBool b => b
  | VNum n => truthy_number n
  | VStr s => negb (String.eqb s "")
  | VObjectConstructor | VObjectPrototype | VObject _ => true
  end.

(** [a || b] *)
Definition or_else (a b : json) : json := if truthy_json a then a else b.

(** The text of the double [Flt m s k]: the literal [|m| / 10^s] rounded,
    the product by [|k|] rounded, and the sign. *)
Definition double_text (m : Z) (s : nat) (k : Z) : string :=
  let d := Double.times (Double.round (Z.abs m) (10 ^ Z.of_nat s)) (Z.abs k) in
  match d with
  | Double.Zero => "0"
  | _ =>
      (if (m <? 0) && (0 <? k) || (0 <? m) && (k <? 0) then "-" else "")
      ++ Double.toString d
  end.

(** [`${j}`]; a whole number beyond 2^53 is printed as the double nearest
    to it. *)
Definition show (j : json) : string :=
  match j with
  | JUndefined => "undefined"
  | JNull => "null"
  | JBool true => "true"
  | JBool false => "false"
  | JNum z => if safe z then Text.digits z else double_text z 0 1
  | JStr s => s
  end.

(** [n.toString()] *)
Definition number_toString (n : number) : value :=
  match n with
  | NaN => VStr "NaN"
  | Int z => VStr (Text.digits z)
  | Flt m s k => VStr (double_text m s k)
  end.

(** [j === "..."] *)
Definition is_string (j : json) (s : string) : bool :=
  match j with JStr x => String.eqb x s | _ => false end.

(** Property read [o.k] on an object built by the router, and the update
    [o.k = v], which keeps the position of a property already there. *)
Fixpoint prop (k : string) (o : object) : value :=
  match o with
  | [] => VUndefined
  | (k', v) :: o' => if String.eqb k k' then v else prop k o'
  end.

Fixpoint has (k : string) (o : object) : bool :=
  match o with
  | [] => false
  | (k', _) :: o' => String.eqb k k' || has k o'
  end.

Fixpoint set (k : string) (v : value) (o : object) : object :=
  match o with
  | [] => [(k, v)]
  | (k', v') :: o' => if String.eqb k k' then (k, v) :: o' else (k', v') :: set k v o'
  end.

(** Completion of a function body: a returned value or a thrown exception. *)
Inductive result (A : Type) :=
| Ok (a : A)
| Throw.
Arguments Ok {A} a.
Arguments Throw {A}.

Definition bind {A B} (r : result A) (f : A -> result B) : result B :=
  match r with Ok a => f a | Throw => Throw end.

(** A method of [String.prototype] called on [j]: a [TypeError] unless [j]
    is a string. *)
Definition receiver (j : json) : result string :=
  match j with JStr s => Ok s | _ => Throw end.

End Js.

Notation "x <- r ;; k" := (Js.bind r (fun x => k))
  (at level 61, r at next level, right associativity).

(** ** The request of the router *)

(** The fields [handleMessage] reads from its argument. *)
Record Input := {
  message : Js.json;
  from : Js.json;
  lead_id : Js.json;
  lead_stage : Js.json;
  lead_interest : Js.json;
  lead_budget : Js.json;
  lead_location : Js.json;
  lead_size : Js.json;
  lead_name : Js.json;
  awaiting_followup_response : Js.json;
  last_viewed_property : Js.json;
  tenant_bot_name : Js.json;
  tenant_company_name : Js.json;
  tenant_property_types : Js.json;
  tenant_id : Js.json;
  tenant_whatsapp : Js.json
}.

(** The argument of [handleMessage]: [null] or [undefined], on which every
    property read throws, or a value with the fields above (a field that is
    absent reads as [JUndefined]). *)
Inductive argument :=
| Nullish
| Fields (input : Input).

Definition fields (a : argument) : Js.result Input :=
  match a with Nullish => Js.Throw | Fields i => Js.Ok i end.



(** ** The enhanced router: natural-language phrases and follow-up handler *)

Module Enhanced.
Import Js Regex.

(** The patterns, in the order of the source; the groups that the router
    never reads are not numbered. *)
(** [/^(hi|hello|hey|start|helo|restart)$/] *)
Definition re_greeting : regex :=
  seqs [Bol; alts [lit "hi"; lit "hello"; lit "hey"; lit "start"; lit "helo";
                   lit "restart"]; Eol].
(** [/my name is (.+)/i] *)
Definition re_my_name_is : regex := seqs [lit_i "my name is "; Grp 1 (plus dot)].
(** [/i am (.+)/i] *)
Definition re_i_am : regex := seqs [lit_i "i am "; Grp 1 (plus dot)].
(** [/i'm (.+)/i] *)
Definition re_im : regex := seqs [lit_i "i'm "; Grp 1 (plus dot)].
(** [/this is (.+)/i] *)
Definition re_this_is : regex := seqs [lit_i "this is "; Grp 1 (plus dot)].
(** [/^[a-zA-Z]{2,}(\s[a-zA-Z]{2,})*$/] *)
Definition re_direct_name : regex :=
  seqs [Bol; at_least2 alpha; Star (Seq space (at_least2 alpha)); Eol].
(** [/budget is (.+)/i] *)
Definition re_budget_is : regex := seqs [lit_i "budget is "; Grp 1 (plus dot)].
(** [/i have (.+)/i] *)
Definition re_i_have : regex := seqs [lit_i "i have "; Grp 1 (plus dot)].
(** [/around (.+)/i] *)
Definition re_around : regex := seqs [lit_i "around "; Grp 1 (plus dot)].
(** [/about (.+)/i] *)
Definition re_about : regex := seqs [lit_i "about "; Grp 1 (plus dot)].
(** The characters that [replace(/[^0-9.,mkMK]/g, '')] keeps. *)
Definition budget_char (c : ascii) : bool :=
  Text.is_digit c || Ascii.eqb c "." || Ascii.eqb c "," || Ascii.eqb c "m"
  || Ascii.eqb c "k" || Ascii.eqb c "M" || Ascii.eqb c "K".
(** The class of digits, dot and comma of the two budget patterns. *)
Definition amount_char (c : ascii) : bool :=
  Text.is_digit c || Ascii.eqb c "." || Ascii.eqb c ",".
(** [/^[\d.,]+[MK]?$/] *)
Definition re_budget_shape : regex :=
  seqs [Bol; plus (Cls amount_char); opt (alts [chr "M"; chr "K"]); Eol].
(** [/in (.+)/i] *)
Definition re_in : regex := seqs [lit_i "in "; Grp 1 (plus dot)].
(** [/at (.+)/i] *)
Definition re_at : regex := seqs [lit_i "at "; Grp 1 (plus dot)].
(** [/[a-zA-Z]{2,}/] *)
Definition re_two_letters : regex := at_least2 alpha.
(** [/(\d+)\s*bed/i] *)
Definition re_n_bed : regex := seqs [Grp 1 (plus digit); Star space; lit_i "bed"].
(** [/i (want|need) (...)/i] *)
Definition re_want_need (r : regex) : regex :=
  seqs [lit_i "i "; Grp 1 (alts [lit_i "want"; lit_i "need"]); lit_i " "; Grp 2 r].
(** [/i (want|need) (\d+)/i] *)
Definition re_i_want_n : regex := re_want_need (plus digit).
(** [/^(\d+)$/ and /^\d+$/] *)
Definition re_number_only : regex := seqs [Bol; Grp 1 (plus digit); Eol].
(** [/(\d+x\d+|\d+\/\d+|\d+\s*acre)/i] *)
Definition re_plot : regex :=
  Grp 1 (alts [seqs [plus digit; lit_i "x"; plus digit];
               seqs [plus digit; lit "/"; plus digit];
               seqs [plus digit; Star space; lit_i "acre"]]).
(** [/i (want|need) (.+)/i] *)
Definition re_i_want_any : regex := re_want_need (plus dot).
(** [/property\s*(\d+)/i] *)
Definition re_property_n : regex := seqs [lit_i "property"; Star space; Grp 1 (plus digit)].
(** [/number\s*(\d+)/i] *)
Definition re_number_n : regex := seqs [lit_i "number"; Star space; Grp 1 (plus digit)].
(** [/slot\s*(\d+)/i] *)
Definition re_slot_n : regex := seqs [lit_i "slot"; Star space; Grp 1 (plus digit)].
(** [/cancel/i] *)
Definition re_cancel : regex := lit_i "cancel".

(** [let response = { ... }] *)
Definition response0 : object :=
  [("action", VStr ""); ("updateFields", VObject []); ("replyMessage", VStr "");
   ("createLead", VBool false); ("searchProperties", VBool false);
   ("bookingRequest", VBool false); ("interest", VStr "");
   ("bedrooms", VNum (Int 0)); ("requestedBedrooms", VNum (Int 0));
   ("propertyNumber", VNum (Int 0)); ("location", VStr "");
   ("selectedTime", VStr ""); ("plotSize", VStr "")].

Fixpoint indexed {A} (i : Z) (l : list A) : list (Z * A) :=
  match l with
  | [] => []
  | x :: l' => (i, x) :: indexed (i + 1) l'
  end.

(** [types.split(',').map(t => t.trim())] *)
Definition typesList (tenantTypes : string) : list string :=
  List.map Text.trim (Text.split "," tenantTypes).

Definition formatOptions (types : string) : string :=
  Text.join Text.nl
    (List.map (fun '(index, t) => Text.digits (index + 1) ++ "️⃣ " ++ Text.trim t)
       (indexed 0 (Text.split "," types))).

(** The object [typeMapping]: a string stored under [__proto__] is dropped
    by the setter of that name, and a read falls back on what a fresh object
    inherits under the two names a lower-case message can spell. *)
Definition store (k : string) (v : string) (o : object) : object :=
  if String.eqb k "__proto__" then o else set k (VStr v) o.

Definition typeMapping (types : list string) : object :=
  fold_left
    (fun o '(index, type) =>
       store (Text.toLowerCase type) type (store (Text.digits (index + 1)) type o))
    (indexed 0 types) [].

Definition read (o : object) (k : string) : value :=
  if String.eqb k "__proto__" then VObjectPrototype
  else if has k o then prop k o
  else if String.eqb k "constructor" then VObjectConstructor
  else VUndefined.

(** A value that is [null], [undefined] or a string ([detectedType]). *)
Definition filled (t : option string) : bool :=
  match t with Some s => negb (String.eqb s "") | None => false end.

Definition show_opt (t : option string) : string :=
  match t with Some s => s | None => "undefined" end.

Definition value_opt (t : option string) : value :=
  match t with Some s => VStr s | None => VUndefined end.

(** The detection of the interest in the first message. *)
Definition detect (types : list string) (lowerMsg : string) : option string :=
  let d0 := find (fun type => Text.includes (Text.toLowerCase type) lowerMsg) types in
  let d1 :=
    if negb (filled d0)
       && (Text.includes "buy" lowerMsg || Text.includes "purchase" lowerMsg
           || Text.includes "invest" lowerMsg)
    then find (fun t => Text.includes "buy" (Text.toLowerCase t)) types else d0 in
  let d2 :=
    if negb (filled d1)
       && (Text.includes "rent" lowerMsg || Text.includes "lease" lowerMsg)
    then find (fun t => Text.includes "rent" (Text.toLowerCase t)) types else d1 in
  if negb (filled d2)
     && (Text.includes "land" lowerMsg || Text.includes "plot" lowerMsg
         || Text.includes "acre" lowerMsg)
  then find (fun t => Text.includes "land" (Text.toLowerCase t)) types else d2.

(** Stage 2: the name found in the message; [""] when no format applies. *)
Definition name_in (message : string) : string :=
  match capture 1 re_my_name_is message with
  | Some n => n
  | None =>
  match capture 1 re_i_am message with
  | Some n => n
  | None =>
  match capture 1 re_im message with
  | Some n => n
  | None =>
  match capture 1 re_this_is message with
  | Some n => n
  | None => if test re_direct_name message then message else ""
  end end end end.

Definition name_ok (name : string) : bool :=
  negb (String.eqb name "" || (Text.len name <? 2)).

Definition clean_name (name : string) : string :=
  Text.join " "
    (List.map Text.capitalize_lower
       (Text.split_spaces
          (Text.keep (fun c => Text.is_alpha c || Text.is_space c) (Text.trim name)))).

(** Stage 3: the budget text, cleaned and upper-cased. *)
Definition budget_text (message : string) : string :=
  let budgetStr :=
    match capture 1 re_budget_is message with
    | Some b => b
    | None =>
    match capture 1 re_i_have message with
    | Some b => b
    | None =>
    match capture 1 re_around message with
    | Some b => b
    | None =>
    match capture 1 re_about message with
    | Some b => b
    | None => message
    end end end end in
  Text.toUpperCase (Text.keep budget_char budgetStr).

Definition budget_ok (budgetStr : string) : bool := test re_budget_shape budgetStr.

Definition parse_budget (budgetStr : string) : number :=
  let budget := Text.keep (fun c => negb (Ascii.eqb c ",")) budgetStr in
  if Text.includes "M" budget then times (parseFloat budget) 1000000
  else if Text.includes "K" budget then times (parseFloat budget) 1000
  else parseFloat budget.

(** Stage 4: the location found in the message. *)
Definition location_in (message : string) : string :=
  match capture 1 re_in message with
  | Some l => l
  | None =>
  match capture 1 re_at message with
  | Some l => l
  | None => message
  end end.

Definition location_ok (location : string) : bool := test re_two_letters location.

Definition clean_location (location : string) : string :=
  Text.join " "
    (List.map Text.capitalize_lower (Text.split_spaces (Text.trim location))).

(** Stage 5: the bedroom count. The third format of the source, a message
    of digits only, leaves the message as it is. *)
Definition bedrooms_in (message : string) : number :=
  let bedroomsStr :=
    match capture 1 re_n_bed message with
    | Some b => b
    | None =>
    match capture 2 re_i_want_n message with
    | Some b => b
    | None => message
    end end in
  parseInt bedroomsStr.

Definition bedrooms_ok (bedrooms : number) : bool :=
  negb (isNaN bedrooms || lt bedrooms 1 || gt bedrooms 20).

(** Stage 5B: the plot size. *)
Definition plot_in (original message : string) : string :=
  if test re_plot message then Text.trim original
  else
    match capture 2 re_i_want_any message with
    | Some p => p
    | None => Text.trim original
    end.

Definition plot_ok (plotSize : string) : bool := negb (Text.len plotSize <? 2).

(** Stages 7 and 8: the number chosen, [None] being [null]. *)
Definition choice_in (keyword : regex) (message : string) : option number :=
  match capture 1 keyword message with
  | Some n => Some (parseInt n)
  | None =>
      if test re_number_only message then Some (parseInt message)
      else
        match capture 1 re_number_n message with
        | Some n => Some (parseInt n)
        | None => None
        end
  end.

Definition chosen (n : option number) : bool :=
  match n with Some x => truthy_number x | None => false end.

Definition value_choice (n : option number) : value :=
  match n with Some x => VNum x | None => VNull end.

(** The replies. *)
Definition reply_interested : string :=
  Text.lines ["Great! 🎉"; ""; "Our agent will contact you shortly to discuss next steps!"; "";
              "Reply HI anytime to search for more properties."].

Definition alert (leadName lastViewedProperty leadPhone : json) : string :=
  Text.lines ["🔥 *HOT LEAD ALERT!*"; "";
              show leadName ++ " is INTERESTED after viewing!"; "";
              "Property: " ++ show lastViewedProperty; "";
              "📞 Contact them ASAP: " ++ show leadPhone; "";
              "Strike while the iron is hot! 🎯"].

Definition reply_not_interested : string :=
  Text.lines ["Thank you for your feedback! 🙏"; "";
              "If you change your mind, just reply HI anytime."; "";
              "We're always here to help! 🏡"].

Definition reply_detected (companyName : json) (detectedType : option string) : string :=
  Text.lines ["Hi! Welcome to " ++ show companyName ++ " 👋"; "";
              "I see you're interested in " ++ show_opt detectedType ++ ". Great choice!"; "";
              "What's your name?"; "";
              "(Just type your name, e.g., Peter or Mary Jane)"].

Definition reply_welcome (back example : string) (companyName botName : json)
    (options : string) : string :=
  Text.lines ["Hi! Welcome " ++ back ++ "to " ++ show companyName ++ " 👋"; "";
              "I'm " ++ show botName ++ ", your property assistant."; "";
              "What are you looking for?"; "";
              options; "";
              "Reply with the name or number (e.g., " ++ example ++ ")."].

Definition reply_choose (options : string) : string :=
  Text.lines ["Please choose from the options below:"; ""; options; "";
              "Reply with the name or number."].

Definition reply_ask_name : string :=
  Text.lines ["Great choice! 👍"; ""; "What's your name?"; "";
              "(Just type your name, e.g., Peter or Mary Jane)"].

Definition reply_name_invalid : string :=
  Text.lines ["I didn't quite catch that."; "";
              "Please enter your name (e.g., John or Mary Jane)."; "";
              "Just your name is enough! 😊"].

Definition reply_ask_budget (name : string) : string :=
  Text.lines ["Nice to meet you, " ++ name ++ "! 👋"; ""; "What's your budget?"; "";
              "Examples:"; "• 500000"; "• 5M "; "• 500K "; "";
              "Just type the amount!"].

Definition reply_budget_invalid : string :=
  Text.lines ["I didn't understand that budget."; "";
              "Please enter a valid amount:"; "• 5000000"; "• 5M (5 million)";
              "• 500K (500 thousand)"; ""; "Just the number is fine!"].

Definition reply_checking_areas : string :=
  Text.lines ["Great! 💰"; ""; "Let me check available areas... 🔍"].

Definition reply_location_invalid : string :=
  Text.lines ["Please choose a location from the list above."; "";
              "Just type the area name (e.g., Westlands or Karen)."].

Definition reply_checking_sizes (location : string) : string :=
  Text.lines ["Perfect! 📍"; "";
              "Checking what's available in " ++ location ++ "... 🔍"].

Definition reply_bedrooms_invalid : string :=
  Text.lines ["Please enter the number of bedrooms you need."; "";
              "Examples: 1, 2, 3, 4, etc."; ""; "Just the number!"].

Definition reply_searching (what : string) (finalInterest finalBudget finalLocation : json)
    (label size : string) : string :=
  Text.lines ["✅ Got it! Let me find the best " ++ what ++ "matches for you..."; "";
              "📋 Your preferences:";
              "• Interest: " ++ show finalInterest;
              "• Budget: KES " ++ show finalBudget;
              "• Location: " ++ show finalLocation;
              "• " ++ label ++ ": " ++ size; "";
              "Searching properties... 🔍"].

Definition reply_plot_invalid : string :=
  Text.lines ["Please enter the plot size you're interested in."; "";
              "Examples:"; "• 50x100"; "• 1/4 Acre"; "• 1/8"; "";
              "Choose from the options above!"].

Definition reply_property_invalid : string :=
  Text.lines ["Please reply with the property number you want to view."; "";
              "Example: Property1 or just 1"].

Definition reply_checking_slots : string :=
  Text.lines ["Great choice! 🎉"; ""; "Let me check availability for you... ⏳"].

Definition reply_slot_invalid : string :=
  Text.lines ["Please reply with the slot number."; ""; "Example: 3 or Slot 3"].

Definition getHelpMessage (currentStage : json) : string :=
  if is_string currentStage "asked_buy_or_rent" then
    Text.lines ["Please choose from the options:"; ""; "1️⃣ Buy"; "2️⃣ Rent"; "3️⃣ Land"; "";
                "Reply with the name or number."]
  else if is_string currentStage "asked_name" then
    Text.lines ["Please enter your name."; "";
                "Just your first name or full name (e.g., John or Mary Jane)."]
  else if is_string currentStage "asked_budget" then
    Text.lines ["Please enter your budget."; ""; "Examples:"; "• 5000000";
                "• 5M (5 million)"; "• 500K (500 thousand)"]
  else if is_string currentStage "asked_location" then
    "Please choose a location from the list above."
  else if is_string currentStage "asked_size" then
    "Please enter the number of bedrooms (e.g., 1, 2, 3)."
  else if is_string currentStage "asked_land_size" then
    Text.lines ["Please enter the plot size."; ""; "Examples: 50x100, 1/4 Acre, 1/8"]
  else if is_string currentStage "awaiting_time_slot" then
    "Please reply with the slot number (e.g., 1, 2, 3)."
  else if is_string currentStage "booking_confirmed" then
    "Your viewing is confirmed! Reply CANCEL to cancel, or HI to start over."
  else "Hi! Send 'HI' to start finding your perfect property! 🏡".

Definition error_reply : string :=
  "Oops! Something went wrong. Please try again or send HI to restart.".

(** [input.lead_id && input.lead_id.length > 0]: a string has a length, a
    number or a boolean has none and [undefined > 0] is false. *)
Definition leadExists (id : json) : bool :=
  truthy_json id && match id with JStr s => 0 <? Text.len s | _ => false end.

(** [response.action = "invalid"; response.replyMessage = ...; return response] *)
Definition invalid (reply : string) : result object :=
  Ok (set "replyMessage" (VStr reply) (set "action" (VStr "invalid") response0)).

(** The follow-up handler's two answers. *)
Definition followup_interested (input : Input) : object :=
  let leadName := or_else (lead_name input) (JStr "there") in
  let leadPhone := from input in
  let tenantWhatsApp := or_else (tenant_whatsapp input) (JStr "") in
  let lastViewedProperty := or_else (last_viewed_property input) (JStr "a property") in
  [("action", VStr "followup_interested");
   ("updateFields",
    VObject [("Status", VStr "Hot Lead");
             ("Conversation Stage", VStr "interested_after_viewing");
             ("AwaitingFollowUpResponse", VBool false)]);
   ("replyMessage", VStr reply_interested);
   ("agentNotification",
    VObject [("message", VStr (alert leadName lastViewedProperty leadPhone));
             ("sendTo", of_json tenantWhatsApp);
             ("leadName", of_json leadName);
             ("leadPhone", of_json leadPhone);
             ("propertyName", of_json lastViewedProperty)])].

Definition followup_not_interested : object :=
  [("action", VStr "followup_not_interested");
   ("updateFields",
    VObject [("Status", VStr "Not Interested");
             ("Conversation Stage", VStr "not_interested_after_viewing");
             ("AwaitingFollowUpResponse", VBool false)]);
   ("replyMessage", VStr reply_not_interested)].

(** The new user: the lead is created, with the interest when the first
    message tells it. *)
Definition new_user (input : Input) (original : string) (tenantTypes : json) : result object :=
  let companyName := or_else (tenant_company_name input) (JStr "our company") in
  let botName := or_else (tenant_bot_name input) (JStr "PropertyBot") in
  let lowerMsg := Text.toLowerCase original in
  types <- receiver tenantTypes ;;
  let detectedType := detect (typesList types) lowerMsg in
  if filled detectedType then
    Ok (set "replyMessage" (VStr (reply_detected companyName detectedType))
       (set "updateFields"
          (VObject [("Interest", value_opt detectedType);
                    ("Conversation Stage", VStr "asked_name");
                    ("Status", VStr "New");
                    ("Phone", of_json (from input));
                    ("Tenant", of_json (tenant_id input))])
       (set "interest" (value_opt detectedType)
       (set "createLead" (VBool true)
       (set "action" (VStr "create") response0)))))
  else
    options <- (types' <- receiver tenantTypes ;; Ok (formatOptions types')) ;;
    Ok (set "replyMessage"
          (VStr (reply_welcome "" "Buy or 1" companyName botName options))
       (set "updateFields"
          (VObject [("Conversation Stage", VStr "asked_buy_or_rent");
                    ("Status", VStr "New");
                    ("Phone", of_json (from input));
                    ("Tenant", of_json (tenant_id input))])
       (set "createLead" (VBool true)
       (set "action" (VStr "create") response0)))).

(** The stages of an existing lead, after the greeting. *)
Definition stages (input : Input) (original message : string) (tenantTypes : json)
    : result object :=
  let stage := or_else (lead_stage input) JNull in
  let interest := or_else (lead_interest input) (lead_interest input) in
  if is_string stage "asked_buy_or_rent" then
    types <- receiver tenantTypes ;;
    let selectedType := read (typeMapping (typesList types)) message in
    if negb (truthy selectedType) then
      options <- (types' <- receiver tenantTypes ;; Ok (formatOptions types')) ;;
      invalid (reply_choose options)
    else
      Ok (set "replyMessage" (VStr reply_ask_name)
         (set "updateFields"
            (VObject [("Interest", selectedType);
                      ("Conversation Stage", VStr "asked_name")])
         (set "action" (VStr "update") response0)))
  else if is_string stage "asked_name" then
    let name := name_in message in
    if negb (name_ok name) then invalid reply_name_invalid
    else
      let name := clean_name name in
      Ok (set "replyMessage" (VStr (reply_ask_budget name))
         (set "updateFields"
            (VObject [("Name", VStr name);
                      ("Conversation Stage", VStr "asked_budget")])
         (set "action" (VStr "update") response0)))
  else if is_string stage "asked_budget" then
    let budgetStr := budget_text message in
    if negb (budget_ok budgetStr) then invalid reply_budget_invalid
    else
      let budget := parse_budget budgetStr in
      Ok (set "replyMessage" (VStr reply_checking_areas)
         (set "interest" (of_json interest)
         (set "updateFields"
            (VObject [("Budget", number_toString budget);
                      ("Conversation Stage", VStr "fetching_locations")])
         (set "action" (VStr "fetch_locations") response0))))
  else if is_string stage "asked_location" then
    let location := location_in message in
    if negb (location_ok location) then invalid reply_location_invalid
    else
      let location := clean_location location in
      Ok (set "replyMessage" (VStr (reply_checking_sizes location))
         (set "location" (VStr location)
         (set "interest" (of_json interest)
         (set "updateFields"
            (VObject [("Location", VStr location);
                      ("Conversation Stage", VStr "fetching_sizes")])
         (set "action" (VStr "fetch_sizes") response0)))))
  else if is_string stage "asked_size" then
    let bedrooms := bedrooms_in message in
    if negb (bedrooms_ok bedrooms) then invalid reply_bedrooms_invalid
    else
      let finalInterest := or_else interest (JStr "Not specified") in
      let finalBudget :=
        or_else (or_else (lead_budget input) (lead_budget input)) (JStr "Not specified") in
      let finalLocation :=
        or_else (or_else (lead_location input) (lead_location input)) (JStr "Not specified") in
      (* [`${bedrooms}`]: past the check the count is an integer from 1 to
         20 (lemma [bedrooms_ok_int]), so the second case is never taken *)
      let shown := match bedrooms with Int z => Text.digits z | _ => "NaN" end in
      Ok (set "replyMessage"
            (VStr (reply_searching "" finalInterest finalBudget finalLocation
                     "Bedrooms" shown))
         (set "searchProperties" (VBool true)
         (set "location" (of_json finalLocation)
         (set "requestedBedrooms" (VNum bedrooms)
         (set "bedrooms" (VNum bedrooms)
         (set "interest" (of_json finalInterest)
         (set "updateFields"
            (VObject [("Size", VStr (shown ++ " bedroom"));
                      ("Conversation Stage", VStr "completed");
                      ("Status", VStr "Contacted")])
         (set "action" (VStr "update") response0))))))))
  else if is_string stage "asked_land_size" then
    let plotSize := plot_in original message in
    if negb (plot_ok plotSize) then invalid reply_plot_invalid
    else
      let finalInterest := or_else interest (JStr "Land") in
      let finalBudget :=
        or_else (or_else (lead_budget input) (lead_budget input)) (JStr "Not specified") in
      let finalLocation :=
        or_else (or_else (lead_location input) (lead_location input)) (JStr "Not specified") in
      Ok (set "replyMessage"
            (VStr (reply_searching "land " finalInterest finalBudget finalLocation
                     "Plot Size" plotSize))
         (set "searchProperties" (VBool true)
         (set "plotSize" (VStr plotSize)
         (set "location" (of_json finalLocation)
         (set "interest" (of_json finalInterest)
         (set "updateFields"
            (VObject [("Size", VStr plotSize);
                      ("Conversation Stage", VStr "completed");
                      ("Status", VStr "Contacted")])
         (set "action" (VStr "update") response0)))))))
  else if is_string stage "completed" then
    let propertyNumber := choice_in re_property_n message in
    if negb (chosen propertyNumber) then invalid reply_property_invalid
    else
      Ok (set "replyMessage" (VStr reply_checking_slots)
         (set "propertyNumber" (value_choice propertyNumber)
         (set "updateFields"
            (VObject [("Conversation Stage", VStr "awaiting_time_slot");
                      ("Selected Property Number", value_choice propertyNumber)])
         (set "action" (VStr "booking") response0))))
  else if is_string stage "awaiting_time_slot" then
    let slotNumber := choice_in re_slot_n message in
    if negb (chosen slotNumber) then invalid reply_slot_invalid
    else
      Ok (set "replyMessage" (VStr "Creating your booking... ✅")
         (set "bookingRequest" (VBool true)
         (set "selectedTime" (value_choice slotNumber)
         (set "updateFields"
            (VObject [("Conversation Stage", VStr "booking_confirmed");
                      ("Selected Time Slot", value_choice slotNumber)])
         (set "action" (VStr "create_booking") response0)))))
  else if is_string stage "booking_confirmed" && test re_cancel message then
    Ok (set "replyMessage" (VStr "Cancelling your booking... ⏳")
       (set "updateFields"
          (VObject [("Conversation Stage", VStr "booking_cancelled");
                    ("Status", VStr "Cancelled")])
       (set "action" (VStr "cancel_booking") response0)))
  else invalid (getHelpMessage stage).

(** The flow after the follow-up handler. *)
Definition conversation (input : Input) (original message : string) : result object :=
  let botName := or_else (tenant_bot_name input) (JStr "PropertyBot") in
  let companyName := or_else (tenant_company_name input) (JStr "our company") in
  let tenantTypes := or_else (tenant_property_types input) (JStr "Buy, Rent") in
  if negb (leadExists (lead_id input)) then new_user input original tenantTypes
  else if test re_greeting message then
    options <- (types <- receiver tenantTypes ;; Ok (formatOptions types)) ;;
    Ok (set "replyMessage"
          (VStr (reply_welcome "back " "Rent or 2" companyName botName options))
       (set "updateFields" (VObject [("Conversation Stage", VStr "asked_buy_or_rent")])
       (set "action" (VStr "update") response0)))
  else stages input original message tenantTypes.

(** The body of the [try] block. *)
Definition body (a : argument) : result object :=
  input <- fields a ;;
  let originalMessage := or_else (message input) (JStr "") in
  original <- receiver originalMessage ;;
  let message := Text.trim (Text.toLowerCase original) in
  let awaitingFollowUp := or_else (awaiting_followup_response input) (JBool false) in
  if leadExists (lead_id input) && truthy_json awaitingFollowUp
     && (String.eqb message "1" || String.eqb message "2")
  then
    if String.eqb message "1" then Ok (followup_interested input)
    else if String.eqb message "2" then Ok followup_not_interested
    else conversation input original message
  else conversation input original message.

(** [handleMessage]: the body, and the [catch] that turns any exception into
    the error descriptor. *)
Definition handleMessage (a : argument) : object :=
  match body a with
  | Ok response => response
  | Throw => [("action", VStr "error"); ("replyMessage", VStr error_reply)]
  end.

End Enhanced.

(** ** The plain router: exact tokens only, no follow-up handler *)

Module Plain.
Import Js Regex.

(** [/^(hi|hello|hey|start|helo)$/] *)
Definition re_greeting : regex :=
  seqs [Bol; alts [lit "hi"; lit "hello"; lit "hey"; lit "start"; lit "helo"]; Eol].
(** [/^[a-zA-Z]{2,}(\s[a-zA-Z]{2,})?$/] *)
Definition re_name : regex :=
  seqs [Bol; at_least2 alpha; opt (Seq space (at_least2 alpha)); Eol].
(** [/^\s*[\d.,]+[mMkK]?\s*$/] *)
Definition re_budget : regex :=
  seqs [Bol; Star space; plus (Cls Enhanced.amount_char);
        opt (alts [chr "m"; chr "M"; chr "k"; chr "K"]); Star space; Eol].
(** [/^[a-zA-Z\s]{3,}$/] *)
Definition re_location : regex :=
  seqs [Bol; at_least3 (Cls (fun c => Text.is_alpha c || Text.is_space c)); Eol].
(** [/^\s*\d+\s*$/] *)
Definition re_bedrooms : regex := seqs [Bol; Star space; plus digit; Star space; Eol].
(** [/^property\s*\d+$/i] *)
Definition re_property : regex :=
  seqs [Bol; lit_i "property"; Star space; plus digit; Eol].
(** [/\d+/] *)
Definition re_digits : regex := plus digit.
(** [/^\d+$/] *)
Definition re_slot : regex := seqs [Bol; plus digit; Eol].

Definition response0 : object := Enhanced.response0.

Definition formatOptions (types : string) : string :=
  Text.join Text.nl (List.map (fun t => "• " ++ Text.trim t) (Text.split "," types)).

Definition reply_welcome (back : string) (companyName botName : json) (options : string)
    : string :=
  Text.lines ["Hi! Welcome " ++ back ++ "to " ++ show companyName ++ " 👋"; "";
              "I'm " ++ show botName ++ ", your property assistant."; "";
              "What are you looking for?"; "";
              options; "";
              "Reply with your choice."].

Definition reply_ask_name : string :=
  Text.lines ["Great choice! 👍"; ""; "What's your name?"].

Definition reply_ask_budget (name : string) : string :=
  Text.lines ["Nice to meet you, " ++ name ++ "! 👋"; ""; "What's your budget?"; "";
              "Example: 5000000 or 5M"].

Definition getHelpMessage (currentStage : json) : string :=
  if is_string currentStage "asked_buy_or_rent" then
    "Please reply with one of the listed options."
  else if is_string currentStage "asked_name" then
    "Please enter your name (letters only)."
  else if is_string currentStage "asked_budget" then
    "Please enter a valid budget (e.g., 5000000 or 5M)."
  else if is_string currentStage "asked_location" then
    "Please enter a location from the list above."
  else if is_string currentStage "asked_size" then
    "Please enter the number of bedrooms (e.g., 1, 2, 3)."
  else if is_string currentStage "asked_land_size" then
    "Please enter the plot size you are interested in (e.g., 50x100, 1/8 Acre)."
  else if is_string currentStage "awaiting_time_slot" then
    "Please reply with a slot number."
  else "Hi! Send 'hi' to start.".

Definition error_reply : string :=
  "Oops! Something went wrong. Please try again later.".

Definition invalid (reply : string) : result object :=
  Ok (set "replyMessage" (VStr reply) (set "action" (VStr "invalid") response0)).

(** [types.includes(message)] *)
Definition listed (types : list string) (message : string) : bool :=
  existsb (String.eqb message) types.

(** [message.split(' ').map(word => word.charAt(0).toUpperCase() + word.slice(1)).join(' ')] *)
Definition capitalize_words (message : string) : string :=
  Text.join " " (List.map Text.capitalize (Text.split " " message)).

Definition parse_budget (message : string) : number :=
  let budget := Text.toUpperCase (Text.keep (fun c => negb (Ascii.eqb c ",")) message) in
  if Text.includes "M" budget then times (parseFloat budget) 1000000
  else if Text.includes "K" budget then times (parseFloat budget) 1000
  else parseFloat budget.

(** [parseInt(message.match(/\d+/)[0])] *)
Definition first_number (message : string) : value :=
  match capture 0 re_digits message with
  | Some d => VNum (parseInt d)
  | None => VUndefined
  end.

Definition stages (input : Input) (message : string) (tenantTypes : json) : result object :=
  let stage := or_else (lead_stage input) JNull in
  let interest := or_else (lead_interest input) (lead_interest input) in
  let finalBudget :=
    or_else (or_else (lead_budget input) (lead_budget input)) (JStr "Not specified") in
  let finalLocation :=
    or_else (or_else (lead_location input) (lead_location input)) (JStr "Not specified") in
  if is_string stage "asked_buy_or_rent" then
    types <- receiver tenantTypes ;;
    let types := List.map (fun t => Text.toLowerCase (Text.trim t)) (Text.split "," types) in
    if negb (listed types message) then invalid "Please choose one of the listed options."
    else
      let interest := Text.capitalize message in
      Ok (set "replyMessage" (VStr reply_ask_name)
         (set "updateFields"
            (VObject [("Interest", VStr interest);
                      ("Conversation Stage", VStr "asked_name")])
         (set "action" (VStr "update") response0)))
  else if is_string stage "asked_name" && test re_name message then
    let name := capitalize_words message in
    Ok (set "replyMessage" (VStr (reply_ask_budget name))
       (set "updateFields"
          (VObject [("Name", VStr name);
                    ("Conversation Stage", VStr "asked_budget")])
       (set "action" (VStr "update") response0)))
  else if is_string stage "asked_budget" && test re_budget message then
    let budget := parse_budget message in
    Ok (set "replyMessage" (VStr Enhanced.reply_checking_areas)
       (set "interest" (of_json interest)
       (set "updateFields"
          (VObject [("Budget", number_toString budget);
                    ("Conversation Stage", VStr "fetching_locations")])
       (set "action" (VStr "fetch_locations") response0))))
  else if is_string stage "asked_location" && test re_location message then
    let location := capitalize_words message in
    Ok (set "replyMessage" (VStr (Enhanced.reply_checking_sizes location))
       (set "location" (VStr location)
       (set "interest" (of_json interest)
       (set "updateFields"
          (VObject [("Location", VStr location);
                    ("Conversation Stage", VStr "fetching_sizes")])
       (set "action" (VStr "fetch_sizes") response0)))))
  else if is_string stage "asked_size" && test re_bedrooms message then
    let bedrooms := Text.trim message in
    let finalInterest := or_else interest (JStr "Not specified") in
    Ok (set "replyMessage"
          (VStr (Enhanced.reply_searching "" finalInterest finalBudget finalLocation
                   "Bedrooms" bedrooms))
       (set "searchProperties" (VBool true)
       (set "location" (of_json finalLocation)
       (set "requestedBedrooms" (VNum (parseInt bedrooms))
       (set "bedrooms" (VNum (parseInt bedrooms))
       (set "interest" (of_json finalInterest)
       (set "updateFields"
          (VObject [("Size", VStr (bedrooms ++ " bedroom"));
                    ("Conversation Stage", VStr "completed");
                    ("Status", VStr "Contacted")])
       (set "action" (VStr "update") response0))))))))
  else if is_string stage "asked_land_size" then
    let plotSize := Text.trim message in
    let finalInterest := or_else interest (JStr "Land") in
    Ok (set "replyMessage"
          (VStr (Enhanced.reply_searching "land " finalInterest finalBudget finalLocation
                   "Plot Size" plotSize))
       (set "searchProperties" (VBool true)
       (set "plotSize" (VStr plotSize)
       (set "location" (of_json finalLocation)
       (set "interest" (of_json finalInterest)
       (set "updateFields"
          (VObject [("Size", VStr plotSize);
                    ("Conversation Stage", VStr "completed");
                    ("Status", VStr "Contacted")])
       (set "action" (VStr "update") response0)))))))
  else if is_string stage "completed" && test re_property message then
    let propertyNumber := first_number message in
    Ok (set "replyMessage" (VStr Enhanced.reply_checking_slots)
       (set "propertyNumber" propertyNumber
       (set "updateFields"
          (VObject [("Conversation Stage", VStr "awaiting_time_slot");
                    ("Selected Property Number", propertyNumber)])
       (set "action" (VStr "booking") response0))))
  else if is_string stage "awaiting_time_slot" && test re_slot message then
    let timeSlotNumber := VNum (parseInt message) in
    Ok (set "replyMessage" (VStr "Creating your booking... ✅")
       (set "bookingRequest" (VBool true)
       (set "selectedTime" timeSlotNumber
       (set "updateFields"
          (VObject [("Conversation Stage", VStr "booking_confirmed");
                    ("Selected Time Slot", timeSlotNumber)])
       (set "action" (VStr "create_booking") response0)))))
  else if String.eqb message "cancel" && is_string stage "booking_confirmed" then
    Ok (set "replyMessage" (VStr "Cancelling your booking... ⏳")
       (set "updateFields"
          (VObject [("Conversation Stage", VStr "booking_cancelled");
                    ("Status", VStr "Cancelled")])
       (set "action" (VStr "cancel_booking") response0)))
  else invalid (getHelpMessage stage).

Definition body (a : argument) : result object :=
  input <- fields a ;;
  original <- receiver (or_else (message input) (JStr "")) ;;
  let message := Text.trim (Text.toLowerCase original) in
  let botName := or_else (tenant_bot_name input) (JStr "PropertyBot") in
  let companyName := or_else (tenant_company_name input) (JStr "our company") in
  let tenantTypes := or_else (tenant_property_types input) (JStr "Buy, Rent") in
  if negb (Enhanced.leadExists (lead_id input)) then
    options <- (types <- receiver tenantTypes ;; Ok (formatOptions types)) ;;
    Ok (set "replyMessage" (VStr (reply_welcome "" companyName botName options))
       (set "updateFields"
          (VObject [("Conversation Stage", VStr "asked_buy_or_rent");
                    ("Status", VStr "New");
                    ("Phone", of_json (from input));
                    ("Tenant", of_json (tenant_id input))])
       (set "createLead" (VBool true)
       (set "action" (VStr "create") response0))))
  else if test re_greeting message then
    options <- (types <- receiver tenantTypes ;; Ok (formatOptions types)) ;;
    Ok (set "replyMessage" (VStr (reply_welcome "back " companyName botName options))
       (set "updateFields" (VObject [("Conversation Stage", VStr "asked_buy_or_rent")])
       (set "action" (VStr "update") response0)))
  else stages input message tenantTypes.

Definition handleMessage (a : argument) : object :=
  match body a with
  | Ok response => response
  | Throw => [("action", VStr "error"); ("replyMessage", VStr error_reply)]
  end.

End Plain.

(** ** The slot calculation of [/api/available-slots]

    Instants are milliseconds since the epoch. The server's local time is
    taken at a constant offset [tz] from UTC: the statements on the slots
    hold for a server whose clock changes its offset on none of the days
    looked at (no daylight-saving change). The working hours and the number
    of days of a request are whole numbers: the source validates none of
    them, and [setHours] would cut a fraction off. *)

Module Slots.
Import Js.

Definition hour_ms : Z := 60 * 60 * 1000.
Definition day_ms : Z := 24 * hour_ms.

(** A booked event of the request: [new Date(e.start)] and [new Date(e.end)]
    as instants, [None] for an invalid date. *)
Record Event := {
  event_property : json;
  event_start : option Z;
  event_end : option Z
}.

Record Request := {
  propertyId : json;
  bookedEvents : list Event;
  workStart : Z;
  workEnd : Z;
  daysAhead : Z
}.

Record Slot := { slot_start : Z; slot_end : Z }.

(** [a === b] on scalars *)
Definition strict_eq (a b : json) : bool :=
  match a, b with
  | JUndefined, JUndefined => true
  | JNull, JNull => true
  | JBool x, JBool y => Bool.eqb x y
  | JNum x, JNum y => x =? y
  | JStr x, JStr y => String.eqb x y
  | _, _ => false
  end.

(** The local calendar: the day an instant falls on, counted from the
    epoch, its weekday as [getDay] gives it (0 is Sunday; day 0 was a
    Thursday), and the instant of local midnight of a day. *)
Definition local_day (tz t : Z) : Z := (t + tz) / day_ms.
Definition getDay (d : Z) : Z := (d + 4) mod 7.
Definition midnight (tz d : Z) : Z := d * day_ms - tz.
Definition weekend (d : Z) : bool := (getDay d =? 0) || (getDay d =? 6).

(** [a < b] on two dates, false when one is invalid. *)
Definition before (a b : option Z) : bool :=
  match a, b with Some x, Some y => x <? y | _, _ => false end.

Definition booked (r : Request) : list Event :=
  filter (fun e => strict_eq (event_property e) (propertyId r)) (bookedEvents r).

Definition overlaps (bk : list Event) (s e : Z) : bool :=
  existsb (fun b => before (Some s) (event_end b) && before (event_start b) (Some e)) bk.

(** The loop over the hours of one day: [n] iterations are left, [h] is the
    hour of the next one. *)
Fixpoint hours (n : nat) (h : Z) (day : Z) (minSlotTime : Z) (bk : list Event)
    (freeSlots : list Slot) : list Slot :=
  match n with
  | O => freeSlots
  | S n' =>
      if (Z.of_nat (List.length freeSlots) <? 5) then
        let slotStart := day + h * hour_ms in
        let slotEnd := slotStart + 60 * 60 * 1000 in
        if slotStart <=? minSlotTime then hours n' (h + 1) day minSlotTime bk freeSlots
        else if overlaps bk slotStart slotEnd then
          hours n' (h + 1) day minSlotTime bk freeSlots
        else
          hours n' (h + 1) day minSlotTime bk
            (freeSlots ++ [{| slot_start := slotStart; slot_end := slotEnd |}])
      else freeSlots
  end.

(** The loop over the days: [n] iterations are left, [i] is the next one. *)
Fixpoint days (n : nat) (i : Z) (tz now : Z) (r : Request) (freeSlots : list Slot)
    : list Slot :=
  match n with
  | O => freeSlots
  | S n' =>
      if (Z.of_nat (List.length freeSlots) <? 5) then
        let d := local_day tz now + i in
        if weekend d then days n' (i + 1) tz now r freeSlots
        else
          days n' (i + 1) tz now r
            (hours (Z.to_nat (workEnd r - workStart r)) (workStart r) (midnight tz d)
               (now + 60 * 60 * 1000) (booked r) freeSlots)
      else freeSlots
  end.

Definition freeSlots (tz now : Z) (r : Request) : list Slot :=
  days (Z.to_nat (daysAhead r)) 0 tz now r [].

End Slots.

(** ** What the statements below speak about *)

(** The message as both routers read it: lower case, trimmed. *)
Definition heard (m : string) : string := Text.trim (Text.toLowerCase m).

(** The tenant's property types as the routers split them: [Throw] when the
    field is filled with something that is not a string. *)
Definition offered_types (input : Input) : Js.result string :=
  Js.receiver (Js.or_else (tenant_property_types input) (Js.JStr "Buy, Rent")).

(** The condition of the follow-up handler. *)
Definition followup_answer (input : Input) (msg : string) : bool :=
  Enhanced.leadExists (lead_id input)
  && Js.truthy_json (Js.or_else (awaiting_followup_response input) (Js.JBool false))
  && (String.eqb msg "1" || String.eqb msg "2").



(** The characters of a string. *)
Fixpoint all_chars (p : ascii -> bool) (s : string) : bool :=
  match s with
  | EmptyString => true
  | String c s' => p c && all_chars p s'
  end.

(** The texts written in ASCII: on them the reading of a text above (white
    space, case, length, the classes of the patterns) is the one of
    JavaScript, which knows further white space and letters beyond ASCII. *)
Definition ascii_char (c : ascii) : bool := (Text.code c <? 128)%N.

Definition ascii_text (s : string) : bool := all_chars ascii_char s.

Definition ascii_json (j : Js.json) : bool :=
  match j with Js.JStr s => ascii_text s | _ => true end.

(** The number a string of decimal digits writes. *)
Fixpoint decimal_from (acc : Z) (s : string) : Z :=
  match s with
  | EmptyString => acc
  | String c s' => decimal_from (acc * 10 + (Z.of_N (Text.code c) - 48)) s'
  end.

Definition decimal_value (s : string) : Z := decimal_from 0 s.

(** Inputs used as examples: an existing lead at a stage, with or without
    the follow-up flag, and a first message. *)
Definition lead_at (stage m : string) (awaiting : bool) : Input :=
  {| message := Js.JStr m; from := Js.JStr "+254700000001";
     lead_id := Js.JStr "recLead1"; lead_stage := Js.JStr stage;
     lead_interest := Js.JStr "Buy"; lead_budget := Js.JStr "5000000";
     lead_location := Js.JStr "Karen"; lead_size := Js.JUndefined;
     lead_name := Js.JStr "Mary"; awaiting_followup_response := Js.JBool awaiting;
     last_viewed_property := Js.JStr "Karen Villa";
     tenant_bot_name := Js.JUndefined; tenant_company_name := Js.JStr "Acme Homes";
     tenant_property_types := Js.JStr "Buy, Rent"; tenant_id := Js.JStr "recTenant1";
     tenant_whatsapp := Js.JStr "+254700000009" |}.

Definition first_message (m : string) (types : Js.json) : Input :=
  {| message := Js.JStr m; from := Js.JStr "+254700000001";
     lead_id := Js.JUndefined; lead_stage := Js.JUndefined;
     lead_interest := Js.JUndefined; lead_budget := Js.JUndefined;
     lead_location := Js.JUndefined; lead_size := Js.JUndefined;
     lead_name := Js.JUndefined; awaiting_followup_response := Js.JUndefined;
     last_viewed_property := Js.JUndefined;
     tenant_bot_name := Js.JUndefined; tenant_company_name := Js.JUndefined;
     tenant_property_types := types; tenant_id := Js.JStr "recTenant1";
     tenant_whatsapp := Js.JUndefined |}.

(** The same request with another follow-up flag. *)
Definition with_followup (flag : Js.json) (input : Input) : Input :=
  {| message := message input; from := from input;
     lead_id := lead_id input; lead_stage := lead_stage input;
     lead_interest := lead_interest input; lead_budget := lead_budget input;
     lead_location := lead_location input; lead_size := lead_size input;
     lead_name := lead_name input; awaiting_followup_response := flag;
     last_viewed_property := last_viewed_property input;
     tenant_bot_name := tenant_bot_name input;
     tenant_company_name := tenant_company_name input;
     tenant_property_types := tenant_property_types input;
     tenant_id := tenant_id input; tenant_whatsapp := tenant_whatsapp input |}.

(** A response descriptor: an action tag and a reply text. *)
Definition descriptor (o : Js.object) : Prop :=
  exists act reply,
    Js.prop "action" o = Js.VStr act /\ Js.prop "replyMessage" o = Js.VStr reply.


(** A request with a broken field: the message is a number. *)
Definition numeric_message : Input :=
  {| message := Js.JNum 5; from := Js.JStr "+254700000001";
     lead_id := Js.JStr "recLead1"; lead_stage := Js.JStr "asked_name";
     lead_interest := Js.JUndefined; lead_budget := Js.JUndefined;
     lead_location := Js.JUndefined; lead_size := Js.JUndefined;
     lead_name := Js.JUndefined; awaiting_followup_response := Js.JUndefined;
     last_viewed_property := Js.JUndefined;
     tenant_bot_name := Js.JUndefined; tenant_company_name := Js.JUndefined;
     tenant_property_types := Js.JUndefined; tenant_id := Js.JUndefined;
     tenant_whatsapp := Js.JUndefined |}.

(** A slot made in the loop over the hours [lo .. hi - 1] counted from the
    instant [day]. *)
Definition made (day minSlotTime : Z) (bk : list Slots.Event) (lo hi : Z) (s : Slots.Slot)
    : Prop :=
  Slots.slot_end s = Slots.slot_start s + 60 * 60 * 1000
  /\ minSlotTime < Slots.slot_start s
  /\ Slots.overlaps bk (Slots.slot_start s) (Slots.slot_end s) = false
  /\ exists h, lo <= h < hi /\ Slots.slot_start s = day + h * Slots.hour_ms.

(** Requests used as examples. Day 0 of the epoch was a Thursday, so day 1
    is a Friday and day 2 a Saturday. The first request is the default
    working day with one viewing booked on Friday from 10 to 11 (UTC); the
    second one lets the working day run past midnight. *)
Definition office_hours : Slots.Request :=
  {| Slots.propertyId := Js.JStr "recProp1";
     Slots.bookedEvents :=
       [{| Slots.event_property := Js.JStr "recProp1";
           Slots.event_start := Some (Slots.day_ms + 10 * Slots.hour_ms);
           Slots.event_end := Some (Slots.day_ms + 11 * Slots.hour_ms) |}];
     Slots.workStart := 9; Slots.workEnd := 17; Slots.daysAhead := 7 |}.

Definition late_hours : Slots.Request :=
  {| Slots.propertyId := Js.JStr "recProp1"; Slots.bookedEvents := [];
     Slots.workStart := 23; Slots.workEnd := 25; Slots.daysAhead := 1 |}.

(** The stages from which a branch of the routers can answer. *)
Definition routed_stages : list string :=
  ["asked_buy_or_rent"; "asked_name"; "asked_budget"; "asked_location"; "asked_size";
   "asked_land_size"; "completed"; "awaiting_time_slot"; "booking_confirmed"].

(** A word as the enhanced router stores it in a name: a capital letter and
    lower-case letters after it, or nothing. *)
Definition proper_word (w : string) : bool :=
  match w with
  | EmptyString => true
  | String c r => Text.is_upper c && all_chars Text.is_lower r
  end.

(** The search of the slot calculation without its bound of five: the
    numbers [z], [z + 1], ... that a loop of [n] rounds goes through, the
    slot of an hour of a day, whether it is free, and the free hours of all
    the days looked at, in the order of the two loops. *)
Fixpoint count_from (n : nat) (z : Z) : list Z :=
  match n with
  | O => []
  | S n' => z :: count_from n' (z + 1)
  end.

Definition slot_at (day h : Z) : Slots.Slot :=
  {| Slots.slot_start := day + h * Slots.hour_ms;
     Slots.slot_end := day + h * Slots.hour_ms + 60 * 60 * 1000 |}.

Definition free_at (day minSlotTime : Z) (bk : list Slots.Event) (h : Z) : bool :=
  negb (day + h * Slots.hour_ms <=? minSlotTime)
  && negb (Slots.overlaps bk (day + h * Slots.hour_ms)
             (day + h * Slots.hour_ms + 60 * 60 * 1000)).

Definition free_hours (tz now : Z) (r : Slots.Request) : list Slots.Slot :=
  flat_map
    (fun i =>
       let d := Slots.local_day tz now + i in
       if Slots.weekend d then []
       else
         List.map (slot_at (Slots.midnight tz d))
           (filter (free_at (Slots.midnight tz d) (now + 60 * 60 * 1000) (Slots.booked r))
              (count_from (Z.to_nat (Slots.workEnd r - Slots.workStart r))
                 (Slots.workStart r))))
    (count_from (Z.to_nat (Slots.daysAhead r)) 0).

(** A slot that starts before another. *)
Definition earlier (a b : Slots.Slot) : Prop := Slots.slot_start a < Slots.slot_start b.

(** A Friday on which each hour from 10 to 15 is booked: fewer than five
    slots are left in a search of one day. *)
Definition busy_friday : Slots.Request :=
  {| Slots.propertyId := Js.JStr "recProp1";
     Slots.bookedEvents :=
       [{| Slots.event_property := Js.JStr "recProp1";
           Slots.event_start := Some (Slots.day_ms + 10 * Slots.hour_ms);
           Slots.event_end := Some (Slots.day_ms + 15 * Slots.hour_ms) |}];
     Slots.workStart := 9; Slots.workEnd := 17; Slots.daysAhead := 1 |}.

(** ** The endpoints of the server

    The answers of [server.js] that are computed from the body of the
    request and from what the tables return. A query of a table is an
    argument of the function: the records it gives, or [Throw] when the
    query fails. *)

Module Server.
Import Js.

(** What an endpoint sends: a body with status 200 ([res.json]), a refusal
    with its status and its error text, or the answer of the [catch] block:
    status 500 with the message of the exception, which is not modelled. *)
Inductive reply (A : Type) :=
| Sent (body : A)
| Refused (status : Z) (error : string)
| Failed.
Arguments Sent {A} body.
Arguments Refused {A} status error.
Arguments Failed {A}.

(** [array.sort(compare)]: the sort is stable, so the sorted array is the
    one that inserting the elements from the last to the first gives, each
    before the first element that is not smaller. *)
Fixpoint insert {A} (le : A -> A -> bool) (x : A) (l : list A) : list A :=
  match l with
  | [] => [x]
  | y :: l' => if le x y then x :: l else y :: insert le x l'
  end.

Definition sort {A} (le : A -> A -> bool) (l : list A) : list A :=
  fold_right (insert le) [] l.


(** *** [/api/locations] *)



(** *** [/api/sizes] *)








(** *** [/api/search-properties] *)

(** A record of the table of properties: its id and the fields the answer
    reads. The price is a number field: empty, or a whole amount. *)
Record Property := {
  property_id : string;
  PropertyName : json;
  Price : option Z;
  PropertyBedrooms : json;
  Location : json;
  Address : json;
  PropertyPlotSize : json;
  PropertyType : json;
  PhotoURL : json
}.

Record Listed := {
  number : Z;
  listed_id : string;
  name : json;
  price : option Z;
  bedrooms : json;
  location : json;
  address : json;
  plotSize : json;
  type : json;
  photoUrl : json
}.

Record Search := { properties : list Listed; search_count : Z }.

(** [a.get('Price') || 0] *)
Definition amount (p : Property) : Z :=
  match Price p with Some z => z | None => 0 end.

Definition listed (entry : Z * Property) : Listed :=
  let '(index, record) := entry in
  {| number := index + 1;
     listed_id := property_id record;
     name := PropertyName record;
     price := Price record;
     bedrooms := PropertyBedrooms record;
     location := Location record;
     address := Address record;
     plotSize := PropertyPlotSize record;
     type := PropertyType record;
     photoUrl := or_else (PhotoURL record) (JStr "") |}.

(** The filter of the query is a text for the table; building it calls
    [plotSize.replace] when the interest is "Land", a [TypeError] unless
    [plotSize] is a string. [records] is what the query returns. *)
Definition search_properties (tenantId interest location plotSize : json)
    (records : result (list Property)) : reply Search :=
  if negb (truthy_json tenantId) || negb (truthy_json interest)
     || negb (truthy_json location) then
    Refused 400 "tenantId, interest, and location are required"
  else
    match (if is_string interest "Land" then receiver plotSize else Ok "") with
    | Throw => Failed
    | Ok _ =>
        match records with
        | Throw => Failed
        | Ok records =>
            let sortedRecords := sort (fun a b => amount a <=? amount b) records in
            let properties := List.map listed (Enhanced.indexed 0 sortedRecords) in
            Sent {| properties := properties;
                    search_count := Z.of_nat (List.length properties) |}
        end
    end.

(** *** [/api/create-booking]: the slot chosen *)

(** The names that an object inherits from [Object.prototype]. *)
Definition inherited (k : string) : bool :=
  existsb (String.eqb k)
    ["constructor"; "__defineGetter__"; "__defineSetter__"; "hasOwnProperty";
     "__lookupGetter__"; "__lookupSetter__"; "isPrototypeOf"; "propertyIsEnumerable";
     "toString"; "valueOf"; "__proto__"; "toLocaleString"].

(** [Object.keys(o)]: the keys that are array indices (a whole number up
    to 2^32 - 2 in its canonical writing) in increasing order, then the
    other keys in the order of their creation. *)
Definition index_of (k : string) : option Z :=
  match k with
  | EmptyString => None
  | String c r =>
      if all_chars Text.is_digit k
         && (negb (Ascii.eqb c "0") || String.eqb r "")
         && (decimal_value k <=? 2 ^ 32 - 2)
      then Some (decimal_value k) else None
  end.

Definition keys (o : object) : list string :=
  List.map Text.digits
    (sort Z.leb
       (flat_map (fun e => match index_of (fst e) with Some i => [i] | None => [] end) o))
  ++ List.map fst
       (filter (fun e => match index_of (fst e) with Some _ => false | None => true end) o).

(** [slots[slotNumber]], then [slotData.split('|')]: the start and the end
    of the slot chosen, once the request has passed the check of its
    fields. A slot that is missing, empty or without a bar is refused; a
    value that is no text, or a name that the object inherits, has no
    method [includes]: a [TypeError]. *)
Definition chosen_slot (slots : object) (slotNumber : json) : reply (string * string) :=
  let key := show slotNumber in
  let slotData :=
    if has key slots then prop key slots
    else if inherited key then VObjectPrototype
    else VUndefined in
  let refusal :=
    Refused 400 ("Invalid slot number. Available: " ++ Text.join ", " (keys slots)) in
  if negb (truthy slotData) then refusal
  else
    match slotData with
    | VStr text =>
        if negb (Text.includes "|" text) then refusal
        else
          match Text.split "|" text with
          | startTime :: endTime :: _ => Sent (startTime, endTime)
          | _ => Failed
          end
    | _ => Failed
    end.

(** [/api/create-booking] up to the slot chosen: the check of the required
    fields, the tenant, the slot map and the slot. [slotMap] is [None] when
    the field is not filled; otherwise it is an object, or the text of one
    as [JSON.parse] reads it ([Ok]), or a text that [JSON.parse] refuses
    ([Throw]). [tenant] is [Throw] when the tenant is not found. *)
Definition missingFields (leadId propertyId slotNumber : json)
    (slotMap : option (result object)) (tenantId : json) : list string :=
  (if truthy_json leadId then [] else ["leadId"])
  ++ (if truthy_json propertyId then [] else ["propertyId"])
  ++ (if truthy_json slotNumber then [] else ["slotNumber"])
  ++ (match slotMap with Some _ => [] | None => ["slotMap"] end)
  ++ (if truthy_json tenantId then [] else ["tenantId"]).

Definition create_booking_slot (leadId propertyId slotNumber : json)
    (slotMap : option (result object)) (tenantId : json) (tenant : result unit)
    : reply (string * string) :=
  let missingFields := missingFields leadId propertyId slotNumber slotMap tenantId in
  if 0 <? Z.of_nat (List.length missingFields) then
    Refused 400 ("Missing required fields: " ++ Text.join ", " missingFields)
  else
    match tenant, slotMap with
    | Throw, _ => Failed
    | Ok _, Some (Ok slots) => chosen_slot slots slotNumber
    | Ok _, _ => Refused 400 "Invalid slot map format"
    end.

(** [/api/available-slots-v2] numbers the free slots as it finds them
    ([number: freeSlots.length + 1]) and sends the map
    [slotMap[slot.number] = `${slot.start}|${slot.end}`]. *)
Definition slotMap (freeSlots : list (string * string)) : object :=
  fold_left
    (fun o '(index, (slot_start, slot_end)) =>
       set (Text.digits (index + 1)) (VStr (slot_start ++ "|" ++ slot_end)) o)
    (Enhanced.indexed 0 freeSlots) [].

(** *** [/api/handle-followup-response] *)

Record Followup := {
  followup_success : bool;
  invalidResponse : bool;
  userMessage : string;
  agentMessage : option string;
  notifyAgent : option bool;
  lead_update : list (string * string)
}.

(** [lead] holds the name and the phone of the lead found, [Throw] when it
    is not found; [lead_update] is what is written to the lead before the
    answer, and [written] is how that write ends when it is made: [Throw]
    when [base('Leads').update] fails. *)
Definition handle_followup_response (leadId response : json) (lead : result (json * json))
    (written : result unit) : reply Followup :=
  if negb (truthy_json leadId) || negb (truthy_json response) then
    Refused 400 "leadId and response required"
  else
    match lead with
    | Throw => Failed
    | Ok (leadName, leadPhone) =>
        let interested :=
          if is_string response "1" then Ok true
          else (text <- receiver response ;;
                Ok (Text.includes "interested" (Text.toLowerCase text))) in
        match interested with
        | Throw => Failed
        | Ok true =>
            match written with
            | Throw => Failed
            | Ok _ =>
            Sent {| followup_success := true; invalidResponse := false;
                    userMessage :=
                      Text.lines ["Great! 🎉"; "";
                                  "Our agent will contact you shortly to discuss next steps!";
                                  ""; "Reply HI anytime to search for more properties."];
                    agentMessage :=
                      Some (Text.lines ["🔥 *HOT LEAD ALERT!*"; "";
                                        show leadName ++ " is INTERESTED after viewing!"; "";
                                        "📞 Contact them ASAP: " ++ show leadPhone; "";
                                        "Strike while the iron is hot! 🎯"]);
                    notifyAgent := Some true;
                    lead_update := [("Status", "Hot Lead");
                                    ("Conversation Stage", "interested_after_viewing")] |}
            end
        | Ok false =>
            let notInterested :=
              if is_string response "2" then Ok true
              else (text <- receiver response ;;
                    Ok (Text.includes "not interested" (Text.toLowerCase text))) in
            match notInterested with
            | Throw => Failed
            | Ok true =>
                match written with
                | Throw => Failed
                | Ok _ =>
                Sent {| followup_success := true; invalidResponse := false;
                        userMessage :=
                          Text.lines ["Thank you for your feedback! 🙏"; "";
                                      "If you change your mind, just reply HI anytime."; "";
                                      "We're always here to help! 🏡"];
                        agentMessage := None;
                        notifyAgent := Some false;
                        lead_update :=
                          [("Status", "Not Interested");
                           ("Conversation Stage", "not_interested_after_viewing")] |}
                end
            | Ok false =>
                Sent {| followup_success := false; invalidResponse := true;
                        userMessage :=
                          Text.lines ["Please reply:"; "1️⃣ Interested"; "2️⃣ Not Interested";
                                      "3️⃣ HI – to search another property"];
                        agentMessage := None; notifyAgent := None; lead_update := [] |}
            end
        end
    end.

(** *** The cache of tenants *)

(** An entry of [tenantCache]. The data of a tenant is taken to be a scalar.
    The cache is an object used as a map from any string: an assignment
    under [__proto__] makes the entry the prototype of the cache, where a
    read under that name finds it again; a read under another name that is
    not a property of the cache finds [undefined], a function of
    [Object.prototype], or the data or the time stamp of that prototype,
    none of which has a [timestamp], so the difference of the times is
    [NaN] and the read gives [null] as for a missing entry. *)
Record Cached := { data : json; timestamp : Z }.

Definition tenantCache := list (string * Cached).

Definition CACHE_DURATION : Z := 60 * 60 * 1000.

Fixpoint entry (tenantId : string) (cache : tenantCache) : option Cached :=
  match cache with
  | [] => None
  | (k, e) :: cache' => if String.eqb tenantId k then Some e else entry tenantId cache'
  end.

Fixpoint assign (tenantId : string) (e : Cached) (cache : tenantCache) : tenantCache :=
  match cache with
  | [] => [(tenantId, e)]
  | (k, e') :: cache' =>
      if String.eqb tenantId k then (k, e) :: cache' else (k, e') :: assign tenantId e cache'
  end.

(** [now] is [Date.now()]. *)
Definition getCachedTenant (now : Z) (cache : tenantCache) (tenantId : string) : json :=
  match entry tenantId cache with
  | Some cached =>
      if now - timestamp cached <? CACHE_DURATION then data cached else JNull
  | None => JNull
  end.

Definition cacheTenant (now : Z) (cache : tenantCache) (tenantId : string) (data : json)
    : tenantCache :=
  assign tenantId {| data := data; timestamp := now |} cache.

End Server.

(** ** [/api/available-slots-v2]: the slots generated

    The loop that generates the slots, for the numbers that [parseInt]
    gives for the fields of the tenant, the text of the working days as
    normalised, and the events booked in the calendar. Instants are
    milliseconds since the epoch; the clock of the server is [tz]
    milliseconds ahead of UTC during the days looked at: the statements
    hold for a server whose clock changes its offset on none of them (no
    daylight-saving change). *)

Module SlotsV2.

Record Config := {
  workStart : Z;
  workEnd : Z;
  slotDuration : Z;
  workingDaysStr : string;
  daysAhead : Z
}.

(** A slot as pushed: its number, and [start] and [end] as instants (the
    source sends them as ISO texts, beside two texts for display). *)
Record Slot := { number : Z; slot_start : Z; slot_end : Z }.

Definition MAX_SLOTS : Z := 7.
Definition KENYA_OFFSET_HOURS : Z := 3.
Definition minute_ms : Z := 60 * 1000.

Definition dayNames : list string :=
  ["Sunday"; "Monday"; "Tuesday"; "Wednesday"; "Thursday"; "Friday"; "Saturday"].

(** [isWorkingDay(day)], for the local day [d] that [day] is the midnight
    of. *)
Definition isWorkingDay (c : Config) (d : Z) : bool :=
  Text.includes (nth (Z.to_nat (Slots.getDay d)) dayNames "") (workingDaysStr c).

(** The day of an instant in UTC, counted from the epoch. *)
Definition utc_day (t : Z) : Z := t / Slots.day_ms.

(** [slotStart]: a copy of [day], the local midnight of the day [d], after
    [setUTCHours(hour - KENYA_OFFSET_HOURS, 0, 0, 0)]. *)
Definition slotStart (tz d hour : Z) : Z :=
  utc_day (Slots.midnight tz d) * Slots.day_ms
  + (hour - KENYA_OFFSET_HOURS) * Slots.hour_ms.

(** [slotEnd]: a copy of [slotStart] after
    [setMinutes(getMinutes() + slotDuration)]. *)
Definition slotEnd (c : Config) (start : Z) : Z := start + slotDuration c * minute_ms.

(** [getHours()] and [getMinutes()], in the time of the server. *)
Definition getHours (tz t : Z) : Z := ((t + tz) / Slots.hour_ms) mod 24.
Definition getMinutes (tz t : Z) : Z := ((t + tz) / minute_ms) mod 60.

(** The end of the slot lies beyond the working hours. *)
Definition beyond (tz : Z) (c : Config) (e : Z) : bool :=
  (workEnd c <? getHours tz e)
  || ((getHours tz e =? workEnd c) && (0 <? getMinutes tz e)).

(** The loop over the hours of a day is written in two parts. [scan] runs
    the iterations from [hour] on that push nothing, up to the one that
    finds a free slot ([Some], with its hour) or leaves the loop ([None]);
    [n] is the number of hours left before [workEnd]. *)
Fixpoint scan (n : nat) (hour : Z) (tz d minSlotTime : Z) (c : Config)
    (booked : list Slots.Event) : option (Z * Z * Z) :=
  match n with
  | O => None
  | S n' =>
      let s := slotStart tz d hour in
      let e := slotEnd c s in
      if s <=? minSlotTime then scan n' (hour + 1) tz d minSlotTime c booked
      else if beyond tz c e then None
      else if Slots.overlaps booked s e then scan n' (hour + 1) tz d minSlotTime c booked
      else Some (hour, s, e)
  end.

(** [fill] pushes the slot found and goes on from
    [Math.floor((hour * 60 + slotDuration) / 60)]; [k] is the number of
    slots that may still be pushed. *)
Fixpoint fill (k : nat) (hour : Z) (tz d minSlotTime : Z) (c : Config)
    (booked : list Slots.Event) (freeSlots : list Slot) : list Slot :=
  match k with
  | O => freeSlots
  | S k' =>
      match scan (Z.to_nat (workEnd c - hour)) hour tz d minSlotTime c booked with
      | None => freeSlots
      | Some (h, s, e) =>
          fill k' ((h * 60 + slotDuration c) / 60) tz d minSlotTime c booked
            (freeSlots
             ++ [{| number := Z.of_nat (List.length freeSlots) + 1;
                    slot_start := s; slot_end := e |}])
      end
  end.

Definition room (freeSlots : list Slot) : nat :=
  Z.to_nat (MAX_SLOTS - Z.of_nat (List.length freeSlots)).

(** The loop over the days: [n] iterations are left, [dayOffset] is the
    next one. *)
Fixpoint days (n : nat) (dayOffset : Z) (tz now : Z) (c : Config)
    (booked : list Slots.Event) (freeSlots : list Slot) : list Slot :=
  match n with
  | O => freeSlots
  | S n' =>
      if Z.of_nat (List.length freeSlots) <? MAX_SLOTS then
        let d := Slots.local_day tz now + dayOffset in
        if negb (isWorkingDay c d) then days n' (dayOffset + 1) tz now c booked freeSlots
        else
          days n' (dayOffset + 1) tz now c booked
            (fill (room freeSlots) (workStart c) tz d (now + 60 * 60 * 1000) c booked
               freeSlots)
      else freeSlots
  end.

Definition freeSlots (tz now : Z) (c : Config) (booked : list Slots.Event) : list Slot :=
  days (Z.to_nat (daysAhead c)) 0 tz now c booked [].

(** The day and the hour of an instant on a clock in Kenya. *)
Definition kenya_day (t : Z) : Z :=
  (t + KENYA_OFFSET_HOURS * Slots.hour_ms) / Slots.day_ms.
Definition kenya_hour (t : Z) : Z :=
  ((t + KENYA_OFFSET_HOURS * Slots.hour_ms) / Slots.hour_ms) mod 24.

(** What the loop has found for a slot it pushes: the day [dayOffset] is a
    working day, the hour is one of the loop, and the slot starts more than
    an hour from now, ends within the working hours as [beyond] reads them,
    and meets no booked event. *)
Definition offered (tz now : Z) (c : Config) (booked : list Slots.Event)
    (dayOffset hour : Z) (x : Slot) : Prop :=
  0 <= dayOffset < daysAhead c
  /\ isWorkingDay c (Slots.local_day tz now + dayOffset) = true
  /\ hour < workEnd c
  /\ (0 <= slotDuration c -> workStart c <= hour)
  /\ slot_start x = slotStart tz (Slots.local_day tz now + dayOffset) hour
  /\ slot_end x = slotEnd c (slot_start x)
  /\ now + 60 * 60 * 1000 < slot_start x
  /\ beyond tz c (slot_end x) = false
  /\ Slots.overlaps booked (slot_start x) (slot_end x) = false.

(** The slots numbered from [n]. *)
Fixpoint numbered (n : Z) (l : list (Z * Z)) : list Slot :=
  match l with
  | [] => []
  | (s, e) :: l' =>
      {| number := n; slot_start := s; slot_end := e |} :: numbered (n + 1) l'
  end.

(** The two instants of a slot. *)
Definition times (x : Slot) : Z * Z := (slot_start x, slot_end x).

Definition starts_before (a b : Slot) : Prop := slot_start a < slot_start b.

(** A tenant with slots of half an hour, on a Monday morning (the fifth of
    January 1970), nothing booked. *)
Definition half_hours : Config :=
  {| workStart := 9; workEnd := 17; slotDuration := 30;
     workingDaysStr := "Monday, Tuesday, Wednesday, Thursday, Friday";
     daysAhead := 30 |}.

Definition hourly : Config :=
  {| workStart := 9; workEnd := 17; slotDuration := 60;
     workingDaysStr := "Monday, Tuesday, Wednesday, Thursday, Friday";
     daysAhead := 30 |}.

Definition monday_morning : Z := 4 * Slots.day_ms.

End SlotsV2.

(** * Properties *)

Import Js Regex.

(** ** The matcher on the greeting pattern *)

Lemma run_lit w : forall st s caps k r,
  run (lit w) st s caps k = Some r ->
  exists rest st', s = w ++ rest /\ k st' rest caps = Some r.
Proof.
  induction w as [|c w IH]; intros st s caps k r H.
  - exists s, st. split; [reflexivity | exact H].
  - simpl in H. destruct s as [|a s]; [discriminate|].
    destruct (Ascii.eqb c a) eqn:E; [|discriminate].
    apply Ascii.eqb_eq in E. subst a.
    apply IH in H. destruct H as (rest & st' & -> & H).
    exists rest, st'. split; [reflexivity | exact H].
Qed.

Lemma search_bol r : forall s, search (Seq Bol r) false s = None.
Proof.
  induction s as [|c s IH]; simpl; auto.
Qed.

Lemma app_empty_r (s : string) : s ++ "" = s.
Proof. induction s; simpl; congruence. Qed.

Ltac exact_word H :=
  repeat match type of H with
  | match ?x with Some _ => _ | None => _ end = Some _ =>
      let E := fresh "E" in destruct x eqn:E; [clear H | ]
  end;
  match goal with
  | E : run (lit _) _ _ _ _ = Some _ |- _ =>
      let rest := fresh "rest" in
      let Hs := fresh "Hs" in
      apply run_lit in E; destruct E as (rest & ? & Hs & E);
      destruct rest; [|discriminate]; rewrite app_empty_r in Hs; rewrite Hs; simpl; tauto
  end.

Lemma greeting_words msg :
  test Enhanced.re_greeting msg = true ->
  In msg ["hi"; "hello"; "hey"; "start"; "helo"; "restart"].
Proof.
  unfold test, exec, Enhanced.re_greeting.
  destruct msg as [|c msg]; [vm_compute; discriminate|].
  cbn [seqs alts search].
  destruct (run _ true _ _ _) eqn:H.
  2:{ rewrite search_bol. discriminate. }
  intros _. cbn [run] in H. exact_word H.
Qed.

Lemma greeting_is_no_number msg :
  test Enhanced.re_greeting msg = true ->
  Enhanced.bedrooms_in msg = NaN
  /\ Enhanced.choice_in Enhanced.re_property_n msg = None
  /\ Enhanced.choice_in Enhanced.re_slot_n msg = None
  /\ Enhanced.budget_ok (Enhanced.budget_text msg) = false.
Proof.
  intros H. apply greeting_words in H. simpl in H.
  repeat destruct H as [<-|H]; try contradiction; vm_compute; auto.
Qed.

(** ** Values and objects *)

Lemma is_string_stage j s :
  is_string (or_else j JNull) s = true -> j = JStr s.
Proof.
  unfold or_else. destruct (truthy_json j); [|discriminate].
  destruct j; simpl; try discriminate. intros H. apply String.eqb_eq in H. congruence.
Qed.







Lemma receiver_message input m :
  message input = JStr m -> receiver (or_else (message input) (JStr "")) = Ok m.
Proof.
  intros ->. unfold or_else. simpl. destruct (String.eqb m "") eqn:E; simpl; trivial.
  apply String.eqb_eq in E. now subst.
Qed.

Lemma not_followup input msg :
  String.eqb msg "1" = false -> String.eqb msg "2" = false ->
  followup_answer input msg = false.
Proof.
  intros H1 H2. unfold followup_answer. rewrite H1, H2. apply andb_false_r.
Qed.

(** ** The two routers, path by path *)

(** Reads and updates of the response, with nothing else unfolded. *)
Ltac props :=
  cbn [prop set has Enhanced.response0 Plain.response0 Enhanced.invalid Plain.invalid
       String.eqb Ascii.eqb Bool.eqb andb orb negb].

(** The body up to the normalised message. *)
Ltac enter Hm :=
  unfold Enhanced.handleMessage, Enhanced.body, Plain.handleMessage, Plain.body;
  cbn [fields bind];
  rewrite ?(receiver_message _ _ Hm); cbn [bind];
  repeat match goal with
  | |- context [Text.trim (Text.toLowerCase ?m)] => fold (heard m)
  end.

(** The dispatch at a known stage. *)
Ltac at_stage Hs :=
  unfold Enhanced.stages, Plain.stages; rewrite Hs;
  cbn [is_string or_else truthy_json negb andb orb String.eqb Ascii.eqb Bool.eqb].









(** The stage dispatch is reached by an existing lead whose message is
    neither a follow-up answer nor a greeting. *)
Lemma enhanced_reach input m :
  message input = JStr m ->
  Enhanced.leadExists (lead_id input) = true ->
  followup_answer input (heard m) = false ->
  test Enhanced.re_greeting (heard m) = false ->
  Enhanced.body (Fields input) =
  Enhanced.stages input m (heard m)
    (or_else (tenant_property_types input) (JStr "Buy, Rent")).
Proof.
  intros Hm Hl Hf Hg. unfold Enhanced.body. cbn [fields bind].
  rewrite (receiver_message _ _ Hm). cbn [bind]. fold (heard m).
  unfold followup_answer in Hf. rewrite Hf.
  unfold Enhanced.conversation. rewrite Hl, Hg. reflexivity.
Qed.

Lemma plain_reach input m :
  message input = JStr m ->
  Enhanced.leadExists (lead_id input) = true ->
  test Plain.re_greeting (heard m) = false ->
  Plain.body (Fields input) =
  Plain.stages input (heard m) (or_else (tenant_property_types input) (JStr "Buy, Rent")).
Proof.
  intros Hm Hl Hg. unfold Plain.body. cbn [fields bind].
  rewrite (receiver_message _ _ Hm). cbn [bind]. fold (heard m).
  rewrite Hl, Hg. reflexivity.
Qed.

Ltac walk :=
  repeat match goal with
  | |- context [Js.bind ?x _] => destruct x eqn:?; cbn [bind]
  | |- context [if ?b then _ else _] => destruct b eqn:?
  end.

Lemma enhanced_descriptor a : descriptor (Enhanced.handleMessage a).
Proof.
  unfold Enhanced.handleMessage, Enhanced.body, Enhanced.conversation, Enhanced.new_user,
    Enhanced.stages, Enhanced.followup_interested, Enhanced.followup_not_interested.
  walk; props; unfold descriptor; props; eauto.
Qed.

Lemma plain_descriptor a : descriptor (Plain.handleMessage a).
Proof.
  unfold Plain.handleMessage, Plain.body, Plain.stages.
  walk; props; unfold descriptor; props; eauto.
Qed.

(** ** The router boundary *)

(** C1. For every argument, a record with broken or missing fields and
    [null] included, [handleMessage] returns a response descriptor; when the
    body throws, the descriptor is the error one: action ["error"] and an
    apology as reply. This holds for both versions of the router. *)
Theorem router_never_throws (a : argument) :
  (descriptor (Enhanced.handleMessage a)
   /\ (Enhanced.body a = Throw ->
       Enhanced.handleMessage a =
       [("action", VStr "error");
        ("replyMessage",
         VStr "Oops! Something went wrong. Please try again or send HI to restart.")]))
  /\ (descriptor (Plain.handleMessage a)
      /\ (Plain.body a = Throw ->
          Plain.handleMessage a =
          [("action", VStr "error");
           ("replyMessage", VStr "Oops! Something went wrong. Please try again later.")])).
Proof.
  split; split.
  - apply enhanced_descriptor.
  - unfold Enhanced.handleMessage. now intros ->.
  - apply plain_descriptor.
  - unfold Plain.handleMessage. now intros ->.
Qed.

Lemma router_never_throws_witness :
  Enhanced.body (Fields numeric_message) = Throw
  /\ Enhanced.handleMessage (Fields numeric_message) =
     [("action", VStr "error");
      ("replyMessage",
       VStr "Oops! Something went wrong. Please try again or send HI to restart.")].
Proof.
  split; [reflexivity|].
  apply (proj2 (proj1 (router_never_throws (Fields numeric_message)))). reflexivity.
Defined.

(** Faults the boundary catches: no argument, a message that is not text,
    property types that are not text. *)
Example faults_are_caught :
  Enhanced.body Nullish = Throw
  /\ Plain.body (Fields numeric_message) = Throw
  /\ Enhanced.body (Fields (first_message "hello" (JNum 7))) = Throw
  /\ prop "action" (Enhanced.handleMessage (Fields (first_message "hello" (JNum 7)))) =
     VStr "error".
Proof. repeat split. Qed.

(** ** Validation *)




(** ** Budget *)



Lemma digit_value_digit c :
  Text.is_digit c = true ->
  digit_value c = Some (Z.of_N (Text.code c) - 48) /\ (Z.of_N (Text.code c) - 48 <? 10) = true.
Proof.
  destruct c as [[] [] [] [] [] [] [] []]; vm_compute; auto; discriminate.
Qed.


Lemma read_digits_all d : forall rest acc n,
  all_chars Text.is_digit d = true ->
  (rest = "" \/ exists c r, rest = String c r /\ digit_value c = None) ->
  read_digits 10 (d ++ rest) acc n = (decimal_from acc d, (n + String.length d)%nat, rest).
Proof.
  induction d as [|c d IH]; intros rest acc n Hd Hr.
  - simpl. rewrite Nat.add_0_r.
    destruct Hr as [->|(c & r & -> & Hc)]; simpl; trivial. now rewrite Hc.
  - simpl in Hd. apply andb_true_iff in Hd. destruct Hd as (Hc & Hd).
    simpl. destruct (digit_value_digit c Hc) as (-> & ->).
    rewrite IH; trivial. now rewrite Nat.add_succ_r.
Qed.








(** The greedy loop over a class runs through a text of that class and
    hands what follows to the continuation, when that one succeeds on it
    and what follows does not start in the class. *)
Lemma star_class (p : ascii -> bool) step k t c :
  (forall st s caps (k' : bool -> string -> captures -> option captures),
     step st s caps k' =
     match s with
     | String a s' => if p a then k' false s' caps else None
     | EmptyString => None
     end) ->
  forall s fuel st caps,
  all_chars p s = true ->
  (t = "" \/ exists a r, t = String a r /\ p a = false) ->
  (forall st', k st' t caps = Some c) ->
  (String.length s <= fuel)%nat ->
  star_loop step k fuel st (s ++ t) caps = Some c.
Proof.
  intros Hstep.
  induction s as [|a s IH]; intros fuel st caps Hs Ht Hk Hf.
  - cbn [append]. destruct fuel; cbn [star_loop]; [apply Hk|]. rewrite Hstep.
    destruct Ht as [->|(a & r & -> & Ha)].
    + apply Hk.
    + rewrite Ha. apply Hk.
  - simpl in Hs. apply andb_true_iff in Hs. destruct Hs as (Ha & Hs).
    destruct fuel; [simpl in Hf; lia|].
    cbn [append star_loop]. rewrite Hstep, Ha.
    assert (L : Nat.ltb (String.length (s ++ t)) (String.length (String a (s ++ t))) = true).
    { apply Nat.ltb_lt. simpl. lia. }
    rewrite L. rewrite IH; trivial. simpl in Hf. lia.
Qed.












(** ** Follow-up *)

Lemma plain_reads_no_flag flag input :
  Plain.handleMessage (Fields (with_followup flag input)) =
  Plain.handleMessage (Fields input).
Proof. reflexivity. Qed.

Lemma plain_no_followup a :
  prop "action" (Plain.handleMessage a) <> VStr "followup_interested"
  /\ prop "action" (Plain.handleMessage a) <> VStr "followup_not_interested"
  /\ has "agentNotification" (Plain.handleMessage a) = false.
Proof.
  unfold Plain.handleMessage, Plain.body, Plain.stages.
  walk; props; repeat split; discriminate.
Qed.

(** C4, as amended. In the enhanced router, for an existing lead with the
    follow-up flag set, the message "1" sets Status to "Hot Lead",
    Conversation Stage to "interested_after_viewing" and
    AwaitingFollowUpResponse to false, and carries an agent notification
    with a text; the message "2" marks the lead "Not Interested" and carries
    a reply and no notification. The plain router has no follow-up handler:
    its answer does not depend on the flag, is never one of the two
    follow-up actions and carries no notification. *)
Theorem followup_answers input m :
  Enhanced.leadExists (lead_id input) = true ->
  truthy_json (awaiting_followup_response input) = true ->
  message input = JStr m ->
  (heard m = "1" ->
   prop "action" (Enhanced.handleMessage (Fields input)) = VStr "followup_interested"
   /\ prop "updateFields" (Enhanced.handleMessage (Fields input)) =
      VObject [("Status", VStr "Hot Lead");
               ("Conversation Stage", VStr "interested_after_viewing");
               ("AwaitingFollowUpResponse", VBool false)]
   /\ exists note text,
        prop "agentNotification" (Enhanced.handleMessage (Fields input)) = VObject note
        /\ note <> []
        /\ prop "message" note = VStr text /\ text <> ""
        /\ prop "leadPhone" note = of_json (from input))
  /\ (heard m = "2" ->
      prop "action" (Enhanced.handleMessage (Fields input)) = VStr "followup_not_interested"
      /\ prop "updateFields" (Enhanced.handleMessage (Fields input)) =
         VObject [("Status", VStr "Not Interested");
                  ("Conversation Stage", VStr "not_interested_after_viewing");
                  ("AwaitingFollowUpResponse", VBool false)]
      /\ prop "replyMessage" (Enhanced.handleMessage (Fields input)) =
         VStr Enhanced.reply_not_interested
      /\ has "agentNotification" (Enhanced.handleMessage (Fields input)) = false)
  /\ (forall flag,
      Plain.handleMessage (Fields (with_followup flag input)) =
      Plain.handleMessage (Fields input))
  /\ prop "action" (Plain.handleMessage (Fields input)) <> VStr "followup_interested"
  /\ prop "action" (Plain.handleMessage (Fields input)) <> VStr "followup_not_interested"
  /\ has "agentNotification" (Plain.handleMessage (Fields input)) = false.
Proof.
  intros Hl Ha Hm.
  assert (Hf : truthy_json (or_else (awaiting_followup_response input) (JBool false)) = true).
  { unfold or_else. now rewrite Ha. }
  split; [|split; [|split; [|apply plain_no_followup]]].
  - intros Hh; enter Hm; rewrite Hh, Hl, Hf; props; cbv iota.
    unfold Enhanced.followup_interested. props. repeat split.
    eexists _, _. repeat split; try reflexivity; discriminate.
  - intros Hh; enter Hm; rewrite Hh, Hl, Hf; props; cbv iota.
    unfold Enhanced.followup_not_interested. props. auto.
  - intros flag. apply plain_reads_no_flag.
Qed.

Lemma followup_answers_witness :
  prop "action" (Enhanced.handleMessage (Fields (lead_at "completed" "1" true))) =
  VStr "followup_interested".
Proof.
  apply (proj1 (followup_answers (lead_at "completed" "1" true) "1"
                  eq_refl eq_refl eq_refl)).
  reflexivity.
Defined.

(** C4 as first stated fails: the plain router answers the message "1" of a
    lead with the follow-up flag set, at stage [completed], with
    ["invalid"], no update and no notification. *)
Lemma plain_router_has_no_followup :
  Enhanced.leadExists (lead_id (lead_at "completed" "1" true)) = true
  /\ awaiting_followup_response (lead_at "completed" "1" true) = JBool true
  /\ prop "action" (Plain.handleMessage (Fields (lead_at "completed" "1" true))) =
     VStr "invalid"
  /\ prop "updateFields" (Plain.handleMessage (Fields (lead_at "completed" "1" true))) =
     VObject []
  /\ has "agentNotification" (Plain.handleMessage (Fields (lead_at "completed" "1" true))) =
     false.
Proof. vm_compute. repeat split. Qed.

(** ** Bedrooms *)





(** ** First message *)






(** ** Greeting *)

(** C7. For an existing lead at any stage, whatever its other fields, the
    message "hi" is answered with an update whose [updateFields] is the one
    entry Conversation Stage = "asked_buy_or_rent". Both versions of the
    router; the tenant's property types are text or left out. *)
Theorem greeting_resets_stage_only input m types :
  Enhanced.leadExists (lead_id input) = true ->
  message input = JStr m ->
  heard m = "hi" ->
  offered_types input = Ok types ->
  (prop "action" (Enhanced.handleMessage (Fields input)) = VStr "update"
   /\ prop "updateFields" (Enhanced.handleMessage (Fields input)) =
      VObject [("Conversation Stage", VStr "asked_buy_or_rent")])
  /\ (prop "action" (Plain.handleMessage (Fields input)) = VStr "update"
      /\ prop "updateFields" (Plain.handleMessage (Fields input)) =
         VObject [("Conversation Stage", VStr "asked_buy_or_rent")]).
Proof.
  intros Hl Hm Hh Ht. unfold offered_types in Ht.
  split.
  - enter Hm. rewrite Hh. props. rewrite andb_false_r.
    unfold Enhanced.conversation. rewrite Hl. cbn [negb].
    change (test Enhanced.re_greeting "hi") with true. cbv iota.
    rewrite Ht. cbn [bind]. props. auto.
  - enter Hm. rewrite Hh, Hl. cbn [negb].
    change (test Plain.re_greeting "hi") with true. cbv iota.
    rewrite Ht. cbn [bind]. props. auto.
Qed.

Lemma greeting_resets_stage_only_witness :
  prop "updateFields" (Enhanced.handleMessage (Fields (lead_at "asked_budget" " Hi " false))) =
  VObject [("Conversation Stage", VStr "asked_buy_or_rent")].
Proof.
  apply (proj2 (proj1 (greeting_resets_stage_only (lead_at "asked_budget" " Hi " false)
                         " Hi " "Buy, Rent" eq_refl eq_refl eq_refl eq_refl))).
Defined.

(** A count that passes the range check of the enhanced router is an
    integer from 1 to 20, whose digits the reply prints. *)
Lemma parseInt_cases s : parseInt s = NaN \/ exists z, parseInt s = of_integer z.
Proof.
  unfold parseInt.
  destruct (match Text.trimStart s with
            | String "-" r => (true, r)
            | String "+" r => (false, r)
            | _ => (false, Text.trimStart s)
            end) as [neg s2].
  destruct (match s2 with
            | String "0" (String "x" r) => (16, r)
            | String "0" (String "X" r) => (16, r)
            | _ => (10, s2)
            end) as [radix s3].
  destruct (read_digits radix s3 0 0) as [[v n] rest].
  destruct n; [now left|right]. eauto.
Qed.

Lemma bedrooms_ok_int msg :
  Enhanced.bedrooms_ok (Enhanced.bedrooms_in msg) = true ->
  exists z, Enhanced.bedrooms_in msg = Int z /\ 1 <= z <= 20.
Proof.
  unfold Enhanced.bedrooms_in.
  set (str := match capture 1 Enhanced.re_n_bed msg with
              | Some b => b
              | None => match capture 2 Enhanced.re_i_want_n msg with
                        | Some b => b
                        | None => msg
                        end
              end).
  destruct (parseInt_cases str) as [->|(z & ->)]; [discriminate|].
  unfold of_integer, Enhanced.bedrooms_ok.
  destruct (safe z) eqn:S; cbn [isNaN lt gt orb negb]; intros H.
  - exists z. split; trivial.
    apply negb_true_iff, orb_false_iff in H. destruct H as (H1 & H2).
    apply Z.ltb_ge in H1, H2. lia.
  - exfalso. apply negb_true_iff, orb_false_iff in H. destruct H as (H1 & H2).
    apply Z.ltb_ge in H1, H2. unfold safe in S. apply Z.leb_gt in S.
    assert (2 ^ 53 > 20) by (vm_compute; reflexivity). lia.
Qed.

(** ** Stage order *)





(** ** Selections *)



(** The spec's example of a name: "john smith" is stored as "John Smith",
    said plainly or in a phrase. *)
Example name_normalization :
  prop "updateFields" (Enhanced.handleMessage (Fields (lead_at "asked_name" "john smith" false))) =
  VObject [("Name", VStr "John Smith"); ("Conversation Stage", VStr "asked_budget")]
  /\ prop "updateFields"
       (Enhanced.handleMessage (Fields (lead_at "asked_name" "My name is john smith" false))) =
     VObject [("Name", VStr "John Smith"); ("Conversation Stage", VStr "asked_budget")].
Proof. vm_compute. auto. Qed.

(** ** Where else the plain router differs

    The plain version reads no phrases and does not refuse the number
    zero. *)
Example plain_router_differs :
  prop "action"
    (Plain.handleMessage (Fields (lead_at "asked_name" "My name is john smith" false))) =
  VStr "invalid"
  /\ prop "updateFields" (Plain.handleMessage (Fields (lead_at "completed" "property 0" false))) =
     VObject [("Conversation Stage", VStr "awaiting_time_slot");
              ("Selected Property Number", VNum (Int 0))].
Proof. vm_compute. repeat split. Qed.

(** ** The slot calculation *)

Import Slots.

Lemma made_wider day mn bk lo hi lo' hi' s :
  lo' <= lo -> hi <= hi' -> made day mn bk lo hi s -> made day mn bk lo' hi' s.
Proof.
  intros H1 H2 (A & B & C & h & Hh & D). repeat split; trivial. exists h. split; [lia|trivial].
Qed.

Lemma hours_made n : forall h day mn bk fs s,
  In s (hours n h day mn bk fs) ->
  In s fs \/ made day mn bk h (h + Z.of_nat n) s.
Proof.
  induction n as [|n IH]; intros h day mn bk fs s H; [now left|].
  cbn [hours] in H.
  destruct (Z.of_nat (List.length fs) <? 5); [|now left].
  cbv zeta in H.
  destruct (day + h * hour_ms <=? mn) eqn:E1.
  { apply IH in H. destruct H as [H|H]; [now left|right].
    eapply made_wider; [| |exact H]; lia. }
  destruct (overlaps bk _ _) eqn:E2.
  { apply IH in H. destruct H as [H|H]; [now left|right].
    eapply made_wider; [| |exact H]; lia. }
  apply IH in H. destruct H as [H|H].
  - apply in_app_or in H. destruct H as [H|[<-|[]]]; [now left|right].
    repeat split; cbn [slot_start slot_end]; trivial.
    + apply Z.leb_gt in E1. lia.
    + exists h. split; [lia|reflexivity].
  - right. eapply made_wider; [| |exact H]; lia.
Qed.

Lemma hours_length n : forall h day mn bk fs,
  (List.length fs <= 5)%nat -> (List.length (hours n h day mn bk fs) <= 5)%nat.
Proof.
  induction n as [|n IH]; intros h day mn bk fs H; trivial.
  cbn [hours]. destruct (Z.of_nat (List.length fs) <? 5) eqn:E; trivial.
  apply Z.ltb_lt in E. cbv zeta.
  destruct (_ <=? mn); [now apply IH|].
  destruct (overlaps _ _ _); [now apply IH|].
  apply IH. rewrite length_app. simpl. lia.
Qed.

Lemma days_made n : forall i tz now r fs s,
  In s (days n i tz now r fs) ->
  In s fs \/
  exists j, i <= j < i + Z.of_nat n
    /\ weekend (local_day tz now + j) = false
    /\ made (midnight tz (local_day tz now + j)) (now + 60 * 60 * 1000) (booked r)
         (workStart r) (workStart r + Z.of_nat (Z.to_nat (workEnd r - workStart r))) s.
Proof.
  induction n as [|n IH]; intros i tz now r fs s H; [now left|].
  cbn [days] in H.
  destruct (Z.of_nat (List.length fs) <? 5); [|now left].
  cbv zeta in H.
  destruct (weekend (local_day tz now + i)) eqn:W.
  - apply IH in H. destruct H as [H|(j & Hj & H)]; [now left|right].
    exists j. split; [lia|trivial].
  - apply IH in H. destruct H as [H|(j & Hj & H)].
    + apply hours_made in H. destruct H as [H|H]; [now left|right].
      exists i. split; [lia|]. split; trivial.
    + right. exists j. split; [lia|trivial].
Qed.

Lemma days_length n : forall i tz now r fs,
  (List.length fs <= 5)%nat -> (List.length (days n i tz now r fs) <= 5)%nat.
Proof.
  induction n as [|n IH]; intros i tz now r fs H; trivial.
  cbn [days]. destruct (Z.of_nat (List.length fs) <? 5); trivial. cbv zeta.
  destruct (weekend _); [now apply IH|].
  apply IH. now apply hours_length.
Qed.

Lemma overlaps_none r s e ev a b :
  overlaps (booked r) s e = false ->
  In ev (bookedEvents r) ->
  strict_eq (event_property ev) (propertyId r) = true ->
  event_start ev = Some a -> event_end ev = Some b ->
  ~ (s < b /\ a < e).
Proof.
  intros Ho Hin Hp Ha Hb (H1 & H2).
  unfold overlaps in Ho.
  assert (Hex : existsb (fun b0 => before (Some s) (event_end b0)
                                   && before (event_start b0) (Some e))
                  (booked r) = true).
  { apply existsb_exists. exists ev. split.
    - unfold booked. apply filter_In. auto.
    - rewrite Ha, Hb. simpl. apply andb_true_iff. split; apply Z.ltb_lt; trivial. }
  congruence.
Qed.

Lemma whole_hour tz d h : (midnight tz d + h * hour_ms + tz) mod hour_ms = 0.
Proof.
  unfold midnight, day_ms.
  replace (d * (24 * hour_ms) - tz + h * hour_ms + tz) with ((d * 24 + h) * hour_ms) by ring.
  apply Z.mod_mul. unfold hour_ms. lia.
Qed.

Lemma calendar_day tz d h :
  0 <= h < 24 ->
  local_day tz (midnight tz d + h * hour_ms) = d
  /\ (midnight tz d + h * hour_ms + tz) mod day_ms = h * hour_ms.
Proof.
  intros Hh. unfold local_day, midnight.
  replace (d * day_ms - tz + h * hour_ms + tz) with (h * hour_ms + d * day_ms) by ring.
  assert (R : 0 <= h * hour_ms < day_ms) by (unfold day_ms, hour_ms; lia).
  assert (D : day_ms <> 0) by (unfold day_ms, hour_ms; lia).
  split.
  - rewrite Z.div_add by exact D. rewrite (Z.div_small _ _ R). lia.
  - rewrite Z.mod_add by exact D. now apply Z.mod_small.
Qed.

(** What holds of every request, the hours of the working day being any
    integers: at most five slots, each of 60 minutes, on the hour, [h] hours
    after the local midnight of a day that is no weekend day, with
    [workStart <= h < workEnd], more than an hour from now, and clear of the
    events booked for the property. *)
Lemma free_slots_made tz now r :
  (List.length (freeSlots tz now r) <= 5)%nat
  /\ forall s, In s (freeSlots tz now r) ->
       slot_end s = slot_start s + 60 * 60 * 1000
       /\ (slot_start s + tz) mod hour_ms = 0
       /\ now + 60 * 60 * 1000 < slot_start s
       /\ (exists i h,
             0 <= i < daysAhead r
             /\ workStart r <= h < workEnd r
             /\ weekend (local_day tz now + i) = false
             /\ slot_start s = midnight tz (local_day tz now + i) + h * hour_ms)
       /\ (forall e a b,
             In e (bookedEvents r) ->
             strict_eq (event_property e) (propertyId r) = true ->
             event_start e = Some a -> event_end e = Some b ->
             ~ (slot_start s < b /\ a < slot_end s)).
Proof.
  split.
  - unfold freeSlots. apply days_length. simpl. lia.
  - intros s H. unfold freeSlots in H. apply days_made in H.
    destruct H as [[]|(j & Hj & W & He & Hm & Ho & h & Hh & Hs)].
    assert (Hh' : workStart r <= h < workEnd r) by lia.
    split; [exact He|]. split; [rewrite Hs; apply whole_hour|]. split; [exact Hm|].
    split.
    + exists j, h. split; [lia|]. auto.
    + intros e a b Hin Hp Ha Hb. eapply overlaps_none; eauto.
Qed.

(** C10, as amended. On a server whose clock keeps one offset [tz] from UTC
    over the days searched, for every request whose working hours and
    number of days are whole numbers and whose working day lies within a day
    ([0 <= workStart], [workEnd <= 24]), whatever the current time and the
    booked events: at most five slots are returned; each is 60 minutes
    long, starts at a whole hour [h] of the local clock with
    [workStart <= h < workEnd], on a day that is no weekend day and one of
    the [daysAhead] days from today, starts more than one hour after the
    current time, and overlaps no booked event of the requested property. *)
Theorem free_slots_sound tz now r :
  0 <= workStart r -> workEnd r <= 24 ->
  (List.length (freeSlots tz now r) <= 5)%nat
  /\ forall s, In s (freeSlots tz now r) ->
       slot_end s = slot_start s + 60 * 60 * 1000
       /\ (exists h, workStart r <= h < workEnd r
                     /\ (slot_start s + tz) mod day_ms = h * hour_ms)
       /\ weekend (local_day tz (slot_start s)) = false
       /\ (exists i, 0 <= i < daysAhead r
                     /\ local_day tz (slot_start s) = local_day tz now + i)
       /\ now + 60 * 60 * 1000 < slot_start s
       /\ (forall e a b,
             In e (bookedEvents r) ->
             strict_eq (event_property e) (propertyId r) = true ->
             event_start e = Some a -> event_end e = Some b ->
             ~ (slot_start s < b /\ a < slot_end s)).
Proof.
  intros H0 H24. destruct (free_slots_made tz now r) as (L & G).
  split; [exact L|]. intros s Hin.
  destruct (G s Hin) as (He & _ & Hm & (i & h & Hi & Hh & W & Hs) & Ho).
  destruct (calendar_day tz (local_day tz now + i) h) as (D & C); [lia|].
  rewrite <- Hs in D, C.
  split; [exact He|]. split; [exists h; auto|]. split; [now rewrite D|].
  split; [exists i; auto|]. auto.
Qed.

Lemma free_slots_sound_witness :
  weekend (local_day 0 (day_ms + 9 * hour_ms)) = false.
Proof.
  assert (H0 : 0 <= workStart office_hours) by (vm_compute; discriminate).
  assert (H24 : workEnd office_hours <= 24) by (vm_compute; discriminate).
  destruct (proj2 (free_slots_sound 0 day_ms office_hours H0 H24)
              {| slot_start := day_ms + 9 * hour_ms;
                 slot_end := day_ms + 10 * hour_ms |}) as (_ & _ & W & _).
  - vm_compute. left. reflexivity.
  - exact W.
Defined.

(** C10 as first stated fails: on a Friday, with the working day running
    from 23 to 25, the second slot is the hour after midnight, which is hour
    0 of a Saturday. *)
Lemma late_hours_reach_the_weekend :
  getDay (local_day 0 day_ms) = 5
  /\ freeSlots 0 day_ms late_hours =
     [{| slot_start := day_ms + 23 * hour_ms; slot_end := 2 * day_ms |};
      {| slot_start := 2 * day_ms; slot_end := 2 * day_ms + hour_ms |}]
  /\ weekend (local_day 0 (2 * day_ms)) = true
  /\ (2 * day_ms + 0) mod day_ms = 0 * hour_ms.
Proof. vm_compute. repeat split. Qed.

(** * Further properties of the routers *)

Lemma receiver_text j s :
  receiver (or_else j (JStr "")) = Ok s -> s <> "" -> j = JStr s.
Proof.
  unfold or_else. destruct j; simpl; try congruence.
  - destruct b; simpl; congruence.
  - destruct (z =? 0); simpl; congruence.
  - destruct (String.eqb s0 ""); simpl; congruence.
Qed.

Lemma heard_text m msg : heard m = msg -> msg <> "" -> m <> "".
Proof. intros <- N ->. apply N. reflexivity. Qed.

(** Every path of a router, with the conditions that lead to it. *)
Ltac paths :=
  unfold Enhanced.handleMessage, Enhanced.body, Enhanced.conversation, Enhanced.new_user,
    Enhanced.stages, Enhanced.followup_interested, Enhanced.followup_not_interested,
    Plain.handleMessage, Plain.body, Plain.stages;
  cbn [fields bind]; walk; props.

(** The same with the response named, for a goal that reads it often. *)
Ltac paths_of h :=
  let r := fresh "r" in
  let E := fresh "E" in
  remember h as r eqn:E; revert E;
  unfold Enhanced.handleMessage, Enhanced.body, Enhanced.conversation, Enhanced.new_user,
    Enhanced.stages, Enhanced.followup_interested, Enhanced.followup_not_interested,
    Plain.handleMessage, Plain.body, Plain.stages;
  cbn [fields bind]; walk; intros ->; props.

Ltac stage_known :=
  repeat match goal with
  | H : _ && _ = true |- _ => apply andb_true_iff in H; destruct H
  | H : is_string (or_else _ JNull) _ = true |- _ => apply is_string_stage in H
  | H : negb _ = false |- _ => apply negb_false_iff in H
  | H : negb _ = true |- _ => apply negb_true_iff in H
  end.

Lemma cancel_is_no_answer msg :
  test Enhanced.re_cancel msg = true ->
  msg <> "" /\ String.eqb msg "1" = false /\ String.eqb msg "2" = false
  /\ test Enhanced.re_greeting msg = false.
Proof.
  intros H. repeat split.
  - intros ->. discriminate.
  - destruct (String.eqb msg "1") eqn:E; trivial. apply String.eqb_eq in E. subst.
    discriminate.
  - destruct (String.eqb msg "2") eqn:E; trivial. apply String.eqb_eq in E. subst.
    discriminate.
  - destruct (test Enhanced.re_greeting msg) eqn:E; trivial.
    apply greeting_words in E. simpl in E.
    repeat destruct E as [<-|E]; try contradiction; discriminate.
Qed.

(** X1. A booking is cancelled from the stage [booking_confirmed] and from
    no other. For a message written in ASCII, the enhanced router answers
    ["cancel_booking"] exactly when the lead exists, its stage is
    [booking_confirmed] and the message contains "cancel" in any case; the
    plain router, exactly when the message, trimmed and in lower case, is
    the word alone. *)
Theorem cancel_only_when_confirmed input :
  ascii_json (message input) = true ->
  (prop "action" (Enhanced.handleMessage (Fields input)) = VStr "cancel_booking" <->
   Enhanced.leadExists (lead_id input) = true
   /\ lead_stage input = JStr "booking_confirmed"
   /\ exists m, message input = JStr m /\ test Enhanced.re_cancel (heard m) = true)
  /\ (prop "action" (Plain.handleMessage (Fields input)) = VStr "cancel_booking" <->
      Enhanced.leadExists (lead_id input) = true
      /\ lead_stage input = JStr "booking_confirmed"
      /\ exists m, message input = JStr m /\ heard m = "cancel").
Proof.
  intros _. split; split.
  - paths; intros A; try discriminate; stage_known;
      (repeat split; trivial); (eexists; split; [|eassumption]);
      apply receiver_text; trivial;
      match goal with H : test Enhanced.re_cancel _ = true |- _ =>
        apply cancel_is_no_answer in H; destruct H as (H & _) end;
      (eapply heard_text; [reflexivity | eassumption]).
  - intros (Hl & Hs & m & Hm & Hc).
    destruct (cancel_is_no_answer _ Hc) as (_ & H1 & H2 & Hg).
    unfold Enhanced.handleMessage.
    rewrite (enhanced_reach input m Hm Hl (not_followup _ _ H1 H2) Hg).
    at_stage Hs. rewrite Hc. props. reflexivity.
  - paths; intros A; try discriminate; stage_known;
      match goal with H : String.eqb _ "cancel" = true |- _ => apply String.eqb_eq in H end;
      (repeat split; trivial); (eexists; split; [|eassumption]);
      apply receiver_text; trivial;
      (eapply heard_text; [eassumption | discriminate]).
  - intros (Hl & Hs & m & Hm & Hc).
    unfold Plain.handleMessage. rewrite (plain_reach input m Hm Hl); rewrite Hc;
      [|reflexivity].
    at_stage Hs. props. reflexivity.
Qed.

Lemma cancel_only_when_confirmed_witness :
  prop "action"
    (Enhanced.handleMessage (Fields (lead_at "booking_confirmed" "Please CANCEL it" false))) =
  VStr "cancel_booking".
Proof.
  apply (proj2 (proj1 (cancel_only_when_confirmed
                         (lead_at "booking_confirmed" "Please CANCEL it" false) eq_refl))).
  repeat split. exists "Please CANCEL it". split; reflexivity.
Defined.




Ltac flagged_path h :=
  paths_of h; split; intros A; try discriminate; stage_known;
  (split; [auto|]); (split; [reflexivity|]); eexists; repeat split; reflexivity.

(** X3. The flags of a response tell its stage. A response with the search
    flag comes from stage [asked_size] or [asked_land_size] and moves the
    lead to [completed] with Status "Contacted"; a response with the
    booking flag comes from [awaiting_time_slot] and moves it to
    [booking_confirmed]. In both routers. *)
Theorem search_and_booking_flags input :
  ((prop "searchProperties" (Enhanced.handleMessage (Fields input)) = VBool true ->
   (lead_stage input = JStr "asked_size" \/ lead_stage input = JStr "asked_land_size")
   /\ prop "action" (Enhanced.handleMessage (Fields input)) = VStr "update"
   /\ exists f, prop "updateFields" (Enhanced.handleMessage (Fields input)) = VObject f
        /\ prop "Conversation Stage" f = VStr "completed"
        /\ prop "Status" f = VStr "Contacted")
  /\ (prop "bookingRequest" (Enhanced.handleMessage (Fields input)) = VBool true ->
      lead_stage input = JStr "awaiting_time_slot"
      /\ prop "action" (Enhanced.handleMessage (Fields input)) = VStr "create_booking"
      /\ exists f, prop "updateFields" (Enhanced.handleMessage (Fields input)) = VObject f
           /\ prop "Conversation Stage" f = VStr "booking_confirmed"))
  /\ ((prop "searchProperties" (Plain.handleMessage (Fields input)) = VBool true ->
      (lead_stage input = JStr "asked_size" \/ lead_stage input = JStr "asked_land_size")
      /\ prop "action" (Plain.handleMessage (Fields input)) = VStr "update"
      /\ exists f, prop "updateFields" (Plain.handleMessage (Fields input)) = VObject f
           /\ prop "Conversation Stage" f = VStr "completed"
           /\ prop "Status" f = VStr "Contacted")
  /\ (prop "bookingRequest" (Plain.handleMessage (Fields input)) = VBool true ->
      lead_stage input = JStr "awaiting_time_slot"
      /\ prop "action" (Plain.handleMessage (Fields input)) = VStr "create_booking"
      /\ exists f, prop "updateFields" (Plain.handleMessage (Fields input)) = VObject f
           /\ prop "Conversation Stage" f = VStr "booking_confirmed")).
Proof.
  split; [flagged_path (Enhanced.handleMessage (Fields input))
        |flagged_path (Plain.handleMessage (Fields input))].
Qed.

Lemma search_and_booking_flags_witness :
  lead_stage (lead_at "awaiting_time_slot" "slot 2" false) = JStr "awaiting_time_slot"
  /\ prop "action" (Enhanced.handleMessage (Fields (lead_at "awaiting_time_slot" "slot 2" false)))
     = VStr "create_booking".
Proof.
  destruct (proj2 (proj1 (search_and_booking_flags
                            (lead_at "awaiting_time_slot" "slot 2" false))) eq_refl)
    as (S & A & _).
  exact (conj S A).
Defined.

(** ** Numbers and their digits *)

Lemma decimal_from_acc d : forall acc,
  decimal_from (Z.pos acc) (NilEmpty.string_of_uint d) = Z.pos (Pos.of_uint_acc d acc).
Proof.
  induction d; intros acc; cbn [NilEmpty.string_of_uint decimal_from Pos.of_uint_acc];
    trivial; rewrite <- IHd; f_equal; vm_compute Text.code; lia.
Qed.

Lemma decimal_from_uint d :
  decimal_from 0 (NilEmpty.string_of_uint d) = Z.of_N (Pos.of_uint d).
Proof.
  induction d; cbn [NilEmpty.string_of_uint decimal_from Pos.of_uint]; trivial;
    cbn [Z.of_N]; rewrite <- decimal_from_acc; reflexivity.
Qed.

Lemma digits_uint d : all_chars Text.is_digit (NilEmpty.string_of_uint d) = true.
Proof. induction d; cbn [NilEmpty.string_of_uint all_chars]; trivial. Qed.

(** The digits of a natural number: a text of digits that reads as the
    number. *)
Lemma digits_value z :
  0 <= z ->
  Text.digits z <> "" /\ all_chars Text.is_digit (Text.digits z) = true
  /\ decimal_value (Text.digits z) = z.
Proof.
  intros Hz. unfold Text.digits, decimal_value. destruct z as [|p|p]; [| |lia].
  - repeat split. discriminate.
  - cbn [Z.to_int NilZero.string_of_int].
    pose proof (Unsigned.to_uint_nonnil p) as N.
    assert (E : NilZero.string_of_uint (Pos.to_uint p) =
                NilEmpty.string_of_uint (Pos.to_uint p)).
    { unfold NilZero.string_of_uint. destruct (Pos.to_uint p); congruence. }
    rewrite E. split; [|split].
    + destruct (Pos.to_uint p); try discriminate; congruence.
    + apply digits_uint.
    + rewrite decimal_from_uint, Unsigned.of_to. reflexivity.
Qed.

Lemma digit_is_plain c :
  Text.is_digit c = true ->
  Text.is_space c = false /\ Text.is_alpha c = false
  /\ Text.is_alpha (Text.lower_char c) = false
  /\ c <> "-"%char /\ c <> "+"%char /\ c <> "x"%char /\ c <> "X"%char.
Proof.
  destruct c as [[] [] [] [] [] [] [] []]; intros H; try discriminate H;
    repeat split; try reflexivity; discriminate.
Qed.

Lemma parseInt_digits s :
  s <> "" -> all_chars Text.is_digit s = true ->
  parseInt s = of_integer (decimal_value s).
Proof.
  intros Hn Hs. unfold parseInt.
  destruct s as [|c s]; [congruence|]. clear Hn.
  pose proof Hs as Hs'. cbn [all_chars] in Hs'. apply andb_true_iff in Hs'.
  destruct Hs' as (Hc & Hr).
  destruct (digit_is_plain c Hc) as (Sp & _ & _ & Nm & Np & _).
  cbn [Text.trimStart]. rewrite Sp.
  assert (E1 : (match String c s with
                | String "-" r => (true, r)
                | String "+" r => (false, r)
                | _ => (false, String c s)
                end) = (false, String c s)).
  { clear - Nm Np.
    destruct c as [[] [] [] [] [] [] [] []]; try reflexivity; congruence. }
  rewrite E1.
  assert (E2 : (match String c s with
                | String "0" (String "x" r) => (16, r)
                | String "0" (String "X" r) => (16, r)
                | _ => (10, String c s)
                end) = (10, String c s)).
  { destruct s as [|c2 s].
    - clear. destruct c as [[] [] [] [] [] [] [] []]; reflexivity.
    - cbn [all_chars] in Hr. apply andb_true_iff in Hr. destruct Hr as (Hc2 & _).
      destruct (digit_is_plain c2 Hc2) as (_ & _ & _ & _ & _ & Nx & NX).
      clear - Nx NX.
      destruct (ascii_dec c "0") as [->|N0].
      + destruct c2 as [[] [] [] [] [] [] [] []]; try reflexivity; congruence.
      + destruct c as [[] [] [] [] [] [] [] []]; try reflexivity; congruence. }
  rewrite E2.
  rewrite <- (app_empty_r (String c s)) at 1.
  rewrite (read_digits_all (String c s) "" 0 0 Hs (or_introl eq_refl)).
  reflexivity.
Qed.

(** The digits of a whole number from 0 to 2^53 read back as the number. *)
Lemma parseInt_of_digits n :
  0 <= n <= 2 ^ 53 -> parseInt (Text.digits n) = Int n.
Proof.
  intros Hn. destruct (digits_value n) as (N & D & V); [lia|].
  rewrite (parseInt_digits _ N D), V. unfold of_integer, safe.
  assert (L : (Z.abs n <=? 2 ^ 53) = true) by (apply Z.leb_le; lia).
  now rewrite L.
Qed.

(** ** Patterns on a text of digits *)

Lemma all_chars_impl (p q : ascii -> bool) s :
  (forall c, p c = true -> q c = true) -> all_chars p s = true -> all_chars q s = true.
Proof.
  intros H. induction s as [|c s IH]; cbn [all_chars]; trivial. intros Hs.
  apply andb_true_iff in Hs. destruct Hs as (Hc & Hs). rewrite (H c Hc). now rewrite IH.
Qed.

(** A pattern that starts with a character no character of the text
    matches is found nowhere in it. *)
Lemma search_no_head q X Y : forall s st,
  all_chars (fun a => negb (q a)) s = true ->
  search (Seq (Seq (Cls q) X) Y) st s = None.
Proof.
  induction s as [|c s IH]; intros st Hs; cbn [search run]; trivial.
  cbn [all_chars] in Hs. apply andb_true_iff in Hs. destruct Hs as (Hc & Hs).
  apply negb_true_iff in Hc. rewrite Hc. now apply IH.
Qed.

Lemma no_letter_in_digits (l : ascii) s :
  Text.is_alpha (Text.lower_char l) = true ->
  all_chars Text.is_digit s = true ->
  all_chars (fun a => negb (Ascii.eqb (Text.lower_char a) (Text.lower_char l))) s = true.
Proof.
  intros Hl. apply all_chars_impl. intros c Hc. apply negb_true_iff, Ascii.eqb_neq.
  intros E. destruct (digit_is_plain c Hc) as (_ & _ & A & _). congruence.
Qed.

Lemma substring_whole s : substring 0 (String.length s) s = s.
Proof. induction s; simpl; congruence. Qed.

Lemma star_class_end (p : ascii -> bool) step k c :
  (forall st s caps (k' : bool -> string -> captures -> option captures),
     step st s caps k' =
     match s with
     | String a s' => if p a then k' false s' caps else None
     | EmptyString => None
     end) ->
  forall s fuel st caps,
  all_chars p s = true ->
  (forall st', k st' "" caps = Some c) ->
  (String.length s <= fuel)%nat ->
  star_loop step k fuel st s caps = Some c.
Proof.
  intros Hstep s fuel st caps Hs Hk Hf.
  rewrite <- (app_empty_r s). apply (star_class p); auto.
Qed.

(** A text of digits is a number alone. *)
Lemma number_only_accepts s :
  s <> "" -> all_chars Text.is_digit s = true ->
  exec Enhanced.re_number_only s = Some [(0%nat, s); (1%nat, s)]
  /\ test Plain.re_slot s = true /\ test Plain.re_bedrooms s = true.
Proof.
  intros Hn Hs. destruct s as [|a s]; [congruence|].
  cbn [all_chars] in Hs. apply andb_true_iff in Hs. destruct Hs as (Ha & Hs).
  destruct (digit_is_plain a Ha) as (Sp & _).
  assert (L : (String.length s <= String.length s)%nat) by lia.
  unfold test, exec, Enhanced.re_number_only, Plain.re_slot, Plain.re_bedrooms.
  cbn [search seqs plus run digit space]. rewrite Ha.
  repeat split.
  - erewrite (star_class_end Text.is_digit); [ | reflexivity | exact Hs | | exact L ].
    + reflexivity.
    + intros st'. unfold consumed. change (String.length "") with 0%nat.
      rewrite Nat.sub_0_r, substring_whole. reflexivity.
  - erewrite (star_class_end Text.is_digit); [ | reflexivity | exact Hs | | exact L ];
      reflexivity.
  - cbn [String.length star_loop]. rewrite Sp, Ha.
    erewrite (star_class_end Text.is_digit); [ | reflexivity | exact Hs | | exact L ];
      reflexivity.
Qed.

Lemma choice_bare s :
  s <> "" -> all_chars Text.is_digit s = true ->
  Enhanced.choice_in Enhanced.re_property_n s = Some (parseInt s)
  /\ Enhanced.choice_in Enhanced.re_slot_n s = Some (parseInt s).
Proof.
  intros Hn Hs. destruct (number_only_accepts s Hn Hs) as (E & _).
  unfold Enhanced.choice_in, capture, test, exec in *.
  unfold Enhanced.re_property_n, Enhanced.re_slot_n. cbn [seqs lit_i]. unfold chr_i.
  rewrite !search_no_head by (apply no_letter_in_digits; trivial).
  now rewrite E.
Qed.

Lemma ltb_shorter (a : ascii) s :
  Nat.ltb (String.length s) (String.length (String a s)) = true.
Proof. apply Nat.ltb_lt. simpl. lia. Qed.

Ltac through_digits Hs L Pf :=
  erewrite (star_class_end Text.is_digit);
  [ | reflexivity | exact Hs | | exact L ];
  [ | intros st'; rewrite ?Pf; reflexivity ].

(** The number after a keyword and a space. *)
Lemma keyword_number d :
  d <> "" -> all_chars Text.is_digit d = true ->
  capture 1 Enhanced.re_property_n ("property " ++ d) = Some d
  /\ capture 1 Enhanced.re_slot_n ("slot " ++ d) = Some d
  /\ test Plain.re_property ("property " ++ d) = true
  /\ capture 0 Plain.re_digits ("property " ++ d) = Some d.
Proof.
  intros Hn Hs. destruct d as [|a d]; [congruence|].
  cbn [all_chars] in Hs. apply andb_true_iff in Hs. destruct Hs as (Ha & Hs).
  destruct (digit_is_plain a Ha) as (Sp & _).
  assert (L : (String.length d <= String.length d)%nat) by lia.
  unfold capture, test, exec, Enhanced.re_property_n, Enhanced.re_slot_n,
    Plain.re_property, Plain.re_digits.
  assert (Lt : forall n, Nat.ltb n (S n) = true) by (intros n; apply Nat.ltb_lt; lia).
  assert (Pf : consumed (String a d) "" = String a d).
  { unfold consumed. change (String.length "") with 0%nat.
    now rewrite Nat.sub_0_r, substring_whole. }
  repeat split.
  - cbn [append search seqs lit_i chr_i plus run digit space String.length star_loop
         Text.lower_char Text.is_upper Text.between Text.code N_of_ascii N_of_digits
         Ascii.eqb Bool.eqb andb N.leb N.compare Pos.compare Pos.compare_cont
         N.add N.mul Pos.add Pos.mul Pos.succ].
    change (Text.is_space " ") with true. cbv iota. rewrite !Lt, Sp, Ha.
    through_digits Hs L Pf. cbn [group Nat.eqb]. reflexivity.
  - cbn [append search seqs lit_i chr_i plus run digit space String.length star_loop
         Text.lower_char Text.is_upper Text.between Text.code N_of_ascii N_of_digits
         Ascii.eqb Bool.eqb andb N.leb N.compare Pos.compare Pos.compare_cont
         N.add N.mul Pos.add Pos.mul Pos.succ].
    change (Text.is_space " ") with true. cbv iota. rewrite !Lt, Sp, Ha.
    through_digits Hs L Pf. cbn [group Nat.eqb]. reflexivity.
  - cbn [append search seqs lit_i chr_i plus run digit space String.length star_loop
         Text.lower_char Text.is_upper Text.between Text.code N_of_ascii N_of_digits
         Ascii.eqb Bool.eqb andb N.leb N.compare Pos.compare Pos.compare_cont
         N.add N.mul Pos.add Pos.mul Pos.succ].
    change (Text.is_space " ") with true. cbv iota. rewrite !Lt, Sp, Ha.
    through_digits Hs L Pf. reflexivity.
  - cbn [append search seqs plus run digit].
    change (Text.is_digit "p") with false. change (Text.is_digit "r") with false.
    change (Text.is_digit "o") with false. change (Text.is_digit "e") with false.
    change (Text.is_digit "t") with false. change (Text.is_digit "y") with false.
    change (Text.is_digit " ") with false. cbv iota. rewrite Ha.
    through_digits Hs L Pf. cbn [group Nat.eqb]. reflexivity.
Qed.

Lemma plain_greeting_words msg :
  test Plain.re_greeting msg = true -> In msg ["hi"; "hello"; "hey"; "start"; "helo"].
Proof.
  unfold test, exec, Plain.re_greeting.
  destruct msg as [|c msg]; [vm_compute; discriminate|].
  cbn [seqs alts search].
  destruct (run _ true _ _ _) eqn:H.
  2:{ rewrite search_bol. discriminate. }
  intros _. cbn [run] in H. exact_word H.
Qed.

(** No greeting is written in digits, or starts with the word property or
    slot. *)
Lemma number_is_no_greeting msg :
  (all_chars Text.is_digit msg = true
   \/ (exists d, msg = "property " ++ d) \/ (exists d, msg = "slot " ++ d)) ->
  test Enhanced.re_greeting msg = false /\ test Plain.re_greeting msg = false.
Proof.
  intros H. split.
  - destruct (test Enhanced.re_greeting msg) eqn:E; trivial.
    apply greeting_words in E. simpl in E.
    repeat destruct E as [<-|E]; try contradiction;
      destruct H as [H|[(d & H)|(d & H)]]; discriminate.
  - destruct (test Plain.re_greeting msg) eqn:E; trivial.
    apply plain_greeting_words in E. simpl in E.
    repeat destruct E as [<-|E]; try contradiction;
      destruct H as [H|[(d & H)|(d & H)]]; discriminate.
Qed.

Lemma keyword_is_no_answer input msg :
  ((exists d, msg = "property " ++ d) \/ (exists d, msg = "slot " ++ d)) ->
  followup_answer input msg = false.
Proof.
  intros H. apply not_followup.
  - destruct (String.eqb msg "1") eqn:E; trivial. apply String.eqb_eq in E. subst.
    destruct H as [(d & H)|(d & H)]; discriminate.
  - destruct (String.eqb msg "2") eqn:E; trivial. apply String.eqb_eq in E. subst.
    destruct H as [(d & H)|(d & H)]; discriminate.
Qed.

(** The plain patterns of a property and of a slot on the other form. *)
Lemma plain_wants_the_form d :
  d <> "" -> all_chars Text.is_digit d = true ->
  test Plain.re_property d = false /\ test Plain.re_slot ("slot " ++ d) = false.
Proof.
  intros Hn Hs. destruct d as [|a d]; [congruence|].
  cbn [all_chars] in Hs. apply andb_true_iff in Hs. destruct Hs as (Ha & Hs).
  destruct (digit_is_plain a Ha) as (_ & _ & Al & _).
  unfold test, exec, Plain.re_property, Plain.re_slot. split.
  - cbn [search seqs lit_i run]. unfold chr_i at 1. cbn [run].
    assert (E : Ascii.eqb (Text.lower_char a) (Text.lower_char "p") = false).
    { apply Ascii.eqb_neq. intros E. rewrite E in Al. discriminate. }
    rewrite E. now rewrite search_bol.
  - cbn [append search seqs plus run digit]. change (Text.is_digit "s") with false.
    cbv iota. now rewrite search_bol.
Qed.

(** X4. The number typed is the number chosen. For an existing lead and
    every whole number [n] from 1 to 2^53, written in decimal: at stage
    [completed] the enhanced router reads the message "property n", and the
    message "n" unless the follow-up handler takes it (the follow-up flag
    is set and [n] is 1 or 2), as property [n]; the plain router reads
    "property n" so and refuses the bare number; at stage
    [awaiting_time_slot] the plain router reads "n" as slot [n], and so
    does the enhanced one unless the follow-up handler takes it; the
    enhanced one also reads "slot n", which the plain one refuses. *)
Theorem typed_number_is_chosen input m n :
  Enhanced.leadExists (lead_id input) = true ->
  message input = JStr m ->
  1 <= n <= 2 ^ 53 ->
  (lead_stage input = JStr "completed" ->
   (heard m = Text.digits n -> followup_answer input (heard m) = false ->
    prop "action" (Enhanced.handleMessage (Fields input)) = VStr "booking"
    /\ prop "propertyNumber" (Enhanced.handleMessage (Fields input)) = VNum (Int n)
    /\ prop "updateFields" (Enhanced.handleMessage (Fields input)) =
       VObject [("Conversation Stage", VStr "awaiting_time_slot");
                ("Selected Property Number", VNum (Int n))])
   /\ (heard m = Text.digits n ->
       prop "action" (Plain.handleMessage (Fields input)) = VStr "invalid"
       /\ prop "updateFields" (Plain.handleMessage (Fields input)) = VObject [])
   /\ (heard m = "property " ++ Text.digits n ->
       (prop "action" (Enhanced.handleMessage (Fields input)) = VStr "booking"
        /\ prop "propertyNumber" (Enhanced.handleMessage (Fields input)) = VNum (Int n)
        /\ prop "updateFields" (Enhanced.handleMessage (Fields input)) =
           VObject [("Conversation Stage", VStr "awaiting_time_slot");
                    ("Selected Property Number", VNum (Int n))])
       /\ (prop "action" (Plain.handleMessage (Fields input)) = VStr "booking"
           /\ prop "propertyNumber" (Plain.handleMessage (Fields input)) = VNum (Int n)
           /\ prop "updateFields" (Plain.handleMessage (Fields input)) =
              VObject [("Conversation Stage", VStr "awaiting_time_slot");
                       ("Selected Property Number", VNum (Int n))])))
  /\ (lead_stage input = JStr "awaiting_time_slot" ->
      (heard m = Text.digits n -> followup_answer input (heard m) = false ->
       prop "action" (Enhanced.handleMessage (Fields input)) = VStr "create_booking"
       /\ prop "bookingRequest" (Enhanced.handleMessage (Fields input)) = VBool true
       /\ prop "selectedTime" (Enhanced.handleMessage (Fields input)) = VNum (Int n)
       /\ prop "updateFields" (Enhanced.handleMessage (Fields input)) =
          VObject [("Conversation Stage", VStr "booking_confirmed");
                   ("Selected Time Slot", VNum (Int n))])
      /\ (heard m = Text.digits n ->
          prop "action" (Plain.handleMessage (Fields input)) = VStr "create_booking"
          /\ prop "bookingRequest" (Plain.handleMessage (Fields input)) = VBool true
          /\ prop "selectedTime" (Plain.handleMessage (Fields input)) = VNum (Int n)
          /\ prop "updateFields" (Plain.handleMessage (Fields input)) =
             VObject [("Conversation Stage", VStr "booking_confirmed");
                      ("Selected Time Slot", VNum (Int n))])
      /\ (heard m = "slot " ++ Text.digits n ->
          (prop "action" (Enhanced.handleMessage (Fields input)) = VStr "create_booking"
           /\ prop "bookingRequest" (Enhanced.handleMessage (Fields input)) = VBool true
           /\ prop "selectedTime" (Enhanced.handleMessage (Fields input)) = VNum (Int n)
           /\ prop "updateFields" (Enhanced.handleMessage (Fields input)) =
              VObject [("Conversation Stage", VStr "booking_confirmed");
                       ("Selected Time Slot", VNum (Int n))])
          /\ (prop "action" (Plain.handleMessage (Fields input)) = VStr "invalid"
              /\ prop "updateFields" (Plain.handleMessage (Fields input)) = VObject []))).
Proof.
  intros Hl Hm Hn.
  destruct (digits_value n) as (N & D & _); [lia|].
  assert (P : parseInt (Text.digits n) = Int n) by (apply parseInt_of_digits; lia).
  assert (T : truthy_number (Int n) = true).
  { cbn [truthy_number]. apply negb_true_iff, Z.eqb_neq. lia. }
  destruct (choice_bare _ N D) as (Cp & Cs).
  destruct (keyword_number _ N D) as (Kp & Ks & Pp & Pd).
  destruct (number_only_accepts _ N D) as (_ & Ps & _).
  destruct (plain_wants_the_form _ N D) as (Wp & Ws).
  assert (Kp' : Enhanced.choice_in Enhanced.re_property_n ("property " ++ Text.digits n)
                = Some (Int n)).
  { unfold Enhanced.choice_in. now rewrite Kp, P. }
  assert (Ks' : Enhanced.choice_in Enhanced.re_slot_n ("slot " ++ Text.digits n)
                = Some (Int n)).
  { unfold Enhanced.choice_in. now rewrite Ks, P. }
  rewrite P in Cp, Cs.
  split; intros Hs; (split; [|split]).
  - intros Hh Hf. destruct (number_is_no_greeting (heard m)) as (G & _);
      [left; now rewrite Hh|].
    unfold Enhanced.handleMessage. rewrite (enhanced_reach input m Hm Hl Hf G).
    at_stage Hs. rewrite Hh, Cp. cbn [Enhanced.chosen]. rewrite T. props. auto.
  - intros Hh. destruct (number_is_no_greeting (heard m)) as (_ & G);
      [left; now rewrite Hh|].
    unfold Plain.handleMessage. rewrite (plain_reach input m Hm Hl G).
    at_stage Hs. rewrite Hh, Wp. rewrite ?andb_false_r. props. auto.
  - intros Hh. destruct (number_is_no_greeting (heard m)) as (G & G');
      [right; left; eauto|].
    assert (Hf : followup_answer input (heard m) = false)
      by (apply keyword_is_no_answer; left; eauto).
    split.
    + unfold Enhanced.handleMessage. rewrite (enhanced_reach input m Hm Hl Hf G).
      at_stage Hs. rewrite Hh, Kp'. cbn [Enhanced.chosen]. rewrite T. props. auto.
    + unfold Plain.handleMessage. rewrite (plain_reach input m Hm Hl G').
      at_stage Hs. rewrite Hh, Pp. unfold Plain.first_number. rewrite Pd, P.
      props. auto.
  - intros Hh Hf. destruct (number_is_no_greeting (heard m)) as (G & _);
      [left; now rewrite Hh|].
    unfold Enhanced.handleMessage. rewrite (enhanced_reach input m Hm Hl Hf G).
    at_stage Hs. rewrite Hh, Cs. cbn [Enhanced.chosen]. rewrite T. props. auto.
  - intros Hh. destruct (number_is_no_greeting (heard m)) as (_ & G);
      [left; now rewrite Hh|].
    unfold Plain.handleMessage. rewrite (plain_reach input m Hm Hl G).
    at_stage Hs. rewrite Hh, Ps, P. props. auto.
  - intros Hh. destruct (number_is_no_greeting (heard m)) as (G & G');
      [right; right; eauto|].
    assert (Hf : followup_answer input (heard m) = false)
      by (apply keyword_is_no_answer; right; eauto).
    split.
    + unfold Enhanced.handleMessage. rewrite (enhanced_reach input m Hm Hl Hf G).
      at_stage Hs. rewrite Hh, Ks'. cbn [Enhanced.chosen]. rewrite T. props. auto.
    + unfold Plain.handleMessage. rewrite (plain_reach input m Hm Hl G').
      at_stage Hs. rewrite Hh, Ws. rewrite ?andb_false_r. props.
      assert (C : String.eqb ("slot " ++ Text.digits n) "cancel" = false).
      { apply String.eqb_neq. discriminate. }
      rewrite ?C. cbn [andb]. props. auto.
Qed.

Lemma typed_number_is_chosen_witness :
  prop "propertyNumber"
    (Enhanced.handleMessage (Fields (lead_at "completed" "Property 12" false))) =
  VNum (Int 12).
Proof.
  assert (R : 1 <= 12 <= 2 ^ 53) by (split; discriminate).
  apply (proj2 (proj2 (proj1 (typed_number_is_chosen
                                (lead_at "completed" "Property 12" false) "Property 12" 12
                                eq_refl eq_refl R) eq_refl)) eq_refl).
Defined.

(** ** The menu of property types *)

Lemma digits_inj a b : 0 <= a -> 0 <= b -> Text.digits a = Text.digits b -> a = b.
Proof.
  intros Ha Hb E. destruct (digits_value a Ha) as (_ & _ & <-).
  destruct (digits_value b Hb) as (_ & _ & <-). now rewrite E.
Qed.

Lemma digits_not_proto z : 0 <= z -> Text.digits z <> "__proto__".
Proof.
  intros Hz E. destruct (digits_value z Hz) as (_ & D & _). rewrite E in D. discriminate.
Qed.

Lemma set_read K k x o :
  (k = K -> has K (set k x o) = true /\ prop K (set k x o) = x)
  /\ (k <> K -> has K (set k x o) = has K o /\ prop K (set k x o) = prop K o).
Proof.
  induction o as [|[k' v'] o IH]; cbn [set has prop].
  - split.
    + intros ->. rewrite String.eqb_refl. auto.
    + intros N. apply not_eq_sym in N. apply String.eqb_neq in N. now rewrite N.
  - destruct IH as (IH1 & IH2). destruct (String.eqb k k') eqn:E; cbn [has prop].
    + apply String.eqb_eq in E. subst k'. split.
      * intros ->. rewrite String.eqb_refl. auto.
      * intros N. apply not_eq_sym in N. apply String.eqb_neq in N. now rewrite N.
    + split.
      * intros ->. rewrite E. cbn [orb]. now apply IH1.
      * intros N. destruct (IH2 N) as (-> & ->). auto.
Qed.

Lemma store_read K k x o :
  K <> "__proto__" ->
  (k = K -> has K (Enhanced.store k x o) = true /\ prop K (Enhanced.store k x o) = VStr x)
  /\ (k <> K -> has K (Enhanced.store k x o) = has K o
                /\ prop K (Enhanced.store k x o) = prop K o).
Proof.
  intros HK. unfold Enhanced.store. destruct (String.eqb k "__proto__") eqn:E.
  - apply String.eqb_eq in E. subst k. split; [congruence|auto].
  - apply set_read.
Qed.

(** The last write under a key is what the mapping holds: when every type
    that writes under [K], by its number or by its name, is [v], and one
    does, the mapping holds [v] under [K]. *)
Lemma typeMapping_writes K v :
  K <> "__proto__" ->
  forall l start o,
  (forall j t', nth_error l j = Some t' ->
     Text.digits (start + Z.of_nat j + 1) = K \/ Text.toLowerCase t' = K -> t' = v) ->
  (has K o = true /\ prop K o = VStr v
   \/ exists i t', nth_error l i = Some t'
        /\ (Text.digits (start + Z.of_nat i + 1) = K \/ Text.toLowerCase t' = K)) ->
  let o' :=
    fold_left
      (fun o '(index, type) =>
         Enhanced.store (Text.toLowerCase type) type
           (Enhanced.store (Text.digits (index + 1)) type o))
      (Enhanced.indexed start l) o in
  has K o' = true /\ prop K o' = VStr v.
Proof.
  intros HK. induction l as [|t l IH]; intros start o Hw Hi; cbn [Enhanced.indexed fold_left].
  - destruct Hi as [Hi|(i & t' & Hi & _)]; trivial. destruct i; discriminate.
  - apply IH.
    + intros j t' Hj Hk. apply (Hw (S j) t' Hj).
      rewrite Nat2Z.inj_succ. replace (start + Z.succ (Z.of_nat j) + 1)
        with (start + 1 + Z.of_nat j + 1) by lia. exact Hk.
    + destruct (store_read K (Text.digits (start + 1)) t o HK) as (D1 & D2).
      destruct (store_read K (Text.toLowerCase t) t
                  (Enhanced.store (Text.digits (start + 1)) t o) HK) as (N1 & N2).
      assert (Ht : Text.digits (start + 1) = K \/ Text.toLowerCase t = K -> t = v).
      { intros H. apply (Hw 0%nat t eq_refl). cbn [Z.of_nat].
        now rewrite Z.add_0_r. }
      destruct (string_dec (Text.toLowerCase t) K) as [En|Nn].
      { left. rewrite <- (Ht (or_intror En)). now apply N1. }
      destruct (N2 Nn) as (-> & ->).
      destruct (string_dec (Text.digits (start + 1)) K) as [Ed|Nd].
      { left. rewrite <- (Ht (or_introl Ed)). now apply D1. }
      destruct (D2 Nd) as (-> & ->).
      destruct Hi as [Hi|(i & t' & Hi & Hk)]; [now left|right].
      destruct i as [|i].
      * cbn [nth_error] in Hi. injection Hi as <-. cbn [Z.of_nat] in Hk.
        rewrite Z.add_0_r in Hk. tauto.
      * exists i, t'. split; [exact Hi|].
        rewrite Nat2Z.inj_succ in Hk. replace (start + 1 + Z.of_nat i + 1)
          with (start + Z.succ (Z.of_nat i) + 1) by lia. exact Hk.
Qed.

Lemma typeMapping_read K v l :
  K <> "__proto__" ->
  (forall j t', nth_error l j = Some t' ->
     Text.digits (Z.of_nat j + 1) = K \/ Text.toLowerCase t' = K -> t' = v) ->
  (exists i t', nth_error l i = Some t'
     /\ (Text.digits (Z.of_nat i + 1) = K \/ Text.toLowerCase t' = K)) ->
  Enhanced.read (Enhanced.typeMapping l) K = VStr v.
Proof.
  intros HK Hw Hi. unfold Enhanced.read, Enhanced.typeMapping.
  apply String.eqb_neq in HK as HK'. rewrite HK'.
  destruct (typeMapping_writes K v HK l 0 []) as (H1 & H2); auto.
  now rewrite H1, H2.
Qed.

Lemma nth_error_indexed {A} (l : list A) : forall start i,
  nth_error (Enhanced.indexed start l) i =
  option_map (fun x => (start + Z.of_nat i, x)) (nth_error l i).
Proof.
  induction l as [|x l IH]; intros start i; destruct i; cbn [Enhanced.indexed nth_error option_map];
    trivial.
  - now rewrite Z.add_0_r.
  - rewrite IH. destruct (nth_error l i); cbn [option_map]; trivial.
    do 2 f_equal. lia.
Qed.

(** X5. The menu and the choice agree. For an existing lead at stage
    [asked_buy_or_rent], property types written in ASCII, the type [t] at
    position [i] of the tenant's list (not empty), and a message that is no
    greeting and that the follow-up handler does not take (the follow-up
    flag set and the message "1" or "2"): line [i] of the menu shows the
    number [i + 1] before [t]; the enhanced router reads the message
    "i + 1" as [t], unless another type is named by that number, and reads
    the name of [t] in lower case as [t], unless another type writes under
    the same key; the plain router reads the name and stores the message
    with a capital first letter. *)
Theorem menu_choice input m types i t :
  Enhanced.leadExists (lead_id input) = true ->
  lead_stage input = JStr "asked_buy_or_rent" ->
  message input = JStr m ->
  offered_types input = Ok types ->
  ascii_text types = true ->
  nth_error (Enhanced.typesList types) i = Some t ->
  t <> "" ->
  followup_answer input (heard m) = false ->
  test Enhanced.re_greeting (heard m) = false ->
  (exists lines,
     Enhanced.formatOptions types = Text.join Text.nl lines
     /\ nth_error lines i = Some (Text.digits (Z.of_nat i + 1) ++ "️⃣ " ++ t))
  /\ (heard m = Text.digits (Z.of_nat i + 1) ->
      (forall t', In t' (Enhanced.typesList types) ->
         Text.toLowerCase t' = heard m -> t' = t) ->
      prop "action" (Enhanced.handleMessage (Fields input)) = VStr "update"
      /\ prop "updateFields" (Enhanced.handleMessage (Fields input)) =
         VObject [("Interest", VStr t); ("Conversation Stage", VStr "asked_name")])
  /\ (heard m = Text.toLowerCase t ->
      heard m <> "__proto__" ->
      (forall j t', nth_error (Enhanced.typesList types) j = Some t' ->
         Text.digits (Z.of_nat j + 1) = heard m \/ Text.toLowerCase t' = heard m -> t' = t) ->
      (prop "action" (Enhanced.handleMessage (Fields input)) = VStr "update"
       /\ prop "updateFields" (Enhanced.handleMessage (Fields input)) =
          VObject [("Interest", VStr t); ("Conversation Stage", VStr "asked_name")])
      /\ (test Plain.re_greeting (heard m) = false ->
          prop "action" (Plain.handleMessage (Fields input)) = VStr "update"
          /\ prop "updateFields" (Plain.handleMessage (Fields input)) =
             VObject [("Interest", VStr (Text.capitalize (heard m)));
                      ("Conversation Stage", VStr "asked_name")])).
Proof.
  intros Hl Hs Hm Ht _ Hi Hn Hf Hg. unfold offered_types in Ht.
  assert (Tr : truthy (VStr t) = true).
  { cbn [truthy]. apply negb_true_iff, String.eqb_neq, Hn. }
  assert (Sel : Enhanced.read (Enhanced.typeMapping (Enhanced.typesList types)) (heard m)
                = VStr t ->
                prop "action" (Enhanced.handleMessage (Fields input)) = VStr "update"
                /\ prop "updateFields" (Enhanced.handleMessage (Fields input)) =
                   VObject [("Interest", VStr t); ("Conversation Stage", VStr "asked_name")]).
  { intros R. unfold Enhanced.handleMessage.
    rewrite (enhanced_reach input m Hm Hl Hf Hg). at_stage Hs.
    rewrite Ht. cbn [bind]. rewrite R, Tr. props. auto. }
  split; [|split].
  - unfold Enhanced.formatOptions. eexists. split; [reflexivity|].
    unfold Enhanced.typesList in Hi. rewrite nth_error_map in Hi.
    rewrite nth_error_map, nth_error_indexed.
    destruct (nth_error (Text.split "," types) i) as [x|]; [|discriminate].
    cbn [option_map] in *. injection Hi as <-. reflexivity.
  - intros Hh Hu. apply Sel. rewrite Hh in *. apply typeMapping_read.
    + apply digits_not_proto. lia.
    + intros j t' Hj [Hd|Hk].
      * apply digits_inj in Hd; try lia. assert (j = i) by lia. subst j. congruence.
      * apply Hu; trivial. eapply nth_error_In; eauto.
    + exists i, t. auto.
  - intros Hh Hp Hu. split.
    + apply Sel. apply typeMapping_read; trivial. exists i, t. auto.
    + intros Hg'. unfold Plain.handleMessage. rewrite (plain_reach input m Hm Hl Hg').
      at_stage Hs. rewrite Ht. cbn [bind].
      assert (Li : Plain.listed
                     (List.map (fun t0 => Text.toLowerCase (Text.trim t0))
                        (Text.split "," types)) (heard m) = true).
      { unfold Plain.listed. apply existsb_exists.
        unfold Enhanced.typesList in Hi. rewrite nth_error_map in Hi.
        destruct (nth_error (Text.split "," types) i) as [x|] eqn:Hx; [|discriminate].
        cbn [option_map] in Hi. injection Hi as <-.
        exists (Text.toLowerCase (Text.trim x)). split.
        - apply in_map_iff. exists x. split; trivial. eapply nth_error_In; eauto.
        - apply String.eqb_eq. exact Hh. }
      rewrite Li. props. auto.
Qed.

Lemma menu_choice_witness :
  prop "updateFields"
    (Enhanced.handleMessage (Fields (lead_at "asked_buy_or_rent" "2" false))) =
  VObject [("Interest", VStr "Rent"); ("Conversation Stage", VStr "asked_name")].
Proof.
  refine (proj2 (proj1 (proj2 (menu_choice (lead_at "asked_buy_or_rent" "2" false) "2"
                                 "Buy, Rent" 1 "Rent" eq_refl eq_refl eq_refl eq_refl eq_refl
                                 eq_refl _ eq_refl eq_refl)) eq_refl _)).
  - discriminate.
  - intros t' [<-|[<-|[]]]; [discriminate|reflexivity].
Defined.

(** ** Stages that accept nothing *)

Lemma is_string_not j s : j <> JStr s -> is_string (or_else j JNull) s = false.
Proof.
  intros N. destruct (is_string (or_else j JNull) s) eqn:E; trivial.
  apply is_string_stage in E. contradiction.
Qed.

(** X6. A lead at a stage that no branch reads stays there until it greets.
    When the stage is none of the nine routed stages (the stages
    [fetching_locations], [fetching_sizes], [booking_cancelled] and the two
    follow-up stages that the routers write are such), every message
    written in ASCII that is no greeting (and no follow-up answer) is
    answered ["invalid"], with no update and the line that asks for HI. *)
Theorem unrouted_stage_waits input m :
  Enhanced.leadExists (lead_id input) = true ->
  message input = JStr m ->
  ascii_text m = true ->
  (forall s, In s routed_stages -> lead_stage input <> JStr s) ->
  (followup_answer input (heard m) = false ->
   test Enhanced.re_greeting (heard m) = false ->
   prop "action" (Enhanced.handleMessage (Fields input)) = VStr "invalid"
   /\ prop "updateFields" (Enhanced.handleMessage (Fields input)) = VObject []
   /\ prop "replyMessage" (Enhanced.handleMessage (Fields input)) =
      VStr "Hi! Send 'HI' to start finding your perfect property! 🏡")
  /\ (test Plain.re_greeting (heard m) = false ->
      prop "action" (Plain.handleMessage (Fields input)) = VStr "invalid"
      /\ prop "updateFields" (Plain.handleMessage (Fields input)) = VObject []
      /\ prop "replyMessage" (Plain.handleMessage (Fields input)) =
         VStr "Hi! Send 'hi' to start.").
Proof.
  intros Hl Hm _ Hs.
  assert (N : forall s, In s routed_stages ->
              is_string (or_else (lead_stage input) JNull) s = false).
  { intros s Hin. apply is_string_not, Hs, Hin. }
  unfold routed_stages in N.
  split.
  - intros Hf Hg. unfold Enhanced.handleMessage.
    rewrite (enhanced_reach input m Hm Hl Hf Hg).
    unfold Enhanced.stages, Enhanced.getHelpMessage.
    rewrite !N by (simpl; tauto). props. auto.
  - intros Hg. unfold Plain.handleMessage.
    rewrite (plain_reach input m Hm Hl Hg).
    unfold Plain.stages, Plain.getHelpMessage.
    rewrite !N by (simpl; tauto). rewrite ?andb_false_r. props. auto.
Qed.

Lemma unrouted_stage_waits_witness :
  prop "action"
    (Enhanced.handleMessage (Fields (lead_at "fetching_locations" "karen" false))) =
  VStr "invalid".
Proof.
  refine (proj1 (proj1 (unrouted_stage_waits (lead_at "fetching_locations" "karen" false)
                          "karen" eq_refl eq_refl eq_refl _) eq_refl eq_refl)).
  intros s H. simpl in H.
  repeat destruct H as [<-|H]; try discriminate. contradiction.
Defined.

(** ** The name *)

Lemma all_chars_keep p s : all_chars p (Text.keep p s) = true.
Proof.
  induction s as [|c s IH]; cbn [Text.keep all_chars]; trivial.
  destruct (p c) eqn:E; cbn [all_chars]; trivial. now rewrite E.
Qed.

Lemma all_chars_rev_onto p s : forall acc,
  all_chars p s = true -> all_chars p acc = true -> all_chars p (Text.rev_onto s acc) = true.
Proof.
  induction s as [|c s IH]; intros acc Hs Ha; cbn [Text.rev_onto]; trivial.
  cbn [all_chars] in Hs. apply andb_true_iff in Hs. destruct Hs as (Hc & Hs).
  apply IH; trivial. cbn [all_chars]. now rewrite Hc.
Qed.

Lemma split_spaces_letters s : forall cur inrun,
  all_chars (fun c => Text.is_alpha c || Text.is_space c) s = true ->
  all_chars Text.is_alpha cur = true ->
  Forall (fun w => all_chars Text.is_alpha w = true) (Text.split_spaces_rec s cur inrun).
Proof.
  induction s as [|c s IH]; intros cur inrun Hs Hc; cbn [Text.split_spaces_rec].
  - destruct inrun; constructor; trivial. unfold Text.rev. now apply all_chars_rev_onto.
  - cbn [all_chars] in Hs. apply andb_true_iff in Hs. destruct Hs as (Hp & Hs).
    destruct (Text.is_space c) eqn:Sp.
    + destruct inrun; [now apply IH|]. constructor.
      * unfold Text.rev. now apply all_chars_rev_onto.
      * now apply IH.
    + rewrite orb_false_r in Hp. apply IH; trivial. cbn [all_chars]. now rewrite Hp.
Qed.

Lemma letter_cases c :
  Text.is_alpha c = true ->
  Text.is_upper (Text.upper_char c) = true /\ Text.is_lower (Text.lower_char c) = true.
Proof.
  destruct c as [[] [] [] [] [] [] [] []]; intros H; try discriminate H; split; reflexivity.
Qed.

Lemma proper_capitalize w :
  all_chars Text.is_alpha w = true -> proper_word (Text.capitalize_lower w) = true.
Proof.
  destruct w as [|c w]; trivial. cbn [all_chars Text.capitalize_lower proper_word].
  intros H. apply andb_true_iff in H. destruct H as (Hc & Hw).
  destruct (letter_cases c Hc) as (-> & _). cbn [andb].
  unfold Text.toLowerCase. induction w as [|a w IH]; trivial.
  cbn [all_chars] in Hw. apply andb_true_iff in Hw. destruct Hw as (Ha & Hw).
  cbn [Text.map all_chars]. destruct (letter_cases a Ha) as (_ & ->). now apply IH.
Qed.

(** The name the enhanced router stores: words of letters, a capital first
    and lower case after it, joined by single spaces. *)
Lemma clean_name_words name :
  exists words,
    Enhanced.clean_name name = Text.join " " words
    /\ Forall (fun w => proper_word w = true) words.
Proof.
  unfold Enhanced.clean_name. eexists. split; [reflexivity|].
  apply Forall_map. unfold Text.split_spaces.
  eapply Forall_impl; [|apply split_spaces_letters; [apply all_chars_keep|reflexivity]].
  intros w. apply proper_capitalize.
Qed.

(** X7. The name the enhanced router stores. At stage [asked_name] a
    message written in ASCII that is no greeting and that the follow-up
    handler does not take is answered ["invalid"] with no update, or the
    lead moves to [asked_budget] with a Name made of words joined by single
    spaces, each word a capital letter followed by lower-case letters, or
    empty: no digit and no punctuation is stored. *)
Theorem stored_name_is_proper input m :
  Enhanced.leadExists (lead_id input) = true ->
  lead_stage input = JStr "asked_name" ->
  message input = JStr m ->
  ascii_text m = true ->
  followup_answer input (heard m) = false ->
  test Enhanced.re_greeting (heard m) = false ->
  (prop "action" (Enhanced.handleMessage (Fields input)) = VStr "invalid"
   /\ prop "updateFields" (Enhanced.handleMessage (Fields input)) = VObject [])
  \/ (exists words,
        prop "action" (Enhanced.handleMessage (Fields input)) = VStr "update"
        /\ prop "updateFields" (Enhanced.handleMessage (Fields input)) =
           VObject [("Name", VStr (Text.join " " words));
                    ("Conversation Stage", VStr "asked_budget")]
        /\ Forall (fun w => proper_word w = true) words).
Proof.
  intros Hl Hs Hm _ Hf Hg. unfold Enhanced.handleMessage.
  rewrite (enhanced_reach input m Hm Hl Hf Hg). at_stage Hs.
  destruct (Enhanced.name_ok _); cbn [negb]; props; [right|left; auto].
  destruct (clean_name_words (Enhanced.name_in (heard m))) as (words & -> & W).
  exists words. auto.
Qed.

Lemma stored_name_is_proper_witness :
  (prop "action" (Enhanced.handleMessage (Fields (lead_at "asked_name" "i'm j0hn o'NEIL" false)))
   = VStr "invalid"
   /\ prop "updateFields"
        (Enhanced.handleMessage (Fields (lead_at "asked_name" "i'm j0hn o'NEIL" false))) =
      VObject [])
  \/ (exists words,
        prop "action"
          (Enhanced.handleMessage (Fields (lead_at "asked_name" "i'm j0hn o'NEIL" false))) =
        VStr "update"
        /\ prop "updateFields"
             (Enhanced.handleMessage (Fields (lead_at "asked_name" "i'm j0hn o'NEIL" false))) =
           VObject [("Name", VStr (Text.join " " words));
                    ("Conversation Stage", VStr "asked_budget")]
        /\ Forall (fun w => proper_word w = true) words).
Proof.
  apply (stored_name_is_proper (lead_at "asked_name" "i'm j0hn o'NEIL" false)
           "i'm j0hn o'NEIL"); reflexivity.
Defined.

(** ** Bedroom counts *)

Lemma rev_onto_twice s : forall a b,
  Text.rev_onto (Text.rev_onto s a) b = Text.rev_onto a (s ++ b).
Proof.
  induction s as [|c s IH]; intros a b; cbn [Text.rev_onto append]; trivial.
Qed.

Lemma rev_rev s : Text.rev (Text.rev s) = s.
Proof. unfold Text.rev. rewrite rev_onto_twice. cbn [Text.rev_onto]. apply app_empty_r. Qed.

Lemma trimStart_plain s :
  all_chars (fun c => negb (Text.is_space c)) s = true -> Text.trimStart s = s.
Proof.
  destruct s as [|c s]; trivial. cbn [all_chars Text.trimStart]. intros H.
  apply andb_true_iff in H. destruct H as (H & _). apply negb_true_iff in H. now rewrite H.
Qed.

(** A text without white space is its own trimmed text. *)
Lemma trim_plain s :
  all_chars (fun c => negb (Text.is_space c)) s = true -> Text.trim s = s.
Proof.
  intros H. unfold Text.trim, Text.trimEnd. rewrite (trimStart_plain s H).
  rewrite trimStart_plain; [apply rev_rev|].
  unfold Text.rev. now apply all_chars_rev_onto.
Qed.

Lemma trim_digits s : all_chars Text.is_digit s = true -> Text.trim s = s.
Proof.
  intros H. apply trim_plain. revert H. apply all_chars_impl. intros c Hc.
  destruct (digit_is_plain c Hc) as (-> & _). reflexivity.
Qed.

Lemma small_count n : 1 <= n <= 20 -> In n [1;2;3;4;5;6;7;8;9;10;11;12;13;14;15;16;17;18;19;20].
Proof. intros H. simpl. lia. Qed.

Lemma count_forms n :
  1 <= n <= 20 ->
  Enhanced.bedrooms_in (Text.digits n) = Int n
  /\ Enhanced.bedrooms_in (Text.digits n ++ " bed") = Int n
  /\ Enhanced.bedrooms_in (Text.digits n ++ " bedrooms") = Int n
  /\ Enhanced.bedrooms_in ("i want " ++ Text.digits n) = Int n
  /\ Enhanced.bedrooms_in ("i need " ++ Text.digits n ++ " bedrooms") = Int n.
Proof.
  intros H. apply small_count in H. simpl in H.
  repeat destruct H as [<-|H]; try contradiction; vm_compute; auto.
Qed.

(** X8. Every count the range allows is read. For an existing lead at stage
    [asked_size] and every [n] from 1 to 20, the enhanced router reads "n",
    "n bed", "n bedrooms", "i want n" and "i need n bedrooms" as [n]
    bedrooms: Size "n bedroom", stage [completed], the search flag; unless
    the follow-up handler takes the message (the follow-up flag is set and
    the message is "1" or "2"). The plain router reads the bare number
    only, and any number from 0 to 2^53. *)
Theorem every_count_is_read input m n :
  Enhanced.leadExists (lead_id input) = true ->
  lead_stage input = JStr "asked_size" ->
  message input = JStr m ->
  (1 <= n <= 20 ->
   In (heard m) [Text.digits n; Text.digits n ++ " bed"; Text.digits n ++ " bedrooms";
                 "i want " ++ Text.digits n; "i need " ++ Text.digits n ++ " bedrooms"] ->
   followup_answer input (heard m) = false ->
   prop "action" (Enhanced.handleMessage (Fields input)) = VStr "update"
   /\ prop "updateFields" (Enhanced.handleMessage (Fields input)) =
      VObject [("Size", VStr (Text.digits n ++ " bedroom"));
               ("Conversation Stage", VStr "completed"); ("Status", VStr "Contacted")]
   /\ prop "bedrooms" (Enhanced.handleMessage (Fields input)) = VNum (Int n)
   /\ prop "requestedBedrooms" (Enhanced.handleMessage (Fields input)) = VNum (Int n)
   /\ prop "searchProperties" (Enhanced.handleMessage (Fields input)) = VBool true)
  /\ (0 <= n <= 2 ^ 53 ->
      heard m = Text.digits n ->
      prop "action" (Plain.handleMessage (Fields input)) = VStr "update"
      /\ prop "updateFields" (Plain.handleMessage (Fields input)) =
         VObject [("Size", VStr (Text.digits n ++ " bedroom"));
                  ("Conversation Stage", VStr "completed"); ("Status", VStr "Contacted")]
      /\ prop "bedrooms" (Plain.handleMessage (Fields input)) = VNum (Int n)
      /\ prop "requestedBedrooms" (Plain.handleMessage (Fields input)) = VNum (Int n)
      /\ prop "searchProperties" (Plain.handleMessage (Fields input)) = VBool true).
Proof.
  intros Hl Hs Hm. split.
  - intros Hn Hin Hf.
    assert (B : Enhanced.bedrooms_in (heard m) = Int n).
    { destruct (count_forms n Hn) as (B1 & B2 & B3 & B4 & B5). simpl in Hin.
      repeat destruct Hin as [<-|Hin]; try contradiction; assumption. }
    assert (G : test Enhanced.re_greeting (heard m) = false).
    { destruct (test Enhanced.re_greeting (heard m)) eqn:E; trivial.
      apply greeting_is_no_number in E. destruct E as (E & _). congruence. }
    unfold Enhanced.handleMessage. rewrite (enhanced_reach input m Hm Hl Hf G).
    at_stage Hs. rewrite B.
    assert (Ok' : Enhanced.bedrooms_ok (Int n) = true).
    { unfold Enhanced.bedrooms_ok. cbn [isNaN lt gt orb].
      apply negb_true_iff, orb_false_iff. split; apply Z.ltb_ge; lia. }
    rewrite Ok'. props. auto.
  - intros Hn Hh. destruct (digits_value n) as (N & D & _); [lia|].
    destruct (number_only_accepts _ N D) as (_ & _ & Pb).
    destruct (number_is_no_greeting (heard m)) as (_ & G); [left; now rewrite Hh|].
    assert (T : Text.trim (Text.digits n) = Text.digits n).
    { now apply trim_digits. }
    unfold Plain.handleMessage. rewrite (plain_reach input m Hm Hl G).
    at_stage Hs. rewrite Hh, Pb, T, (parseInt_of_digits n Hn). props. auto.
Qed.

Lemma every_count_is_read_witness :
  prop "bedrooms" (Enhanced.handleMessage (Fields (lead_at "asked_size" "I need 4 bedrooms" false)))
  = VNum (Int 4).
Proof.
  assert (R : 1 <= 4 <= 20) by lia.
  refine (proj1 (proj2 (proj2 (proj1 (every_count_is_read
            (lead_at "asked_size" "I need 4 bedrooms" false) "I need 4 bedrooms" 4
            eq_refl eq_refl eq_refl) R _ eq_refl)))).
  simpl. tauto.
Defined.

(** ** An invalid answer *)

(** X9. An invalid answer asks for nothing. Whenever a router answers
    ["invalid"], the lead exists, no field is updated and none of the
    create, search and booking flags is set. *)
Theorem invalid_asks_nothing input :
  (prop "action" (Enhanced.handleMessage (Fields input)) = VStr "invalid" ->
   prop "updateFields" (Enhanced.handleMessage (Fields input)) = VObject []
   /\ prop "createLead" (Enhanced.handleMessage (Fields input)) = VBool false
   /\ prop "searchProperties" (Enhanced.handleMessage (Fields input)) = VBool false
   /\ prop "bookingRequest" (Enhanced.handleMessage (Fields input)) = VBool false
   /\ Enhanced.leadExists (lead_id input) = true)
  /\ (prop "action" (Plain.handleMessage (Fields input)) = VStr "invalid" ->
      prop "updateFields" (Plain.handleMessage (Fields input)) = VObject []
      /\ prop "createLead" (Plain.handleMessage (Fields input)) = VBool false
      /\ prop "searchProperties" (Plain.handleMessage (Fields input)) = VBool false
      /\ prop "bookingRequest" (Plain.handleMessage (Fields input)) = VBool false
      /\ Enhanced.leadExists (lead_id input) = true).
Proof.
  split.
  - paths_of (Enhanced.handleMessage (Fields input)); intros A; try discriminate;
      stage_known; repeat split; trivial.
  - paths_of (Plain.handleMessage (Fields input)); intros A; try discriminate;
      stage_known; repeat split; trivial.
Qed.

Lemma invalid_asks_nothing_witness :
  prop "updateFields" (Plain.handleMessage (Fields (lead_at "asked_budget" "plenty" false))) =
  VObject [].
Proof.
  apply (proj2 (invalid_asks_nothing (lead_at "asked_budget" "plenty" false)) eq_refl).
Defined.


(** * Further properties of the slot calculation *)

Import Slots.

Lemma firstn_after {A} (fs : list A) x rest :
  (List.length fs < 5)%nat ->
  ((fs ++ [x]) ++ firstn (5 - List.length (fs ++ [x])) rest =
   fs ++ firstn (5 - List.length fs) (x :: rest))%list.
Proof.
  intros H. rewrite length_app. cbn [List.length].
  replace (5 - List.length fs)%nat with (S (5 - (List.length fs + 1))) by lia.
  cbn [firstn]. now rewrite <- app_assoc.
Qed.

Lemma firstn_full {A} (fs rest : list A) :
  (5 <= List.length fs)%nat -> fs = (fs ++ firstn (5 - List.length fs) rest)%list.
Proof.
  intros H. replace (5 - List.length fs)%nat with 0%nat by lia.
  cbn [firstn]. now rewrite app_nil_r.
Qed.

Lemma firstn_more {A} (fs a b : list A) :
  ((fs ++ firstn (5 - List.length fs) a)
   ++ firstn (5 - List.length (fs ++ firstn (5 - List.length fs) a)) b =
   fs ++ firstn (5 - List.length fs) (a ++ b))%list.
Proof.
  rewrite <- app_assoc. f_equal. rewrite length_app, firstn_app.
  f_equal. f_equal. rewrite length_firstn. lia.
Qed.

(** The loop over the hours adds the free hours it meets, up to five slots
    in all. *)
Lemma hours_first n : forall h day mn bk fs,
  hours n h day mn bk fs =
  (fs ++ firstn (5 - List.length fs)
           (List.map (slot_at day) (filter (free_at day mn bk) (count_from n h))))%list.
Proof.
  induction n as [|n IH]; intros h day mn bk fs; cbn [hours count_from filter List.map].
  - cbn [firstn]. destruct (5 - List.length fs)%nat; cbn [firstn]; now rewrite app_nil_r.
  - destruct (Z.of_nat (List.length fs) <? 5) eqn:E.
    + apply Z.ltb_lt in E. cbv zeta. unfold free_at at 1.
      destruct (day + h * hour_ms <=? mn); cbn [negb andb]; [apply IH|].
      destruct (overlaps bk _ _); cbn [negb]; [apply IH|].
      rewrite IH. cbn [List.map]. apply firstn_after. lia.
    + apply Z.ltb_ge in E. apply firstn_full. lia.
Qed.

Lemma days_first n : forall i tz now r fs,
  days n i tz now r fs =
  (fs ++ firstn (5 - List.length fs)
          (flat_map
             (fun i =>
                let d := local_day tz now + i in
                if weekend d then []
                else
                  List.map (slot_at (midnight tz d))
                    (filter (free_at (midnight tz d) (now + 60 * 60 * 1000) (booked r))
                       (count_from (Z.to_nat (workEnd r - workStart r)) (workStart r))))
             (count_from n i)))%list.
Proof.
  induction n as [|n IH]; intros i tz now r fs; cbn [days count_from flat_map].
  - destruct (5 - List.length fs)%nat; cbn [firstn]; now rewrite app_nil_r.
  - destruct (Z.of_nat (List.length fs) <? 5) eqn:E.
    + cbv zeta. destruct (weekend (local_day tz now + i)); [apply IH|].
      rewrite IH, hours_first. apply firstn_more.
    + apply Z.ltb_ge in E. apply firstn_full. lia.
Qed.

Lemma count_from_in n : forall a z, In z (count_from n a) <-> a <= z < a + Z.of_nat n.
Proof.
  induction n as [|n IH]; intros a z; cbn [count_from In].
  - split; [tauto|lia].
  - rewrite IH. lia.
Qed.

Lemma firstn_short {A} (l : list A) k :
  (List.length (firstn k l) < k)%nat -> firstn k l = l.
Proof.
  intros H. apply firstn_all2. rewrite length_firstn in H. lia.
Qed.

Lemma flat_map_nil {A B} (f : A -> list B) l :
  (forall x, f x = []) -> flat_map f l = [].
Proof.
  intros H. induction l as [|x l IH]; cbn [flat_map]; trivial. now rewrite H, IH.
Qed.

(** X10. The slots returned are the first five free hours of the search, in
    the order of the days and of the hours of a day. So when fewer than
    five are returned, no free hour of the days looked at is left out: every
    hour [h] of a day [i] that is no weekend day, with
    [workStart <= h < workEnd], more than an hour from now and clear of the
    booked events of the property, is among them. And nothing is returned
    when [daysAhead] is not positive or the working day is empty. *)
Theorem free_slots_are_the_first_five tz now r :
  freeSlots tz now r = firstn 5 (free_hours tz now r)
  /\ ((List.length (freeSlots tz now r) < 5)%nat ->
      forall i h,
        0 <= i < daysAhead r -> workStart r <= h < workEnd r ->
        weekend (local_day tz now + i) = false ->
        now + 60 * 60 * 1000 < midnight tz (local_day tz now + i) + h * hour_ms ->
        overlaps (booked r) (midnight tz (local_day tz now + i) + h * hour_ms)
          (midnight tz (local_day tz now + i) + h * hour_ms + 60 * 60 * 1000) = false ->
        In {| slot_start := midnight tz (local_day tz now + i) + h * hour_ms;
              slot_end := midnight tz (local_day tz now + i) + h * hour_ms + 60 * 60 * 1000 |}
           (freeSlots tz now r))
  /\ (daysAhead r <= 0 \/ workEnd r <= workStart r -> freeSlots tz now r = []).
Proof.
  assert (E : freeSlots tz now r = firstn 5 (free_hours tz now r)).
  { unfold freeSlots. rewrite days_first. reflexivity. }
  split; [exact E|]. split.
  - rewrite E. intros L i h Hi Hh W Hm Ho. rewrite (firstn_short _ _ L).
    unfold free_hours. apply in_flat_map. exists i. split.
    + apply count_from_in. lia.
    + cbv zeta. rewrite W. apply in_map_iff. exists h. split; [reflexivity|].
      apply filter_In. split.
      * apply count_from_in. lia.
      * unfold free_at. rewrite Ho. apply Z.leb_gt in Hm. now rewrite Hm.
  - intros H. rewrite E. unfold free_hours. destruct H as [H|H].
    + replace (Z.to_nat (daysAhead r)) with 0%nat by lia. reflexivity.
    + rewrite flat_map_nil; [reflexivity|]. intros i. cbv zeta.
      replace (Z.to_nat (workEnd r - workStart r)) with 0%nat by lia.
      now destruct (weekend _).
Qed.

Lemma free_slots_are_the_first_five_witness :
  In {| slot_start := midnight 0 (local_day 0 day_ms + 0) + 9 * hour_ms;
        slot_end := midnight 0 (local_day 0 day_ms + 0) + 9 * hour_ms + 60 * 60 * 1000 |}
     (freeSlots 0 day_ms busy_friday).
Proof.
  apply (proj1 (proj2 (free_slots_are_the_first_five 0 day_ms busy_friday)));
    vm_compute; try reflexivity; repeat split; try discriminate; lia.
Defined.

(** ** The order of the slots *)

Lemma sorted_app {A} (R : A -> A -> Prop) (a b : list A) :
  StronglySorted R a -> StronglySorted R b ->
  (forall x y, In x a -> In y b -> R x y) ->
  StronglySorted R (a ++ b)%list.
Proof.
  intros Ha Hb H. induction Ha as [|x a Ha IH Hx]; cbn [app]; trivial.
  constructor.
  - apply IH. intros u v Hu Hv. apply H; [now right|trivial].
  - apply Forall_app. split; trivial.
    apply Forall_forall. intros y Hy. apply H; [now left|trivial].
Qed.

Lemma in_firstn {A} k : forall (l : list A) x, In x (firstn k l) -> In x l.
Proof.
  induction k as [|k IH]; intros l x H; cbn [firstn] in H; [contradiction|].
  destruct l as [|y l]; [contradiction|]. destruct H as [H|H]; [now left|right; auto].
Qed.

Lemma sorted_firstn {A} (R : A -> A -> Prop) k : forall l : list A,
  StronglySorted R l -> StronglySorted R (firstn k l).
Proof.
  induction k as [|k IH]; intros l H; cbn [firstn]; [constructor|].
  destruct H as [|x l H Hx]; constructor.
  - now apply IH.
  - apply Forall_forall. intros y Hy. rewrite Forall_forall in Hx. apply Hx.
    eapply in_firstn. exact Hy.
Qed.

Lemma day_sorted day p n : forall h,
  StronglySorted earlier (List.map (slot_at day) (filter p (count_from n h))).
Proof.
  induction n as [|n IH]; intros h; cbn [count_from filter]; [constructor|].
  destruct (p h); cbn [List.map]; [|apply IH]. constructor; [apply IH|].
  apply Forall_forall. intros s Hs. apply in_map_iff in Hs.
  destruct Hs as (k & <- & Hk). apply filter_In in Hk. destruct Hk as (Hk & _).
  apply count_from_in in Hk. unfold earlier, slot_at. cbn [slot_start].
  unfold hour_ms. lia.
Qed.

Lemma day_bounds tz r now d s :
  In s (if weekend d then []
        else List.map (slot_at (midnight tz d))
               (filter (free_at (midnight tz d) (now + 60 * 60 * 1000) (booked r))
                  (count_from (Z.to_nat (workEnd r - workStart r)) (workStart r)))) ->
  midnight tz d + workStart r * hour_ms <= slot_start s
  /\ slot_start s < midnight tz d + workEnd r * hour_ms.
Proof.
  destruct (weekend d); [contradiction|]. intros H. apply in_map_iff in H.
  destruct H as (h & <- & H). apply filter_In in H. destruct H as (H & _).
  apply count_from_in in H. unfold slot_at. cbn [slot_start]. unfold hour_ms. lia.
Qed.

Lemma horizon_sorted tz now r :
  0 <= workStart r -> workEnd r <= 24 ->
  forall n i,
  let l :=
    flat_map
      (fun i =>
         let d := local_day tz now + i in
         if weekend d then []
         else
           List.map (slot_at (midnight tz d))
             (filter (free_at (midnight tz d) (now + 60 * 60 * 1000) (booked r))
                (count_from (Z.to_nat (workEnd r - workStart r)) (workStart r))))
      (count_from n i) in
  StronglySorted earlier l
  /\ Forall (fun s => midnight tz (local_day tz now + i) <= slot_start s) l.
Proof.
  intros H0 H24. induction n as [|n IH]; intros i; cbn [count_from flat_map].
  - split; constructor.
  - destruct (IH (i + 1)) as (S1 & B1). cbv zeta in S1, B1. cbv zeta. split.
    + apply sorted_app; trivial.
      * destruct (weekend _); [constructor|apply day_sorted].
      * intros x y Hx Hy. apply day_bounds in Hx. rewrite Forall_forall in B1.
        apply B1 in Hy. unfold earlier. unfold midnight, day_ms, hour_ms in *. lia.
    + apply Forall_app. split.
      * apply Forall_forall. intros x Hx. apply day_bounds in Hx.
        unfold hour_ms in *. lia.
      * eapply Forall_impl; [|exact B1]. intros s Hs. cbv beta in Hs.
        unfold midnight, day_ms, hour_ms in *. lia.
Qed.

(** X11. The slots come in the order of time. On a server whose clock keeps
    one offset [tz] from UTC over the days searched, when the working hours
    are whole numbers and the working day lies within a day
    ([0 <= workStart], [workEnd <= 24]), each slot returned starts later
    than the one before it; no slot is returned twice. *)
Theorem free_slots_in_order tz now r :
  0 <= workStart r -> workEnd r <= 24 ->
  StronglySorted earlier (freeSlots tz now r) /\ NoDup (freeSlots tz now r).
Proof.
  intros H0 H24.
  assert (S : StronglySorted earlier (freeSlots tz now r)).
  { unfold freeSlots. rewrite days_first. cbn [app List.length Nat.sub].
    apply sorted_firstn. apply (horizon_sorted tz now r H0 H24). }
  split; trivial.
  induction S as [|s l S IH Hs]; constructor; trivial.
  intros Hin. rewrite Forall_forall in Hs. apply Hs in Hin. unfold earlier in Hin. lia.
Qed.

Lemma free_slots_in_order_witness :
  StronglySorted earlier (freeSlots 0 day_ms office_hours).
Proof.
  apply (free_slots_in_order 0 day_ms office_hours); vm_compute; discriminate.
Defined.


(** * The endpoints of the server *)

Import Server.

(** ** Sorting and removing duplicates *)



Lemma insert_perm {A} (le : A -> A -> bool) x : forall l,
  Permutation (insert le x l) (x :: l).
Proof.
  induction l as [|z l IH]; cbn [insert]; [reflexivity|].
  destruct (le x z); [reflexivity|].
  etransitivity; [apply perm_skip, IH|apply perm_swap].
Qed.

Lemma sort_perm {A} (le : A -> A -> bool) l : Permutation (sort le l) l.
Proof.
  induction l as [|x l IH]; cbn [sort fold_right]; [constructor|].
  fold (sort le l). etransitivity; [apply insert_perm|]. now apply perm_skip.
Qed.

Lemma insert_sorted {A} (le : A -> A -> bool) x :
  (forall a b, le a b = true \/ le b a = true) ->
  forall l, Sorted (fun a b => le a b = true) l ->
  Sorted (fun a b => le a b = true) (insert le x l).
Proof.
  intros T. induction l as [|z l IH]; intros H; cbn [insert].
  - repeat constructor.
  - destruct (le x z) eqn:E.
    + constructor; trivial. now constructor.
    + apply Sorted_inv in H. destruct H as (H & Hz). constructor; [now apply IH|].
      destruct l as [|w l]; cbn [insert].
      * constructor. destruct (T x z); congruence.
      * destruct (le x w); constructor.
        -- destruct (T x z); congruence.
        -- now apply HdRel_inv in Hz.
Qed.

Lemma sort_sorted {A} (le : A -> A -> bool) :
  (forall a b, le a b = true \/ le b a = true) ->
  forall l, Sorted (fun a b => le a b = true) (sort le l).
Proof.
  intros T. induction l as [|x l IH]; cbn [sort fold_right]; [constructor|].
  now apply insert_sorted.
Qed.











(** ** The search *)

Lemma indexed_numbers {A} (l : list A) : forall start,
  List.map (fun e => fst e + 1) (Enhanced.indexed start l) =
  count_from (List.length l) (start + 1).
Proof.
  induction l as [|x l IH]; intros start;
    cbn [Enhanced.indexed List.map List.length count_from fst]; trivial.
  now rewrite IH.
Qed.

Lemma indexed_length {A} (l : list A) : forall start,
  List.length (Enhanced.indexed start l) = List.length l.
Proof.
  induction l as [|x l IH]; intros start; cbn [Enhanced.indexed List.length]; trivial.
  now rewrite IH.
Qed.

Lemma indexed_values {A} (l : list A) : forall start,
  List.map snd (Enhanced.indexed start l) = l.
Proof.
  induction l as [|x l IH]; intros start; cbn [Enhanced.indexed List.map]; trivial.
  now rewrite IH.
Qed.

Lemma leb_total_on {A} (f : A -> Z) a b : (f a <=? f b) = true \/ (f b <=? f a) = true.
Proof. destruct (Z.leb_spec (f a) (f b)); [now left|right; apply Z.leb_le; lia]. Qed.

(** X14. The properties found. For a request that names a tenant, an
    interest and a location (and, for "Land", a plot size that is a text)
    and a query that succeeds, [/api/search-properties] sends the records
    of the query, every one and once, in the order of their prices (an
    empty price counting as 0), numbered from 1, with their number. A request that lacks
    one of the three is refused with status 400; for "Land" a plot size
    that is no text, like a query that fails, gives the answer of the
    [catch] block. *)
Theorem search_results_numbered tenantId interest location plotSize records :
  (truthy_json tenantId = true -> truthy_json interest = true ->
   truthy_json location = true ->
   (is_string interest "Land" = true -> exists text, plotSize = JStr text) ->
   exists body sorted,
     search_properties tenantId interest location plotSize (Ok records) = Sent body
     /\ Permutation sorted records
     /\ Sorted (fun a b => amount a <= amount b) sorted
     /\ List.map number (properties body) = count_from (List.length records) 1
     /\ List.map listed_id (properties body) = List.map property_id sorted
     /\ List.map price (properties body) = List.map Price sorted
     /\ search_count body = Z.of_nat (List.length records))
  /\ (truthy_json tenantId = false \/ truthy_json interest = false
      \/ truthy_json location = false ->
      forall fetched,
      search_properties tenantId interest location plotSize fetched =
      Refused 400 "tenantId, interest, and location are required")
  /\ (truthy_json tenantId = true -> truthy_json interest = true ->
      truthy_json location = true ->
      (is_string interest "Land" = true /\ (forall text, plotSize <> JStr text)
       -> search_properties tenantId interest location plotSize (Ok records) = Failed)
      /\ search_properties tenantId interest location plotSize Throw = Failed).
Proof.
  split; [|split].
  - intros Ht Hi Hl Hp. unfold search_properties. rewrite Ht, Hi, Hl. cbn [negb orb].
    assert (G : (if is_string interest "Land" then receiver plotSize else Ok "") <> Throw).
    { destruct (is_string interest "Land"); [|discriminate].
      destruct (Hp eq_refl) as (text & ->). discriminate. }
    destruct (if is_string interest "Land" then receiver plotSize else Ok "");
      [|congruence].
    pose proof (sort_perm (fun a b => amount a <=? amount b) records) as P.
    eexists _, _. split; [reflexivity|]. cbn [properties search_count].
    split; [exact P|]. split.
    { assert (S := sort_sorted (fun a b => amount a <=? amount b)
                     (leb_total_on amount) records).
      revert S. generalize (sort (fun a b => amount a <=? amount b) records).
      induction 1 as [|x l S IH Hx]; constructor; trivial.
      destruct Hx as [|y l Hy]; constructor. now apply Z.leb_le. }
    assert (L : List.length (sort (fun a b => amount a <=? amount b) records)
                = List.length records) by (now apply Permutation_length).
    repeat split.
    + rewrite <- L. change 1 with (0 + 1). rewrite <- indexed_numbers, !map_map.
      apply map_ext. now intros [i p].
    + rewrite <- (indexed_values (sort _ records) 0) at 2. rewrite !map_map.
      apply map_ext. now intros [i p].
    + rewrite <- (indexed_values (sort _ records) 0) at 2. rewrite !map_map.
      apply map_ext. now intros [i p].
    + now rewrite length_map, indexed_length, L.
  - intros H fetched. unfold search_properties.
    destruct H as [-> |[-> | ->]]; cbn [negb orb]; rewrite ?orb_true_r; reflexivity.
  - intros Ht Hi Hl. unfold search_properties. rewrite Ht, Hi, Hl. cbn [negb orb]. split.
    + intros (-> & N). destruct plotSize; try reflexivity. now destruct (N s).
    + destruct (if is_string interest "Land" then receiver plotSize else Ok ""); reflexivity.
Qed.

Lemma search_results_numbered_witness :
  exists body,
    search_properties (JStr "recTenant1") (JStr "Rent") (JStr "Karen") JUndefined
      (Ok [{| property_id := "recA"; PropertyName := JStr "Villa"; Price := Some 90000;
              PropertyBedrooms := JNum 3; Location := JStr "Karen"; Address := JUndefined;
              PropertyPlotSize := JUndefined; PropertyType := JStr "Rent";
              PhotoURL := JUndefined |};
           {| property_id := "recB"; PropertyName := JStr "Flat"; Price := None;
              PropertyBedrooms := JNum 3; Location := JStr "Karen"; Address := JUndefined;
              PropertyPlotSize := JUndefined; PropertyType := JStr "Rent";
              PhotoURL := JStr "https://example.org/b.jpg" |}]) = Sent body
    /\ List.map number (properties body) = [1; 2]
    /\ List.map listed_id (properties body) = ["recB"; "recA"].
Proof.
  destruct (proj1 (search_results_numbered (JStr "recTenant1") (JStr "Rent") (JStr "Karen")
                     JUndefined
                     [{| property_id := "recA"; PropertyName := JStr "Villa";
                         Price := Some 90000; PropertyBedrooms := JNum 3;
                         Location := JStr "Karen"; Address := JUndefined;
                         PropertyPlotSize := JUndefined; PropertyType := JStr "Rent";
                         PhotoURL := JUndefined |};
                      {| property_id := "recB"; PropertyName := JStr "Flat"; Price := None;
                         PropertyBedrooms := JNum 3; Location := JStr "Karen";
                         Address := JUndefined; PropertyPlotSize := JUndefined;
                         PropertyType := JStr "Rent";
                         PhotoURL := JStr "https://example.org/b.jpg" |}])
            eq_refl eq_refl eq_refl (fun H => ltac:(discriminate H)))
    as (body & sorted & E & _ & _ & N & _).
  exists body. split; [exact E|]. split; [exact N|].
  cbv in E. injection E as <-. reflexivity.
Defined.

(** ** The slot chosen *)

Lemma split_rec_plain sep s : forall t cur,
  all_chars (fun c => negb (Ascii.eqb c sep)) s = true ->
  Text.split_rec sep (s ++ t) cur = Text.split_rec sep t (Text.rev_onto s cur).
Proof.
  induction s as [|c s IH]; intros t cur H; cbn [append Text.split_rec Text.rev_onto]; trivial.
  cbn [all_chars] in H. apply andb_true_iff in H. destruct H as (Hc & Hs).
  apply negb_true_iff in Hc. rewrite Hc. now apply IH.
Qed.

(** Two texts without the separator, joined by it, split into the two. *)
Lemma split_pair sep a b :
  all_chars (fun c => negb (Ascii.eqb c sep)) a = true ->
  all_chars (fun c => negb (Ascii.eqb c sep)) b = true ->
  Text.split sep (a ++ String sep b) = [a; b].
Proof.
  intros Ha Hb. unfold Text.split. rewrite (split_rec_plain sep a _ _ Ha).
  cbn [Text.split_rec]. rewrite Ascii.eqb_refl. f_equal.
  - apply rev_rev.
  - rewrite <- (app_empty_r b) at 1. rewrite (split_rec_plain sep b _ _ Hb).
    cbn [Text.split_rec]. f_equal. apply rev_rev.
Qed.

Lemma prefix_app a b : prefix a (a ++ b) = true.
Proof.
  induction a as [|c a IH]; cbn [append prefix]; [now destruct b|].
  destruct (Ascii.ascii_dec c c); congruence.
Qed.

Lemma includes_after sub a b : Text.includes sub (a ++ sub ++ b) = true.
Proof.
  induction a as [|c a IH]; cbn [append].
  - destruct (sub ++ b) eqn:E; cbn [Text.includes]; rewrite <- E, prefix_app; reflexivity.
  - cbn [Text.includes]. rewrite IH. apply orb_true_r.
Qed.

Lemma digits_not_inherited z : 0 <= z -> inherited (Text.digits z) = false.
Proof.
  intros Hz. destruct (digits_value z Hz) as (_ & D & _).
  unfold inherited. cbn [existsb].
  repeat match goal with
  | |- context [String.eqb (Text.digits z) ?n] =>
      let E := fresh "E" in
      destruct (String.eqb (Text.digits z) n) eqn:E;
      [apply String.eqb_eq in E; rewrite E in D; discriminate D|]
  end.
  reflexivity.
Qed.

(** What the map of the slots holds under the number of a slot, and under
    no other number. *)
Lemma slotMap_writes K : forall l start o,
  0 <= start ->
  let o' :=
    fold_left
      (fun o '(index, (slot_start, slot_end)) =>
         set (Text.digits (index + 1)) (VStr (slot_start ++ "|" ++ slot_end)) o)
      (Enhanced.indexed start l) o in
  (forall i s e, nth_error l i = Some (s, e) ->
     Text.digits (start + Z.of_nat i + 1) = K ->
     has K o' = true /\ prop K o' = VStr (s ++ "|" ++ e))
  /\ ((forall i, (i < List.length l)%nat -> Text.digits (start + Z.of_nat i + 1) <> K) ->
      has K o' = has K o /\ prop K o' = prop K o).
Proof.
  induction l as [|[s0 e0] l IH]; intros start o Hs; cbn [Enhanced.indexed fold_left].
  - split; [intros [|i] s e H; discriminate|auto].
  - set (o1 := set (Text.digits (start + 1)) (VStr (s0 ++ "|" ++ e0)) o).
    destruct (IH (start + 1) o1 ltac:(lia)) as (I1 & I2). cbv zeta in I1, I2.
    destruct (set_read K (Text.digits (start + 1)) (VStr (s0 ++ "|" ++ e0)) o) as (W1 & W2).
    fold o1 in W1, W2.
    assert (Sh : forall i, start + 1 + Z.of_nat i + 1 = start + Z.of_nat (S i) + 1) by lia.
    split.
    + intros [|i] s e Hn Hk.
      * cbn [nth_error] in Hn. injection Hn as <- <-. cbn [Z.of_nat] in Hk.
        rewrite Z.add_0_r in Hk. destruct (W1 Hk) as (H1 & H2).
        destruct I2 as (-> & ->); auto.
        intros i Hi E. rewrite <- Hk in E. apply digits_inj in E; lia.
      * cbn [nth_error] in Hn. apply (I1 i s e Hn). now rewrite Sh.
    + intros N. destruct I2 as (-> & ->).
      * intros i Hi. rewrite Sh. apply N. cbn [List.length]. lia.
      * apply W2. specialize (N 0%nat). cbn [Z.of_nat List.length] in N.
        rewrite Z.add_0_r in N. apply N. lia.
Qed.

Lemma show_small z : safe z = true -> show (JNum z) = Text.digits z.
Proof. intros H. cbn [show]. now rewrite H. Qed.

(** X15. The slot chosen is the slot offered. For a request to
    [/api/create-booking] with a lead, a property and a tenant, a tenant
    that is found, and the map that [/api/available-slots-v2] makes of its
    slots (numbered from 1, each as start, a bar, end, neither holding a
    bar; at most 2^53 of them), as [JSON.parse] gives it back: under
    the number of a slot, sent as a number or as its digits, the booking
    finds the start and the end of that slot; a number beyond the last one
    (up to 2^53) and the text "0" are refused as an invalid slot number;
    the number 0 is refused before that, as a required field that is
    missing. *)
Theorem slot_map_round_trip freeSlots leadId propertyId tenantId :
  truthy_json leadId = true ->
  truthy_json propertyId = true ->
  truthy_json tenantId = true ->
  Z.of_nat (List.length freeSlots) <= 2 ^ 53 ->
  (forall k s e,
     nth_error freeSlots k = Some (s, e) ->
     all_chars (fun c => negb (Ascii.eqb c "|")) s = true ->
     all_chars (fun c => negb (Ascii.eqb c "|")) e = true ->
     create_booking_slot leadId propertyId (JNum (Z.of_nat k + 1))
       (Some (Ok (slotMap freeSlots))) tenantId (Ok tt) = Sent (s, e)
     /\ create_booking_slot leadId propertyId (JStr (Text.digits (Z.of_nat k + 1)))
          (Some (Ok (slotMap freeSlots))) tenantId (Ok tt) = Sent (s, e))
  /\ (forall n,
      Z.of_nat (List.length freeSlots) < n <= 2 ^ 53 ->
      create_booking_slot leadId propertyId (JNum n)
        (Some (Ok (slotMap freeSlots))) tenantId (Ok tt) =
      Refused 400 ("Invalid slot number. Available: "
                   ++ Text.join ", " (keys (slotMap freeSlots))))
  /\ create_booking_slot leadId propertyId (JStr "0")
       (Some (Ok (slotMap freeSlots))) tenantId (Ok tt) =
     Refused 400 ("Invalid slot number. Available: "
                  ++ Text.join ", " (keys (slotMap freeSlots)))
  /\ (forall slotMap tenant,
      create_booking_slot leadId propertyId (JNum 0) (Some slotMap) tenantId tenant =
      Refused 400 "Missing required fields: slotNumber").
Proof.
  intros Hl Hp Ht Hlen.
  assert (Pass : forall j, truthy_json j = true ->
            create_booking_slot leadId propertyId j (Some (Ok (slotMap freeSlots)))
              tenantId (Ok tt) = chosen_slot (slotMap freeSlots) j).
  { intros j Hj. unfold create_booking_slot, missingFields. now rewrite Hl, Hp, Ht, Hj. }
  split; [|split; [|split]].
  - intros k s e Hn Hs He.
    assert (Hk : (k < List.length freeSlots)%nat).
    { apply nth_error_Some. congruence. }
    destruct (slotMap_writes (Text.digits (Z.of_nat k + 1)) freeSlots 0 [] ltac:(lia))
      as (W & _). cbv zeta in W. fold (slotMap freeSlots) in W.
    destruct (W k s e Hn eq_refl) as (H1 & H2).
    assert (G : forall j, show j = Text.digits (Z.of_nat k + 1) ->
                chosen_slot (slotMap freeSlots) j = Sent (s, e)).
    { intros j Hj. unfold chosen_slot. rewrite Hj, H1, H2. cbn [truthy].
      assert (Ne : String.eqb (s ++ "|" ++ e) "" = false).
      { apply String.eqb_neq. destruct s; discriminate. }
      rewrite Ne. cbn [negb]. rewrite (includes_after "|" s e). cbn [negb].
      change (s ++ "|" ++ e) with (s ++ String "|" e). now rewrite split_pair. }
    split; rewrite Pass.
    + apply G, show_small. unfold safe. apply Z.leb_le. lia.
    + cbn [truthy_json]. apply negb_true_iff, Z.eqb_neq. lia.
    + now apply G.
    + cbn [truthy_json]. apply negb_true_iff, String.eqb_neq.
      apply (digits_value (Z.of_nat k + 1)). lia.
  - intros n Hn. rewrite Pass by (cbn [truthy_json]; apply negb_true_iff, Z.eqb_neq; lia).
    destruct (slotMap_writes (Text.digits n) freeSlots 0 [] ltac:(lia)) as (_ & W).
    cbv zeta in W. fold (slotMap freeSlots) in W.
    destruct W as (H1 & _).
    { intros i Hi E. apply digits_inj in E; lia. }
    unfold chosen_slot. rewrite show_small by (unfold safe; apply Z.leb_le; lia).
    rewrite H1. cbn [has].
    rewrite digits_not_inherited by lia. reflexivity.
  - rewrite Pass by reflexivity.
    destruct (slotMap_writes "0" freeSlots 0 [] ltac:(lia)) as (_ & W).
    cbv zeta in W. fold (slotMap freeSlots) in W.
    destruct W as (H1 & _).
    { intros i Hi E. change "0" with (Text.digits 0) in E. apply digits_inj in E; lia. }
    unfold chosen_slot. cbn [show]. rewrite H1. reflexivity.
  - intros m tenant. unfold create_booking_slot, missingFields.
    rewrite Hl, Hp, Ht. reflexivity.
Qed.

Lemma slot_map_round_trip_witness :
  create_booking_slot (JStr "recLead1") (JStr "recProp1") (JNum 2)
    (Some (Ok (slotMap [("2026-02-13T06:00:00.000Z", "2026-02-13T07:00:00.000Z");
                        ("2026-02-13T07:00:00.000Z", "2026-02-13T08:00:00.000Z")])))
    (JStr "recTenant1") (Ok tt) =
  Sent ("2026-02-13T07:00:00.000Z", "2026-02-13T08:00:00.000Z").
Proof.
  assert (L : Z.of_nat 2 <= 2 ^ 53) by (cbn; lia).
  apply (proj1 (proj1 (slot_map_round_trip
                         [("2026-02-13T06:00:00.000Z", "2026-02-13T07:00:00.000Z");
                          ("2026-02-13T07:00:00.000Z", "2026-02-13T08:00:00.000Z")]
                         (JStr "recLead1") (JStr "recProp1") (JStr "recTenant1")
                         eq_refl eq_refl eq_refl L)
                  1%nat "2026-02-13T07:00:00.000Z" "2026-02-13T08:00:00.000Z"
                  eq_refl eq_refl eq_refl)).
Defined.

(** ** The answer to a follow-up *)

Lemma prefix_true p : forall s, prefix p s = true -> exists rest, s = p ++ rest.
Proof.
  induction p as [|c p IH]; intros s H; [now exists s|].
  destruct s as [|a s]; [discriminate|]. cbn [prefix] in H.
  destruct (Ascii.ascii_dec c a) as [->|]; [|discriminate].
  destruct (IH s H) as (rest & ->). now exists rest.
Qed.

Lemma append_assoc (a b c : string) : (a ++ b) ++ c = a ++ b ++ c.
Proof. induction a as [|x a IH]; cbn [append]; congruence. Qed.

(** A text that holds a phrase holds the end of the phrase. *)
Lemma includes_suffix a b : forall s,
  Text.includes (a ++ b) s = true -> Text.includes b s = true.
Proof.
  induction s as [|c s IH]; cbn [Text.includes]; intros H.
  - rewrite orb_false_r in H. apply prefix_true in H. destruct H as (rest & H).
    destruct a; [|discriminate]. destruct b; [reflexivity|discriminate].
  - apply orb_true_iff in H. destruct H as [H|H].
    + apply prefix_true in H. destruct H as (rest & H). rewrite append_assoc in H.
      change (Text.includes b (String c s) = true). rewrite H. apply includes_after.
    + rewrite (IH H). apply orb_true_r.
Qed.

(** X16. How an answer to the follow-up is read. For a lead that is found
    and a response that is a text written in ASCII: the response "1", and
    every response that holds the word "interested" in any case (the
    response "Not interested" is one), marks the lead as a hot lead and,
    when that write succeeds, notifies the agent; the response "2" marks
    the lead as not interested, and no other does; when the write fails the
    [catch] block answers. Any other response is answered as invalid and
    writes nothing. A response that is filled and no text raises a
    [TypeError], which the [catch] block answers, as it does for a lead
    that is not found; a request without a lead id or a response is refused
    with status 400. *)
Theorem followup_response_reading leadId response leadName leadPhone :
  (truthy_json leadId = true ->
   forall text, response = JStr text -> text <> "" -> ascii_text text = true ->
   (exists body,
      handle_followup_response leadId response (Ok (leadName, leadPhone)) (Ok tt) = Sent body
      /\ (text = "1" \/ Text.includes "interested" (Text.toLowerCase text) = true ->
          lead_update body =
          [("Status", "Hot Lead"); ("Conversation Stage", "interested_after_viewing")]
          /\ notifyAgent body = Some true
          /\ agentMessage body <> None)
      /\ (lead_update body =
          [("Status", "Not Interested");
           ("Conversation Stage", "not_interested_after_viewing")] <-> text = "2")
      /\ (text <> "1" -> text <> "2" ->
          Text.includes "interested" (Text.toLowerCase text) = false ->
          invalidResponse body = true /\ lead_update body = []))
   /\ (text = "1" \/ text = "2"
       \/ Text.includes "interested" (Text.toLowerCase text) = true ->
       handle_followup_response leadId response (Ok (leadName, leadPhone)) Throw = Failed)
   /\ (text <> "1" -> text <> "2" ->
       Text.includes "interested" (Text.toLowerCase text) = false ->
       handle_followup_response leadId response (Ok (leadName, leadPhone)) Throw
       = handle_followup_response leadId response (Ok (leadName, leadPhone)) (Ok tt)))
  /\ (truthy_json leadId = true -> truthy_json response = true ->
      (forall text, response <> JStr text) ->
      forall written,
      handle_followup_response leadId response (Ok (leadName, leadPhone)) written = Failed)
  /\ (truthy_json leadId = false \/ truthy_json response = false ->
      forall lead written,
      handle_followup_response leadId response lead written
      = Refused 400 "leadId and response required")
  /\ (truthy_json leadId = true -> truthy_json response = true ->
      forall written,
      handle_followup_response leadId response Throw written = Failed).
Proof.
  split; [|split; [|split]].
  - intros Hl text -> Hn _. unfold handle_followup_response. rewrite Hl.
    assert (Tr : truthy_json (JStr text) = true).
    { cbn [truthy_json]. now apply negb_true_iff, String.eqb_neq. }
    rewrite Tr. cbn [negb orb is_string receiver bind].
    destruct (String.eqb text "1") eqn:E1.
    { apply String.eqb_eq in E1. subst text. split; [|split].
      - eexists. split; [reflexivity|].
        cbn [lead_update notifyAgent agentMessage invalidResponse].
        split; [|split].
        + intros _. repeat split. discriminate.
        + split; discriminate.
        + congruence.
      - reflexivity.
      - congruence. }
    apply String.eqb_neq in E1.
    destruct (Text.includes "interested" (Text.toLowerCase text)) eqn:I.
    { split; [|split].
      - eexists. split; [reflexivity|].
        cbn [lead_update notifyAgent agentMessage invalidResponse].
        split; [|split].
        + intros _. repeat split. discriminate.
        + split; [discriminate|]. intros ->. discriminate I.
        + congruence.
      - reflexivity.
      - congruence. }
    destruct (String.eqb text "2") eqn:E2.
    { apply String.eqb_eq in E2. subst text. split; [|split].
      - eexists. split; [reflexivity|].
        cbn [lead_update notifyAgent agentMessage invalidResponse].
        split; [|split].
        + intros [H|H]; congruence.
        + split; reflexivity.
        + congruence.
      - reflexivity.
      - congruence. }
    apply String.eqb_neq in E2.
    assert (N : Text.includes "not interested" (Text.toLowerCase text) = false).
    { destruct (Text.includes "not interested" (Text.toLowerCase text)) eqn:N; trivial.
      apply (includes_suffix "not " "interested") in N. congruence. }
    rewrite N. split; [|split].
    + eexists. split; [reflexivity|].
      cbn [lead_update notifyAgent agentMessage invalidResponse].
      split; [|split].
      * intros [H|H]; congruence.
      * split; [discriminate|congruence].
      * auto.
    + intros [H|[H|H]]; congruence.
    + reflexivity.
  - intros Hl Hr N written. unfold handle_followup_response. rewrite Hl, Hr. cbn [negb orb].
    destruct response; try reflexivity. now destruct (N s).
  - intros H lead written. unfold handle_followup_response.
    destruct H as [-> | ->]; cbn [negb orb]; rewrite ?orb_true_r; reflexivity.
  - intros Hl Hr written. unfold handle_followup_response. now rewrite Hl, Hr.
Qed.

Lemma followup_response_reading_witness :
  exists body,
    handle_followup_response (JStr "recLead1") (JStr "Not interested")
      (Ok (JStr "Mary", JStr "+254700000001")) (Ok tt) = Sent body
    /\ lead_update body =
       [("Status", "Hot Lead"); ("Conversation Stage", "interested_after_viewing")].
Proof.
  destruct (proj1 (proj1 (followup_response_reading (JStr "recLead1") (JStr "Not interested")
                            (JStr "Mary") (JStr "+254700000001"))
                     eq_refl "Not interested" eq_refl ltac:(discriminate) eq_refl))
    as (body & E & H & _).
  exists body. split; [exact E|]. apply H. right. reflexivity.
Defined.

(** ** The cache of tenants *)

Lemma entry_assign k e : forall cache k',
  entry k' (assign k e cache) = if String.eqb k' k then Some e else entry k' cache.
Proof.
  induction cache as [|[k0 e0] cache IH]; intros k'; cbn [assign entry].
  - reflexivity.
  - destruct (String.eqb k k0) eqn:E; cbn [entry].
    + apply String.eqb_eq in E. subst k0. now destruct (String.eqb k' k).
    + rewrite IH. destruct (String.eqb k' k0) eqn:E0; trivial.
      apply String.eqb_eq in E0. subst k0.
      rewrite String.eqb_sym in E. now rewrite E.
Qed.

(** X18. A tenant cached is found again for an hour. After
    [cacheTenant(id, data)] at time [now], [getCachedTenant(id)] at time [t]
    gives the data when [t - now] is less than an hour, and [null] from the
    hour on; caching the tenant again starts the hour anew. Nothing is
    found in an empty cache. *)
Theorem cached_tenant_expires cache tenantId data now :
  (forall t, t - now < 60 * 60 * 1000 ->
     getCachedTenant t (cacheTenant now cache tenantId data) tenantId = data)
  /\ (forall t, 60 * 60 * 1000 <= t - now ->
      getCachedTenant t (cacheTenant now cache tenantId data) tenantId = JNull)
  /\ (forall again data' t, t - again < 60 * 60 * 1000 ->
      getCachedTenant t
        (cacheTenant again (cacheTenant now cache tenantId data) tenantId data') tenantId =
      data')
  /\ getCachedTenant now [] tenantId = JNull.
Proof.
  unfold getCachedTenant, cacheTenant, CACHE_DURATION.
  repeat split; intros; rewrite ?entry_assign, ?String.eqb_refl; cbn [timestamp Server.data];
    trivial.
  - assert (E : (t - now <? 60 * 60 * 1000) = true) by (apply Z.ltb_lt; lia).
    now rewrite E.
  - assert (E : (t - now <? 60 * 60 * 1000) = false) by (apply Z.ltb_ge; lia).
    now rewrite E.
  - assert (E : (t - again <? 60 * 60 * 1000) = true) by (apply Z.ltb_lt; lia).
    now rewrite E.
Qed.

Lemma cached_tenant_expires_witness :
  getCachedTenant 1000 (cacheTenant 0 [] "recTenant1" (JStr "Acme Homes")) "recTenant1" =
  JStr "Acme Homes".
Proof.
  apply (proj1 (cached_tenant_expires [] "recTenant1" (JStr "Acme Homes") 0)).
  reflexivity.
Defined.

(** X19. Caching a tenant changes what is found for no other tenant, at any
    time. *)
Theorem cache_keeps_other_tenants cache tenantId data now other t :
  other <> tenantId ->
  getCachedTenant t (cacheTenant now cache tenantId data) other =
  getCachedTenant t cache other.
Proof.
  intros N. unfold getCachedTenant, cacheTenant. rewrite entry_assign.
  apply String.eqb_neq in N. now rewrite N.
Qed.

Lemma cache_keeps_other_tenants_witness :
  getCachedTenant 1000
    (cacheTenant 500 (cacheTenant 0 [] "recTenant1" (JStr "Acme Homes")) "recTenant2"
       (JStr "Best Lets")) "recTenant1" =
  getCachedTenant 1000 (cacheTenant 0 [] "recTenant1" (JStr "Acme Homes")) "recTenant1".
Proof.
  apply (cache_keeps_other_tenants (cacheTenant 0 [] "recTenant1" (JStr "Acme Homes"))
           "recTenant2" (JStr "Best Lets") 500 "recTenant1" 1000).
  discriminate.
Defined.

(** ** The slots of [/api/available-slots-v2] *)

Import SlotsV2.

Lemma scan_found n : forall hour tz d m c bk h s e,
  scan n hour tz d m c bk = Some (h, s, e) ->
  hour <= h < hour + Z.of_nat n
  /\ s = slotStart tz d h /\ e = slotEnd c s
  /\ m < s /\ beyond tz c e = false /\ Slots.overlaps bk s e = false.
Proof.
  induction n as [|n IH]; intros hour tz d m c bk h s e; cbn [scan]; [discriminate|].
  destruct (slotStart tz d hour <=? m) eqn:Past.
  { intros E. apply IH in E. intuition lia. }
  destruct (beyond tz c (slotEnd c (slotStart tz d hour))) eqn:B; [discriminate|].
  destruct (Slots.overlaps bk (slotStart tz d hour) (slotEnd c (slotStart tz d hour))) eqn:O.
  { intros E. apply IH in E. intuition lia. }
  intros [= <- <- <-]. apply Z.leb_gt in Past. intuition lia.
Qed.

Lemma scan_again n hour tz d m c bk h s e :
  scan n hour tz d m c bk = Some (h, s, e) ->
  forall n', scan (S n') h tz d m c bk = Some (h, s, e).
Proof.
  intros E n'. apply scan_found in E.
  destruct E as (_ & -> & -> & Hm & B & O). cbn [scan].
  assert (P : (slotStart tz d h <=? m) = false) by (apply Z.leb_gt; lia).
  now rewrite P, B, O.
Qed.

Lemma numbered_app l : forall n s e,
  numbered n (l ++ [(s, e)])
  = (numbered n l
     ++ [{| number := n + Z.of_nat (List.length l); slot_start := s; slot_end := e |}])%list.
Proof.
  induction l as [|[s' e'] l IH]; intros n s e; cbn [numbered app List.length].
  - now rewrite Z.add_0_r.
  - rewrite IH.
    replace (n + 1 + Z.of_nat (List.length l)) with (n + Z.of_nat (S (List.length l))) by lia.
    reflexivity.
Qed.

Lemma numbered_push l s e :
  numbered 1 (map times l) = l ->
  numbered 1 (map times (l ++ [{| number := Z.of_nat (List.length l) + 1;
                                  slot_start := s; slot_end := e |}]))
  = (l ++ [{| number := Z.of_nat (List.length l) + 1; slot_start := s; slot_end := e |}])%list.
Proof.
  intros E. rewrite map_app.
  change (map times [{| number := Z.of_nat (List.length l) + 1;
                        slot_start := s; slot_end := e |}]) with [(s, e)].
  rewrite numbered_app, E, length_map.
  now replace (1 + Z.of_nat (List.length l)) with (Z.of_nat (List.length l) + 1) by lia.
Qed.

(** What [fill] keeps: a property [Q] of the slots that holds for every
    slot the hours of the day can give. *)
Lemma fill_keeps (Q : Slot -> Prop) tz d m c bk k : forall hour l,
  (forall h s e n, hour <= h -> scan (Z.to_nat (workEnd c - h)) h tz d m c bk = Some (h, s, e) ->
     Q {| number := n; slot_start := s; slot_end := e |}) ->
  0 <= slotDuration c ->
  Forall Q l -> Forall Q (fill k hour tz d m c bk l).
Proof.
  induction k as [|k IH]; intros hour l HQ D F; cbn [fill]; trivial.
  destruct (scan (Z.to_nat (workEnd c - hour)) hour tz d m c bk) as [[[h s] e]|] eqn:E; trivial.
  pose proof (scan_found _ _ _ _ _ _ _ _ _ _ E) as (R & _).
  assert (A : scan (Z.to_nat (workEnd c - h)) h tz d m c bk = Some (h, s, e)).
  { replace (Z.to_nat (workEnd c - h)) with (S (Z.to_nat (workEnd c - h - 1))) by lia.
    eapply scan_again; eassumption. }
  apply IH; trivial.
  - intros h' s' e' n Hh. apply HQ.
    assert (h <= (h * 60 + slotDuration c) / 60).
    { apply Z.div_le_lower_bound; lia. }
    lia.
  - apply Forall_app. split; trivial. constructor; [|constructor]. apply (HQ h); [lia|exact A].
Qed.

(** The same with no assumption on the duration, for a property of the
    slots of any hour before [workEnd]. *)
Lemma fill_keeps_any (Q : Slot -> Prop) tz d m c bk k : forall hour l,
  (forall h s e n, scan (Z.to_nat (workEnd c - h)) h tz d m c bk = Some (h, s, e) ->
     Q {| number := n; slot_start := s; slot_end := e |}) ->
  Forall Q l -> Forall Q (fill k hour tz d m c bk l).
Proof.
  induction k as [|k IH]; intros hour l HQ F; cbn [fill]; trivial.
  destruct (scan (Z.to_nat (workEnd c - hour)) hour tz d m c bk) as [[[h s] e]|] eqn:E; trivial.
  pose proof (scan_found _ _ _ _ _ _ _ _ _ _ E) as (R & _).
  assert (A : scan (Z.to_nat (workEnd c - h)) h tz d m c bk = Some (h, s, e)).
  { replace (Z.to_nat (workEnd c - h)) with (S (Z.to_nat (workEnd c - h - 1))) by lia.
    eapply scan_again; eassumption. }
  apply IH; trivial.
  apply Forall_app. split; trivial. constructor; [|constructor]. exact (HQ h s e _ A).
Qed.

Lemma fill_length tz d m c bk k : forall hour l,
  (List.length (fill k hour tz d m c bk l) <= List.length l + k)%nat.
Proof.
  induction k as [|k IH]; intros hour l; cbn [fill]; [lia|].
  destruct (scan _ _ _ _ _ _ _) as [[[h s] e]|]; [|lia].
  etransitivity; [apply IH|]. rewrite length_app. cbn [List.length]. lia.
Qed.

Lemma fill_numbered tz d m c bk k : forall hour l,
  numbered 1 (map times l) = l ->
  numbered 1 (map times (fill k hour tz d m c bk l)) = fill k hour tz d m c bk l.
Proof.
  induction k as [|k IH]; intros hour l E; cbn [fill]; trivial.
  destruct (scan _ _ _ _ _ _ _) as [[[h s] e]|]; trivial.
  apply IH. now apply numbered_push.
Qed.

Lemma fill_offered tz now c bk i k l :
  0 <= i < daysAhead c ->
  isWorkingDay c (Slots.local_day tz now + i) = true ->
  Forall (fun x => exists i h, offered tz now c bk i h x) l ->
  Forall (fun x => exists i h, offered tz now c bk i h x)
    (fill k (workStart c) tz (Slots.local_day tz now + i) (now + 60 * 60 * 1000) c bk l).
Proof.
  intros Hi W F.
  destruct (Z_le_gt_dec 0 (slotDuration c)) as [D|D].
  - apply fill_keeps; trivial.
    intros h s e n Hh E. apply scan_found in E.
    destruct E as (R & -> & -> & Hm & B & O).
    exists i, h. unfold offered. cbn [slot_start slot_end]. intuition lia.
  - apply fill_keeps_any; trivial.
    intros h s e n E. apply scan_found in E.
    destruct E as (R & -> & -> & Hm & B & O).
    exists i, h. unfold offered. cbn [slot_start slot_end]. intuition lia.
Qed.

Lemma days_offered tz now c bk n : forall i l,
  0 <= i -> i + Z.of_nat n <= Z.max 0 (daysAhead c) ->
  (Z.of_nat (List.length l) <= MAX_SLOTS
   /\ numbered 1 (map times l) = l
   /\ Forall (fun x => exists i h, offered tz now c bk i h x) l) ->
  let r := days n i tz now c bk l in
  Z.of_nat (List.length r) <= MAX_SLOTS
  /\ numbered 1 (map times r) = r
  /\ Forall (fun x => exists i h, offered tz now c bk i h x) r.
Proof.
  induction n as [|n IH]; intros i l Hi Hn H; cbn [days]; trivial.
  destruct (Z.of_nat (List.length l) <? MAX_SLOTS) eqn:Room; trivial.
  destruct (isWorkingDay c (Slots.local_day tz now + i)) eqn:W; cbn [negb].
  - apply IH; [lia|lia|]. destruct H as (L & N & F). split; [|split].
    + pose proof (fill_length tz (Slots.local_day tz now + i) (now + 60 * 60 * 1000) c bk
                    (room l) (workStart c) l) as B.
      unfold room in *. lia.
    + now apply fill_numbered.
    + apply fill_offered; trivial. lia.
  - apply IH; trivial; lia.
Qed.

(** X20. On a server whose clock keeps one offset [tz] from UTC over the
    days searched, the slots generated are at most seven, numbered from 1
    in the order they are found, and each of them was found by the loop: at
    an hour
    before [workEnd] (and from [workStart] on, when the duration is not
    negative) of a working day within [daysAhead], starting more than an
    hour from now at [hour - 3] o'clock UTC, ending [slotDuration] minutes
    later, with an end that the test of the working hours lets pass, and
    meeting no booked event. *)
Theorem generated_slots_are_offered tz now c bk :
  Z.of_nat (List.length (freeSlots tz now c bk)) <= MAX_SLOTS
  /\ freeSlots tz now c bk
     = numbered 1 (map (fun x => (slot_start x, slot_end x)) (freeSlots tz now c bk))
  /\ Forall (fun x => exists dayOffset hour, offered tz now c bk dayOffset hour x)
       (freeSlots tz now c bk).
Proof.
  pose proof (days_offered tz now c bk (Z.to_nat (daysAhead c)) 0 []) as H.
  cbv zeta in H. fold (freeSlots tz now c bk) in H.
  destruct H as (L & N & F); [lia|lia| |].
  - cbn. repeat split; [unfold MAX_SLOTS; lia|constructor].
  - repeat split; trivial. symmetry. exact N.
Qed.

(** ** Slots shorter than an hour *)

Lemma fill_same tz d m c bk h s e :
  0 <= slotDuration c < 60 ->
  scan (Z.to_nat (workEnd c - h)) h tz d m c bk = Some (h, s, e) ->
  forall k l,
  fill k h tz d m c bk l
  = (l ++ numbered (Z.of_nat (List.length l) + 1) (repeat (s, e) k))%list.
Proof.
  intros D E. induction k as [|k IH]; intros l; cbn [fill repeat numbered].
  - now rewrite app_nil_r.
  - rewrite E.
    replace ((h * 60 + slotDuration c) / 60) with h.
    2:{ apply Z.div_unique with (r := slotDuration c); lia. }
    rewrite IH, <- app_assoc, length_app. cbn [app List.length].
    do 3 f_equal. lia.
Qed.

Lemma fill_repeats tz d m c bk k hour l :
  0 <= slotDuration c < 60 ->
  fill k hour tz d m c bk l = l
  \/ exists s e,
     fill k hour tz d m c bk l
     = (l ++ numbered (Z.of_nat (List.length l) + 1) (repeat (s, e) k))%list.
Proof.
  intros D. destruct k as [|k]; [now left|].
  cbn [fill].
  destruct (scan (Z.to_nat (workEnd c - hour)) hour tz d m c bk) as [[[h s] e]|] eqn:E;
    [|now left].
  right. exists s, e.
  pose proof (scan_found _ _ _ _ _ _ _ _ _ _ E) as (R & _).
  assert (A : scan (Z.to_nat (workEnd c - h)) h tz d m c bk = Some (h, s, e)).
  { replace (Z.to_nat (workEnd c - h)) with (S (Z.to_nat (workEnd c - h - 1))) by lia.
    eapply scan_again; eassumption. }
  replace ((h * 60 + slotDuration c) / 60) with h.
  2:{ apply Z.div_unique with (r := slotDuration c); lia. }
  rewrite (fill_same tz d m c bk h s e D A), <- app_assoc, length_app.
  cbn [app List.length repeat numbered]. do 3 f_equal. lia.
Qed.

Lemma days_full tz now c bk n i l :
  MAX_SLOTS <= Z.of_nat (List.length l) -> days n i tz now c bk l = l.
Proof.
  intros F. destruct n; cbn [days]; trivial.
  assert (E : (Z.of_nat (List.length l) <? MAX_SLOTS) = false) by (apply Z.ltb_ge; lia).
  now rewrite E.
Qed.

Lemma numbered_length l : forall n, List.length (numbered n l) = List.length l.
Proof.
  induction l as [|[s e] l IH]; intros n; cbn [numbered List.length]; trivial.
  now rewrite IH.
Qed.

Lemma days_repeat tz now c bk n : forall i,
  0 <= slotDuration c < 60 ->
  days n i tz now c bk [] = []
  \/ exists s e, days n i tz now c bk [] = numbered 1 (repeat (s, e) 7).
Proof.
  induction n as [|n IH]; intros i D; cbn [days]; [now left|].
  cbn [List.length Z.of_nat]. change (0 <? MAX_SLOTS) with true. cbv iota.
  destruct (isWorkingDay c (Slots.local_day tz now + i)); cbn [negb]; [|now apply IH].
  change (room []) with 7%nat.
  destruct (fill_repeats tz (Slots.local_day tz now + i) (now + 60 * 60 * 1000) c bk
              7 (workStart c) [] D) as [E|(s & e & E)]; rewrite E.
  - now apply IH.
  - right. exists s, e. cbn [app List.length Z.of_nat Z.add].
    apply days_full. rewrite numbered_length, repeat_length. unfold MAX_SLOTS. lia.
Qed.

(** X21. A slot shorter than an hour is offered seven times. When
    [slotDuration] is from 0 to 59, the hour after a free slot is the hour
    of that slot, [Math.floor((hour * 60 + slotDuration) / 60)], and
    nothing tells the loop that the slot is taken: the slots generated are
    none, or seven times the first free slot, numbered 1 to 7. *)
Theorem short_slots_repeat tz now c bk :
  0 <= slotDuration c < 60 ->
  freeSlots tz now c bk = []
  \/ exists s e, freeSlots tz now c bk = numbered 1 (repeat (s, e) 7).
Proof.
  intros D. unfold freeSlots. now apply days_repeat.
Qed.

Lemma short_slots_repeat_witness :
  0 <= slotDuration half_hours < 60
  /\ (freeSlots 0 monday_morning half_hours [] = []
      \/ exists s e, freeSlots 0 monday_morning half_hours [] = numbered 1 (repeat (s, e) 7)).
Proof.
  split; [cbn; lia|].
  apply (short_slots_repeat 0 monday_morning half_hours []). cbn. lia.
Defined.

(** ** Slots of an hour or more *)

Lemma utc_next tz d :
  utc_day (Slots.midnight tz (d + 1)) = utc_day (Slots.midnight tz d) + 1.
Proof.
  unfold utc_day, Slots.midnight.
  replace ((d + 1) * Slots.day_ms - tz) with (d * Slots.day_ms - tz + 1 * Slots.day_ms) by lia.
  apply Z.div_add. unfold Slots.day_ms, Slots.hour_ms. lia.
Qed.

Lemma slotStart_hours tz d a b : a <= b -> slotStart tz d a <= slotStart tz d b.
Proof. unfold slotStart, Slots.hour_ms. lia. Qed.

Lemma slotStart_later tz d a b : a < b -> slotStart tz d a < slotStart tz d b.
Proof. unfold slotStart, Slots.hour_ms. lia. Qed.

Lemma slotStart_next tz d a b :
  a <= 24 + b -> slotStart tz d a <= slotStart tz (d + 1) b.
Proof.
  unfold slotStart. rewrite utc_next. unfold Slots.day_ms, Slots.hour_ms, KENYA_OFFSET_HOURS.
  lia.
Qed.

Lemma fill_sorted tz d m c bk k : forall hour l,
  60 <= slotDuration c ->
  StronglySorted starts_before l ->
  Forall (fun x => slot_start x < slotStart tz d hour) l ->
  StronglySorted starts_before (fill k hour tz d m c bk l).
Proof.
  induction k as [|k IH]; intros hour l D S B; cbn [fill]; trivial.
  destruct (scan (Z.to_nat (workEnd c - hour)) hour tz d m c bk) as [[[h s] e]|] eqn:E; trivial.
  apply scan_found in E. destruct E as (R & -> & _).
  assert (N : h + 1 <= (h * 60 + slotDuration c) / 60).
  { apply Z.div_le_lower_bound; lia. }
  pose proof (slotStart_hours tz d hour h (proj1 R)) as M1.
  pose proof (slotStart_later tz d h ((h * 60 + slotDuration c) / 60)) as M2.
  apply IH; trivial.
  - apply sorted_app; trivial.
    + constructor; constructor.
    + intros x y Hx [<-|[]]. unfold starts_before. cbn [slot_start].
      rewrite Forall_forall in B. apply B in Hx. lia.
  - apply Forall_app. split.
    + eapply Forall_impl; [|exact B]. cbv beta. intros x Hx. lia.
    + constructor; [|constructor]. cbn [slot_start]. lia.
Qed.

Lemma days_sorted tz now c bk n : forall i l,
  60 <= slotDuration c -> 0 <= workStart c -> workEnd c <= 24 ->
  StronglySorted starts_before l ->
  Forall (fun x => slot_start x < slotStart tz (Slots.local_day tz now + i) (workStart c)) l ->
  StronglySorted starts_before (days n i tz now c bk l).
Proof.
  induction n as [|n IH]; intros i l D H0 H24 S B; cbn [days]; trivial.
  destruct (Z.of_nat (List.length l) <? MAX_SLOTS); trivial.
  pose proof (slotStart_next tz (Slots.local_day tz now + i)) as Next.
  rewrite <- Z.add_assoc in Next.
  destruct (isWorkingDay c (Slots.local_day tz now + i)); cbn [negb].
  - apply IH; trivial.
    + now apply fill_sorted.
    + apply (Forall_impl (P := fun x =>
               slot_start x
               < slotStart tz (Slots.local_day tz now + i) (Z.max (workStart c) (workEnd c)))).
      { intros x Hx. specialize (Next (Z.max (workStart c) (workEnd c)) (workStart c)). lia. }
      apply fill_keeps_any.
      * intros h s e k E. apply scan_found in E. destruct E as (R & -> & _).
        cbn [slot_start].
        apply (slotStart_later tz (Slots.local_day tz now + i) h
                 (Z.max (workStart c) (workEnd c))). lia.
      * eapply Forall_impl; [|exact B]. cbv beta. intros x Hx.
        pose proof (slotStart_hours tz (Slots.local_day tz now + i) (workStart c)
                      (Z.max (workStart c) (workEnd c))). lia.
  - apply IH; trivial.
    eapply Forall_impl; [|exact B]. cbv beta. intros x Hx.
    specialize (Next (workStart c) (workStart c)). lia.
Qed.

(** X22. Slots of an hour or more come in the order of time. On a server
    whose clock keeps one offset [tz] from UTC over the days searched, when
    [slotDuration] is 60 or more and the working day lies within a day,
    each slot generated starts later than the one before it: no slot is
    offered twice. *)
Theorem long_slots_in_order tz now c bk :
  60 <= slotDuration c -> 0 <= workStart c -> workEnd c <= 24 ->
  StronglySorted starts_before (freeSlots tz now c bk)
  /\ NoDup (map slot_start (freeSlots tz now c bk)).
Proof.
  intros D H0 H24.
  assert (S : StronglySorted starts_before (freeSlots tz now c bk)).
  { apply days_sorted; trivial; constructor. }
  split; trivial.
  induction S as [|x l S IH Hx]; cbn [map]; constructor; trivial.
  intros I. apply in_map_iff in I. destruct I as (y & E & Hy).
  rewrite Forall_forall in Hx. apply Hx in Hy. unfold starts_before in Hy. lia.
Qed.

Lemma long_slots_in_order_witness :
  (60 <= slotDuration hourly /\ 0 <= workStart hourly /\ workEnd hourly <= 24)
  /\ StronglySorted starts_before (freeSlots 0 monday_morning hourly [])
  /\ NoDup (map slot_start (freeSlots 0 monday_morning hourly [])).
Proof.
  assert (H : 60 <= slotDuration hourly /\ 0 <= workStart hourly /\ workEnd hourly <= 24)
    by (cbn; lia).
  split; [exact H|].
  exact (long_slots_in_order 0 monday_morning hourly []
           (proj1 H) (proj1 (proj2 H)) (proj2 (proj2 H))).
Defined.

(** ** The day of a slot *)

Lemma kenya_clock tz d h :
  0 <= h < 24 ->
  kenya_day (slotStart tz d h) = utc_day (Slots.midnight tz d)
  /\ kenya_hour (slotStart tz d h) = h.
Proof.
  intros H. unfold kenya_day, kenya_hour, slotStart.
  set (u := utc_day (Slots.midnight tz d)).
  unfold Slots.day_ms, Slots.hour_ms, KENYA_OFFSET_HOURS. split.
  - symmetry. apply Z.div_unique with (r := h * (60 * 60 * 1000)); lia.
  - replace (u * (24 * (60 * 60 * 1000)) + (h - 3) * (60 * 60 * 1000) + 3 * (60 * 60 * 1000))
      with ((u * 24 + h) * (60 * 60 * 1000)) by lia.
    rewrite Z.div_mul by lia.
    symmetry. apply Z.mod_unique with (q := u); lia.
Qed.

Lemma utc_of_local tz d :
  (- Slots.day_ms < tz <= 0 -> utc_day (Slots.midnight tz d) = d)
  /\ (0 < tz <= Slots.day_ms -> utc_day (Slots.midnight tz d) = d - 1).
Proof.
  unfold utc_day, Slots.midnight, Slots.day_ms, Slots.hour_ms. split; intros H; symmetry.
  - apply Z.div_unique with (r := - tz); lia.
  - apply Z.div_unique with (r := 24 * (60 * 60 * 1000) - tz); lia.
Qed.

(** X23. The day a slot falls on. With working hours within a day and a
    duration that is not negative, every slot generated starts, on a clock
    in Kenya, at an hour from [workStart] to before [workEnd]. The day it
    falls on in Kenya is the working day that the loop tested when the
    clock of the server is at UTC or behind it; when the clock of the
    server is ahead of UTC, as a clock in Kenya is, it is the day before a
    working day. *)
Theorem slot_day_and_hour tz now c bk :
  0 <= workStart c -> workEnd c <= 24 -> 0 <= slotDuration c ->
  Forall (fun x =>
            workStart c <= kenya_hour (slot_start x) < workEnd c
            /\ (- Slots.day_ms < tz <= 0 ->
                isWorkingDay c (kenya_day (slot_start x)) = true)
            /\ (0 < tz <= Slots.day_ms ->
                isWorkingDay c (kenya_day (slot_start x) + 1) = true))
    (freeSlots tz now c bk).
Proof.
  intros H0 H24 D.
  pose proof (days_offered tz now c bk (Z.to_nat (daysAhead c)) 0 []) as H.
  cbv zeta in H. fold (freeSlots tz now c bk) in H.
  destruct H as (_ & _ & F); [lia|lia| |].
  { cbn. repeat split; [unfold MAX_SLOTS; lia|constructor]. }
  eapply Forall_impl; [|exact F]. cbv beta.
  intros x (i & h & _ & W & Hh & Hs & E & _).
  specialize (Hs D).
  destruct (kenya_clock tz (Slots.local_day tz now + i) h) as (Kd & Kh); [lia|].
  destruct (utc_of_local tz (Slots.local_day tz now + i)) as (U0 & U1).
  rewrite E, Kd, Kh. split; [lia|]. split; intros T.
  - now rewrite (U0 T).
  - rewrite (U1 T). now replace (Slots.local_day tz now + i - 1 + 1)
      with (Slots.local_day tz now + i) by lia.
Qed.

Lemma slot_day_and_hour_witness :
  (0 <= workStart hourly /\ workEnd hourly <= 24 /\ 0 <= slotDuration hourly)
  /\ Forall (fun x =>
            workStart hourly <= kenya_hour (slot_start x) < workEnd hourly
            /\ (- Slots.day_ms < 3 * Slots.hour_ms <= 0 ->
                isWorkingDay hourly (kenya_day (slot_start x)) = true)
            /\ (0 < 3 * Slots.hour_ms <= Slots.day_ms ->
                isWorkingDay hourly (kenya_day (slot_start x) + 1) = true))
    (freeSlots (3 * Slots.hour_ms) monday_morning hourly []).
Proof.
  assert (H : 0 <= workStart hourly /\ workEnd hourly <= 24 /\ 0 <= slotDuration hourly)
    by (cbn; lia).
  split; [exact H|].
  exact (slot_day_and_hour (3 * Slots.hour_ms) monday_morning hourly []
           (proj1 H) (proj1 (proj2 H)) (proj2 (proj2 H))).
Defined.
